(** * Career Navigator client: a shallow embedding of its three components

    The client is three React components wired by [App.tsx]:
    - [ResumeUpload] posts a file and hands the returned identifier to its
      caller;
    - [JobList] fetches the matches of a resume and renders one card each;
    - [RoadmapDialog] fetches a career roadmap and renders its four sections.

    Components are modelled as functions from props, local state and the
    result of their query to a tree of elements; a JavaScript exception is
    an explicit [Throw].  Numbers are IEEE-754 doubles, as in JavaScript,
    through the kernel's primitive floats.  The request cache of TanStack
    Query, which the components only configure, is modelled as a finite map
    from query keys to query states with an explicit clock in milliseconds. *)

From Stdlib Require Import Floats Uint63.
From stdpp Require Import gmap strings list pretty.

Set Warnings "-inexact-float,-register-all".

(** ** JavaScript values *)

Module JS.

(** What [JSON.parse] can produce, plus [undefined] (the value of a missing
    property).  An object is the list of its own properties; a parsed object
    has no two properties of one name. *)
Inductive value :=
| VUndefined
| VNull
| VBool (b : bool)
| VNum (f : float)
| VStr (s : string)
| VArr (l : list value)
| VObj (fields : list (string * value)).

Inductive exn :=
| TypeError (msg : string)
| ReactError (msg : string).

(** The outcome of evaluating an expression that may throw. *)
Inductive result (A : Type) :=
| Ok (a : A)
| Throw (e : exn).
Arguments Ok {A} a.
Arguments Throw {A} e.

Definition bind {A B} (m : result A) (k : A -> result B) : result B :=
  match m with
  | Ok a => k a
  | Throw e => Throw e
  end.

Definition is_ok {A} (m : result A) : bool :=
  match m with Ok _ => true | Throw _ => false end.

Definition is_nan (f : float) : bool := negb (PrimFloat.eqb f f).

Definition of_nat (n : nat) : float := PrimFloat.of_uint63 (Uint63.of_Z (Z.of_nat n)).

(** ToBoolean. *)
Definition truthy (v : value) : bool :=
  match v with
  | VUndefined | VNull => false
  | VBool b => b
  | VNum f => negb (PrimFloat.eqb f 0 || is_nan f)
  | VStr s => negb (String.eqb s "")
  | VArr _ | VObj _ => true
  end.

Definition nullish (v : value) : bool :=
  match v with
  | VUndefined | VNull => true
  | _ => false
  end.

(** [a || b] and [a && b] on values. *)
Definition or (a b : value) : value := if truthy a then a else b.
Definition and (a b : value) : value := if truthy a then b else a.

(** [Array.isArray(v)]. *)
Definition isArray (v : value) : bool :=
  match v with VArr _ => true | _ => false end.

Fixpoint lookup_field (k : string) (fields : list (string * value)) : option value :=
  match fields with
  | [] => None
  | (k', v) :: rest => if String.eqb k k' then Some v else lookup_field k rest
  end.

(** [v[k]] for a [v] that is neither [null] nor [undefined].  Besides own
    properties, the only inherited property the components read is [length]
    of arrays and strings; every other name they read ([skills_gap], [title],
    [id], ...) is on no prototype, so it is [undefined] on a primitive or an
    array. *)
Definition get_own (v : value) (k : string) : value :=
  match v with
  | VObj fields => default VUndefined (lookup_field k fields)
  | VArr l => if String.eqb k "length" then VNum (of_nat (length l)) else VUndefined
  | VStr s => if String.eqb k "length" then VNum (of_nat (String.length s)) else VUndefined
  | _ => VUndefined
  end.

(** [v.k]: a TypeError on [null] and [undefined]. *)
Definition get (v : value) (k : string) : result value :=
  if nullish v then Throw (TypeError ("Cannot read properties of null or undefined, reading " +:+ k))
  else Ok (get_own v k).

(** [v?.k]. *)
Definition opt_get (v : value) (k : string) : value :=
  if nullish v then VUndefined else get_own v k.

(** [String.prototype.startsWith(searchString)] at position 0. *)
Fixpoint startsWith (s searchString : string) {struct searchString} : bool :=
  match searchString with
  | EmptyString => true
  | String c rest =>
      match s with
      | EmptyString => false
      | String d s' => if Ascii.eqb c d then startsWith s' rest else false
      end
  end.

(** [v.startsWith(searchString)]: the method exists on strings only; on any
    other value the property is read (a TypeError on null and undefined) and
    then called, and a call of a non-function is a TypeError. *)
Definition call_startsWith (v : value) (searchString : string) : result value :=
  match v with
  | VStr s => Ok (VBool (startsWith s searchString))
  | VUndefined | VNull =>
      Throw (TypeError "Cannot read properties of null or undefined, reading startsWith")
  | _ => Throw (TypeError "startsWith is not a function")
  end.

(** [v?.startsWith?.(searchString)]: [undefined] when [v] or the property is
    null or undefined; a property that is present and not a function (an
    object's own [startsWith] field) is still called, which throws. *)
Definition opt_call_startsWith (v : value) (searchString : string) : result value :=
  match v with
  | VStr s => Ok (VBool (startsWith s searchString))
  | VObj fields =>
      if nullish (default VUndefined (lookup_field "startsWith" fields))
      then Ok VUndefined
      else Throw (TypeError "startsWith is not a function")
  | _ => Ok VUndefined
  end.

End JS.
Import JS.

(** Induction on values that reaches the entries of arrays. *)
Section value_induction.
Variable P : value -> Prop.
Hypothesis Hundefined : P VUndefined.
Hypothesis Hnull : P VNull.
Hypothesis Hbool : forall b, P (VBool b).
Hypothesis Hnum : forall f, P (VNum f).
Hypothesis Hstr : forall s, P (VStr s).
Hypothesis Harr : forall l, Forall P l -> P (VArr l).
Hypothesis Hobj : forall fields, P (VObj fields).

Fixpoint value_array_ind (v : value) : P v :=
  match v with
  | VUndefined => Hundefined
  | VNull => Hnull
  | VBool b => Hbool b
  | VNum f => Hnum f
  | VStr s => Hstr s
  | VArr l =>
      Harr l ((fix entries (l : list value) : Forall P l :=
                 match l with
                 | [] => List.Forall_nil P
                 | x :: rest => @List.Forall_cons _ P x rest (value_array_ind x) (entries rest)
                 end) l)
  | VObj fields => Hobj fields
  end.
End value_induction.

Notation "'let!' x ':=' e 'in' k" := (JS.bind e (fun x => k))
  (at level 10, x name, e at level 100, k at level 200).

(** ** Rendered output *)

Module React.

(** What an event handler attached to an element does when it fires. *)
Inductive handler :=
| Callback (prop : string)            (* a callback the parent passed as a prop *)
| WindowLocationReload                (* [() => window.location.reload()] *)
| ConsoleLogSaveRoadmap               (* [() => console.log('Save roadmap:', roadmap)] *)
| SetSelectedJob (title : option string)
| SetSelectedJobUntyped (title : value) (* [setSelectedJob(v)], [v] no string, null or undefined *)
| HandleUpload
| SetFileFromInput.

(** Text shown on screen: a string, a number printed by React, or the output
    of [JSON.stringify(v, null, 2)]. *)
Inductive text :=
| TStr (s : string)
| TNum (f : float)
| TJson (v : value).

(** An element with the props that matter to the behaviour ([variant],
    [color], [disabled], [value], [key], [open], and the [color] entry of
    [sx] as [sx.color]); the layout entries of [sx] are left out. *)
Inductive node :=
| Text (t : text)
| Elem (component : string) (props : list (string * value))
       (handlers : list (string * handler)) (children : list node).

(** A JavaScript value in child position: strings and numbers are text,
    booleans, null and undefined render nothing, an array renders its
    entries, and a plain object is refused by React with an exception. *)
Fixpoint child (v : value) : result (list node) :=
  match v with
  | VUndefined | VNull | VBool _ => Ok []
  | VNum f => Ok [Text (TNum f)]
  | VStr s => Ok [Text (TStr s)]
  | VArr l =>
      (fix children (l : list value) : result (list node) :=
         match l with
         | [] => Ok []
         | x :: rest =>
             let! a := child x in
             let! b := children rest in
             Ok (a ++ b)
         end) l
  | VObj _ => Throw (ReactError "Objects are not valid as a React child")
  end.

(** [arr.map((x, index) => f x index)] where the callback may throw. *)
Fixpoint mapi_from {A B} (f : A -> nat -> result (list B)) (index : nat) (l : list A)
  : result (list B) :=
  match l with
  | [] => Ok []
  | x :: rest =>
      let! a := f x index in
      let! b := mapi_from f (S index) rest in
      Ok (a ++ b)
  end.

Definition mapi {A B} (f : A -> nat -> result (list B)) (l : list A) : result (list B) :=
  mapi_from f 0 l.

(** *** Reading a rendered tree *)

Definition component_of (n : node) : string :=
  match n with Text _ => "" | Elem c _ _ _ => c end.

Definition prop (k : string) (n : node) : value :=
  match n with
  | Text _ => VUndefined
  | Elem _ props _ _ => default VUndefined (lookup_field k props)
  end.

Fixpoint lookup_handler (k : string) (hs : list (string * handler)) : option handler :=
  match hs with
  | [] => None
  | (k', h) :: rest => if String.eqb k k' then Some h else lookup_handler k rest
  end.

Definition handler_of (k : string) (n : node) : option handler :=
  match n with
  | Text _ => None
  | Elem _ _ hs _ => lookup_handler k hs
  end.

Definition children_of (n : node) : list node :=
  match n with Text _ => [] | Elem _ _ _ cs => cs end.

(** Every text of the tree, in document order. *)
Fixpoint texts (n : node) : list text :=
  match n with
  | Text t => [t]
  | Elem _ _ _ cs =>
      (fix go (cs : list node) : list text :=
         match cs with
         | [] => []
         | c :: rest => texts c ++ go rest
         end) cs
  end.

(** Every element of component [c] in the tree, in document order. *)
Fixpoint find_all (c : string) (n : node) : list node :=
  match n with
  | Text _ => []
  | Elem c' _ _ cs =>
      (if String.eqb c c' then [n] else []) ++
      (fix go (cs : list node) : list node :=
         match cs with
         | [] => []
         | x :: rest => find_all c x ++ go rest
         end) cs
  end.

Definition disabled (n : node) : bool := truthy (prop "disabled" n).

(** A click on an element: a disabled button fires nothing. *)
Definition click (n : node) : option handler :=
  if disabled n then None else handler_of "onClick" n.

Definition shows (s : string) (n : node) : Prop := In (TStr s) (texts n).

End React.
Import React.

(** ** HTTP requests (axios) *)

Module Axios.

Record File := { file_name : string }.

Inductive body :=
| NoBody
| JsonBody (v : value)
| FormData (fields : list (string * File)).

(** [path] is the part of the URL after [${API_URL}], the base URL taken
    from the environment. *)
Record request := { method : string; path : string; body_of : body }.

End Axios.
Import Axios.

(** ** The request cache (TanStack Query v5)

    The components configure the library through [useQuery] and
    [useMutation]; what the library then does is modelled here, restricted
    to the options they set: a query is fetched when an enabled observer
    attaches to it and it is stale, a failed attempt is retried while the
    failure count is below [retry], and a result is stale once [staleTime]
    milliseconds have passed since it arrived.  The cache neither tracks
    observers nor garbage-collects. *)

Module ReactQuery.

(** A query key: an array of strings and nulls. *)
Definition QueryKey := list (option string).

Inductive QueryStatus := Pending | Errored | Success.
Inductive FetchStatus := Fetching | Idle.

Record Query := {
  state_data : value;             (* [undefined] until a first result *)
  state_dataUpdatedAt : Z;
  state_error : option string;    (* the [message] of the [Error] *)
  state_failureCount : nat;
  state_status : QueryStatus;
  state_fetchStatus : FetchStatus;
  state_isInvalidated : bool
}.

(** What a [queryFn] does: resolve without touching the network, or issue a
    request and resolve with [response.data]. *)
Inductive QueryFn :=
| Resolve (v : value)
| Fetch (r : request).

Record QueryOptions := {
  queryKey : QueryKey;
  queryFn : QueryFn;
  enabled : bool;
  retry : nat;        (* the library's default is 3 *)
  staleTime : Z       (* the library's default is 0 *)
}.

Definition initial : Query :=
  {| state_data := VUndefined; state_dataUpdatedAt := 0; state_error := None;
     state_failureCount := 0; state_status := Pending; state_fetchStatus := Idle;
     state_isInvalidated := false |}.

(** The query under a key, built on first use. *)
Definition build (k : QueryKey) (c : gmap QueryKey Query) : Query :=
  default initial (c !! k).

Definition is_undefined (v : value) : bool :=
  match v with VUndefined => true | _ => false end.

(** [isStaleByTime]: no data is always stale, invalidated data is stale, and
    otherwise the data is stale from [dataUpdatedAt + staleTime] on. *)
Definition isStaleByTime (q : Query) (staleTime now : Z) : bool :=
  is_undefined (state_data q)
  || state_isInvalidated q
  || (state_dataUpdatedAt q + staleTime <=? now)%Z.

(** The state after a result arrived at [now]. *)
Definition succeeded (now : Z) (v : value) : Query :=
  {| state_data := v; state_dataUpdatedAt := now; state_error := None;
     state_failureCount := 0; state_status := Success; state_fetchStatus := Idle;
     state_isInvalidated := false |}.

(** The state after the fetch gave up. *)
Definition failed (msg : string) (q : Query) : Query :=
  {| state_data := state_data q; state_dataUpdatedAt := state_dataUpdatedAt q;
     state_error := Some msg; state_failureCount := S (state_failureCount q);
     state_status := Errored; state_fetchStatus := Idle;
     state_isInvalidated := state_isInvalidated q |}.

(** The state when a fetch starts: a query without data goes back to
    pending. *)
Definition fetching (q : Query) : Query :=
  {| state_data := state_data q; state_dataUpdatedAt := state_dataUpdatedAt q;
     state_error := if is_undefined (state_data q) then None else state_error q;
     state_failureCount := 0;
     state_status := if is_undefined (state_data q) then Pending else state_status q;
     state_fetchStatus := Fetching;
     state_isInvalidated := state_isInvalidated q |}.

Definition retrying (q : Query) : Query :=
  {| state_data := state_data q; state_dataUpdatedAt := state_dataUpdatedAt q;
     state_error := state_error q; state_failureCount := S (state_failureCount q);
     state_status := state_status q; state_fetchStatus := Fetching;
     state_isInvalidated := state_isInvalidated q |}.

Definition invalidated (q : Query) : Query :=
  {| state_data := state_data q; state_dataUpdatedAt := state_dataUpdatedAt q;
     state_error := state_error q; state_failureCount := state_failureCount q;
     state_status := state_status q; state_fetchStatus := state_fetchStatus q;
     state_isInvalidated := true |}.

(** The response of a request arrived with body [v] at [now].  A [queryFn]
    that resolves with [undefined] is an error for the library. *)
Definition settle_success (now : Z) (o : QueryOptions) (v : value)
    (c : gmap QueryKey Query) : gmap QueryKey Query :=
  if is_undefined v
  then <[queryKey o := failed "data is undefined" (build (queryKey o) c)]> c
  else <[queryKey o := succeeded now v]> c.

(** The requests a [queryFn] issues when it runs. *)
Definition requests_of (f : QueryFn) : list request :=
  match f with Resolve _ => [] | Fetch r => [r] end.

(** The [queryFn] of the fetch in flight rejected with [Error(msg)]:
    another attempt while the failure count is below [retry], the error
    state otherwise.  Whether the observer is still enabled is not asked:
    [enabled] decides whether a fetch starts, not whether one in flight goes
    on.  A query that is not fetching has nothing to reject. *)
Definition settle_failure (o : QueryOptions) (msg : string)
    (c : gmap QueryKey Query) : gmap QueryKey Query * list request :=
  let q := build (queryKey o) c in
  match state_fetchStatus q with
  | Idle => (c, [])
  | Fetching =>
      if (state_failureCount q <? retry o)%nat
      then (<[queryKey o := retrying q]> c, requests_of (queryFn o))
      else (<[queryKey o := failed msg q]> c, [])
  end.

(** [query.fetch]: a fetch already in flight is reused; otherwise the
    [queryFn] runs. *)
Definition fetch (now : Z) (o : QueryOptions) (c : gmap QueryKey Query)
  : gmap QueryKey Query * list request :=
  let q := build (queryKey o) c in
  match state_fetchStatus q with
  | Fetching => (c, [])
  | Idle =>
      let c' := <[queryKey o := fetching q]> c in
      match queryFn o with
      | Fetch r => (c', [r])
      | Resolve v => (settle_success now o v c', [])
      end
  end.

(** An observer with options [o] attaches to its query at [now] (the
    component mounts, or its key or [enabled] changed): the query is fetched
    when the observer is enabled and the query is stale. *)
Definition observe (now : Z) (o : QueryOptions) (c : gmap QueryKey Query)
  : gmap QueryKey Query * list request :=
  let q := build (queryKey o) c in
  if enabled o && isStaleByTime q (staleTime o) now
  then fetch now o c
  else (<[queryKey o := q]> c, []).

(** [queryClient.invalidateQueries({ queryKey: filter })] marks every query
    whose key starts with [filter]. *)
Definition invalidateQueries (filter : QueryKey) (c : gmap QueryKey Query)
  : gmap QueryKey Query :=
  map_imap (fun k q => Some (if bool_decide (filter `prefix_of` k) then invalidated q else q)) c.

(** What [useQuery] returns to the component. *)
Record UseQueryResult := {
  data : value;
  isLoading : bool;
  isError : bool;
  error : option string
}.

Definition is_pending (q : Query) : bool :=
  match state_status q with Pending => true | _ => false end.
Definition is_errored (q : Query) : bool :=
  match state_status q with Errored => true | _ => false end.
Definition is_fetching (q : Query) : bool :=
  match state_fetchStatus q with Fetching => true | Idle => false end.

(** [isLoading] is [isFetching && isPending]; [isError] is
    [status === 'error']. *)
Definition result_of (q : Query) : UseQueryResult :=
  {| data := state_data q;
     isLoading := is_fetching q && is_pending q;
     isError := is_errored q;
     error := state_error q |}.

Definition useQuery (o : QueryOptions) (c : gmap QueryKey Query) : UseQueryResult :=
  result_of (build (queryKey o) c).

(** *** The cache over time *)

Inductive cache_event :=
| Observe (now : Z) (o : QueryOptions)
| Response (now : Z) (o : QueryOptions) (v : value)
| Failure (o : QueryOptions) (msg : string)
| Invalidate (filter : QueryKey).

Definition cache_step (ev : cache_event) (c : gmap QueryKey Query)
  : gmap QueryKey Query * list request :=
  match ev with
  | Observe now o => observe now o c
  | Response now o v => (settle_success now o v c, [])
  | Failure o msg => settle_failure o msg c
  | Invalidate filter => (invalidateQueries filter c, [])
  end.

Fixpoint cache_run (evs : list cache_event) (c : gmap QueryKey Query)
  : gmap QueryKey Query * list request :=
  match evs with
  | [] => (c, [])
  | ev :: rest =>
      let '(c1, out1) := cache_step ev c in
      let '(c2, out2) := cache_run rest c1 in
      (c2, out1 ++ out2)
  end.

(** The event concerns the query under key [k]. *)
Definition touches (k : QueryKey) (ev : cache_event) : bool :=
  match ev with
  | Observe _ o | Response _ o _ | Failure o _ => bool_decide (queryKey o = k)
  | Invalidate filter => bool_decide (filter `prefix_of` k)
  end.

(** *** Mutations *)

Inductive MutationStatus := MIdle | MPending | MSuccess | MError.

Definition isPending (m : MutationStatus) : bool :=
  match m with MPending => true | _ => false end.
Definition isSuccess (m : MutationStatus) : bool :=
  match m with MSuccess => true | _ => false end.
Definition mutation_isError (m : MutationStatus) : bool :=
  match m with MError => true | _ => false end.

End ReactQuery.
Import ReactQuery.

(** ** Material UI elements *)

Module MUI.

Definition Typography (props : list (string * value)) (children : list node) : node :=
  Elem "Typography" props [] children.

Definition Box (props : list (string * value)) (children : list node) : node :=
  Elem "Box" props [] children.

Definition Button (props : list (string * value)) (onClick : handler)
    (children : list node) : node :=
  Elem "Button" props [("onClick", onClick)] children.

Definition str (s : string) : node := Text (TStr s).

End MUI.
Import MUI.

(** ** src/client/src/components/RoadmapDialog.tsx *)

Module RoadmapDialog.

Record RoadmapDialogProps := {
  open : bool;
  onClose : handler;
  resumeId : string;
  jobTitle : string
}.

(** [axios.post(`${API_URL}/career/roadmap`, { resume_id, target_role })]. *)
Definition roadmap_request (resumeId jobTitle : string) : request :=
  {| method := "POST"; path := "/career/roadmap";
     body_of := JsonBody (VObj [("resume_id", VStr resumeId); ("target_role", VStr jobTitle)]) |}.

(** The options handed to [useQuery] (lines 29-54). *)
Definition query (p : RoadmapDialogProps) : QueryOptions :=
  {| queryKey := [Some "roadmap"; Some (resumeId p); Some (jobTitle p)];
     queryFn := Fetch (roadmap_request (resumeId p) (jobTitle p));
     enabled := open p && truthy (VStr (resumeId p)) && truthy (VStr (jobTitle p));
     retry := 2;
     staleTime := 5 * 60 * 1000 |}.

(** The entries of an array ([] for anything else). *)
Definition elements (v : value) : list value :=
  match v with VArr l => l | _ => [] end.

(** [x && Array.isArray(x) && x.length > 0]. *)
Definition nonempty_array (x : value) : bool :=
  truthy x && isArray x && (0 <? length (elements x))%nat.

(** The grey line a section shows instead of its list. *)
Definition placeholder (msg : string) : node :=
  Typography [("variant", VStr "body2"); ("color", VStr "text.secondary")] [str msg].

Definition heading (title : string) : node :=
  Typography [("variant", VStr "h6")] [str title].

(** One bullet of a list of strings: [{item || fallback}]. *)
Definition bullet (key : value) (item : value) (fallback : string) : result (list node) :=
  let! shown := child (JS.or item (VStr fallback)) in
  Ok [Typography [("key", key); ("variant", VStr "body2")] shown].

(** Lines 158-174: one skill, coloured by its prefix. *)
Definition skill_item (skill : value) (index : nat) : result (list node) :=
  let! required := opt_call_startsWith skill "Required:" in
  let! shown := child (JS.or skill (VStr "Unknown skill")) in
  Ok [Typography [("key", VStr ("skill-" +:+ pretty index)); ("variant", VStr "body2");
                  ("sx.color", VStr (if truthy required then "error.main" else "info.main"))]
                 shown].

(** Lines 157-179. *)
Definition skills_gap_section (roadmap : value) : result (list node) :=
  let! skills_gap := get roadmap "skills_gap" in
  if nonempty_array skills_gap
  then mapi skill_item (elements skills_gap)
  else Ok [placeholder "No skills gap data available"].

(** Lines 208-229: the tasks of one phase; an empty array of tasks is
    mapped (to nothing), not replaced by the placeholder. *)
Definition tasks_of (step : value) : result (list node) :=
  let tasks := opt_get step "tasks" in
  if truthy tasks && isArray tasks
  then mapi (fun task taskIndex => bullet (VNum (of_nat taskIndex)) task "Task not specified")
            (elements tasks)
  else Ok [placeholder "No tasks defined for this phase"].

(** Lines 199-232: one phase of the learning path. *)
Definition step_item (step : value) (index : nat) : result (list node) :=
  let! title := child (JS.or (opt_get step "title") (VStr ("Phase " +:+ pretty (index + 1)))) in
  let! duration := child (JS.or (opt_get step "duration") (VStr "Duration not specified")) in
  let! tasks := tasks_of step in
  Ok [Elem "Step" [("key", VNum (of_nat index)); ("active", VBool true)] []
        [Elem "StepLabel" [] []
           [Typography [("variant", VStr "subtitle1")] title;
            Typography [("variant", VStr "caption"); ("color", VStr "text.secondary")] duration];
         Elem "StepContent" [] [] [Box [] tasks]]].

(** Lines 197-238. *)
Definition learning_path_section (roadmap : value) : result (list node) :=
  let! learning_path := get roadmap "learning_path" in
  if nonempty_array learning_path
  then mapi step_item (elements learning_path)
  else Ok [placeholder "No learning path data available"].

(** Lines 258-279. *)
Definition certifications_section (roadmap : value) : result (list node) :=
  let! certifications := get roadmap "certifications" in
  if nonempty_array certifications
  then mapi (fun cert index =>
               bullet (VStr ("cert-" +:+ pretty index)) cert "Certification not specified")
            (elements certifications)
  else Ok [placeholder "No certification recommendations available"].

(** Lines 300-317: one suggested project. *)
Definition project_item (project : value) (index : nat) : result (list node) :=
  let! title := child (JS.or (opt_get project "title") (VStr ("Project " +:+ pretty (index + 1)))) in
  let! description :=
    child (JS.or (opt_get project "description") (VStr "Project description not available")) in
  Ok [Box [("key", VNum (of_nat index))]
        [Typography [("variant", VStr "subtitle1"); ("color", VStr "primary")] title;
         Typography [("variant", VStr "body2"); ("color", VStr "text.secondary")] description]].

(** Lines 299-322. *)
Definition projects_section (roadmap : value) : result (list node) :=
  let! projects := get roadmap "projects" in
  if nonempty_array projects
  then mapi project_item (elements projects)
  else Ok [placeholder "No project suggestions available"].

(** Lines 140-325: the grid of the four sections, each evaluated on its own
    field of the response. *)
Definition sections (roadmap : value) : result (list node) :=
  let! skills := skills_gap_section roadmap in
  let! path := learning_path_section roadmap in
  let! certs := certifications_section roadmap in
  let! projects := projects_section roadmap in
  Ok [Box [] [heading "Skills Gap Analysis"; Box [] skills];
      Box [] [heading "Learning Path"; Elem "Stepper" [("orientation", VStr "vertical")] [] path];
      Box [] [heading "Recommended Certifications"; Box [] certs];
      Box [] [heading "Suggested Projects"; Box [] projects]].

(** [roadmap?.field?.length || 0]. *)
Definition count (roadmap : value) (field : string) : value :=
  JS.or (opt_get (opt_get roadmap field) "length") (VNum 0).

(** Lines 111-138: the debug box of a development build. *)
Definition debug_info (roadmap : value) : result (list node) :=
  let! skills := child (count roadmap "skills_gap") in
  let! path := child (count roadmap "learning_path") in
  let! certs := child (count roadmap "certifications") in
  let! projects := child (count roadmap "projects") in
  Ok [Box []
        [Typography [("variant", VStr "caption"); ("fontWeight", VStr "bold")] [str "Debug Info:"];
         Typography [("variant", VStr "caption"); ("display", VStr "block")]
           ([str "Data received: "; str (if truthy roadmap then "Yes" else "No");
             str " | Skills gap: "] ++ skills ++
            [str " | Learning path: "] ++ path ++
            [str " | Certifications: "] ++ certs ++
            [str " | Projects: "] ++ projects);
         Box [("component", VStr "pre")] [Text (TJson roadmap)]]].

(** Lines 109-326: what is shown for a roadmap; [DEV] is
    [import.meta.env.DEV]. *)
Definition content (DEV : bool) (roadmap : value) : result (list node) :=
  let! debug := (if DEV then debug_info roadmap else Ok []) in
  let! grid := sections roadmap in
  Ok [Box [] (debug ++ [Box [] grid])].

(** [{!isLoading && !isError && roadmap && view}]: the view when all three
    hold; otherwise the first falsy operand in child position ([false]
    renders nothing, a falsy [roadmap] renders as a child). *)
Definition when_loaded (q : UseQueryResult) (view : value -> result (list node))
  : result (list node) :=
  if negb (isLoading q) && negb (isError q)
  then (if truthy (data q) then view (data q) else child (data q))
  else Ok [].

(** Lines 68-72. *)
Definition loading_view (q : UseQueryResult) : list node :=
  if isLoading q
  then [Box [] [Typography [] [str "Generating your personalized career roadmap..."]]]
  else [].

(** Lines 74-106. *)
Definition error_view (p : RoadmapDialogProps) (q : UseQueryResult) : list node :=
  if isError q
  then [Box [("sx.color", VStr "error.main")]
          [Typography [("variant", VStr "h6")] [str "Error Loading Roadmap"];
           Typography []
             [str (default "An error occurred while generating your career roadmap" (error q))];
           Typography [("variant", VStr "body2"); ("sx.color", VStr "text.secondary")]
             [str "Please try again. If the problem persists, check the console for more details."];
           Box []
             [Button [("variant", VStr "outlined"); ("color", VStr "primary")] (onClose p)
                [str "Close"];
              Button [("variant", VStr "contained"); ("color", VStr "primary")]
                WindowLocationReload [str "Retry"]]]]
  else [].

(** Lines 330-337: the Close button of the dialog's action bar. *)
Definition close_button (p : RoadmapDialogProps) (q : UseQueryResult) : node :=
  Button [("variant", VStr "outlined"); ("color", VStr "primary");
          ("disabled", VBool (isLoading q))] (onClose p) [str "Close"].

Definition save_button : node :=
  Button [("variant", VStr "contained"); ("color", VStr "primary")]
    ConsoleLogSaveRoadmap [str "Save Roadmap"].

(** Lines 56-352.  The children are evaluated whether the dialog is open
    or not, as the JSX expressions are. *)
Definition render (DEV : bool) (p : RoadmapDialogProps) (q : UseQueryResult) : result node :=
  let! loaded := when_loaded q (content DEV) in
  let! save := when_loaded q (fun _ => Ok [save_button]) in
  Ok (Elem "Dialog"
        [("open", VBool (open p)); ("maxWidth", VStr "md"); ("fullWidth", VBool true)]
        [("onClose", onClose p)]
        [Elem "DialogTitle" [] [] [str "Career Roadmap: "; str (jobTitle p)];
         Elem "DialogContent" [] [] (loading_view q ++ error_view p q ++ loaded);
         Elem "DialogActions" [] [] (close_button p q :: save)]).

End RoadmapDialog.

(** ** src/unnamed/part_000, first document: a second copy of RoadmapDialog

    The same component without the guards of the copy above: every list is
    mapped directly.  [JobList] imports ['./RoadmapDialog'], the file of the
    components directory modelled above, so this copy is kept apart. *)

Module RoadmapDialogPart000.

Import RoadmapDialog.

(** [v.map((x, index) => f x index)]: [map] exists on arrays only. *)
Definition call_map (v : value) (f : value -> nat -> result (list node)) : result (list node) :=
  match v with
  | VArr l => mapi f l
  | VUndefined | VNull => Throw (TypeError "Cannot read properties of null or undefined, reading map")
  | _ => Throw (TypeError "map is not a function")
  end.

(** Lines 106-122. *)
Definition skill_item (skill : value) (index : nat) : result (list node) :=
  let! required := call_startsWith skill "Required:" in
  let! shown := child skill in
  Ok [Typography [("key", skill); ("variant", VStr "body2");
                  ("sx.color", VStr (if truthy required then "error.main" else "info.main"))]
                 shown].

Definition skills_gap_section (roadmap : value) : result (list node) :=
  let! skills_gap := get roadmap "skills_gap" in
  call_map skills_gap skill_item.

(** Lines 140-169. *)
Definition step_item (step : value) (index : nat) : result (list node) :=
  let! title := get step "title" in
  let! title := child title in
  let! duration := get step "duration" in
  let! duration := child duration in
  let! tasks := get step "tasks" in
  let! tasks := call_map tasks (fun task taskIndex =>
                  let! shown := child task in
                  Ok [Typography [("key", VNum (of_nat taskIndex)); ("variant", VStr "body2")] shown]) in
  Ok [Elem "Step" [("key", VNum (of_nat index)); ("active", VBool true)] []
        [Elem "StepLabel" [] []
           [Typography [("variant", VStr "subtitle1")] title;
            Typography [("variant", VStr "caption"); ("color", VStr "text.secondary")] duration];
         Elem "StepContent" [] [] [Box [] tasks]]].

Definition learning_path_section (roadmap : value) : result (list node) :=
  let! learning_path := get roadmap "learning_path" in
  call_map learning_path step_item.

(** Lines 189-204. *)
Definition certifications_section (roadmap : value) : result (list node) :=
  let! certifications := get roadmap "certifications" in
  call_map certifications (fun cert _ =>
    let! shown := child cert in
    Ok [Typography [("key", cert); ("variant", VStr "body2")] shown]).

(** Lines 224-241. *)
Definition project_item (project : value) (index : nat) : result (list node) :=
  let! title := get project "title" in
  let! title := child title in
  let! description := get project "description" in
  let! description := child description in
  Ok [Box [("key", VNum (of_nat index))]
        [Typography [("variant", VStr "subtitle1"); ("color", VStr "primary")] title;
         Typography [("variant", VStr "body2"); ("color", VStr "text.secondary")] description]].

Definition projects_section (roadmap : value) : result (list node) :=
  let! projects := get roadmap "projects" in
  call_map projects project_item.

Definition sections (roadmap : value) : result (list node) :=
  let! skills := skills_gap_section roadmap in
  let! path := learning_path_section roadmap in
  let! certs := certifications_section roadmap in
  let! projects := projects_section roadmap in
  Ok [Box [] [heading "Skills Gap Analysis"; Box [] skills];
      Box [] [heading "Learning Path"; Elem "Stepper" [("orientation", VStr "vertical")] [] path];
      Box [] [heading "Recommended Certifications"; Box [] certs];
      Box [] [heading "Suggested Projects"; Box [] projects]].

Definition content (roadmap : value) : result (list node) :=
  let! grid := sections roadmap in
  Ok [Box [] [Box [] grid]].

(** Lines 66-85. *)
Definition error_view (p : RoadmapDialogProps) (q : UseQueryResult) : list node :=
  if isError q
  then [Box [("sx.color", VStr "error.main")]
          [Typography [("variant", VStr "h6")] [str "Error Loading Roadmap"];
           Typography [] [str (default "An error occurred" (error q))];
           Button [("variant", VStr "contained"); ("color", VStr "primary")] (onClose p)
             [str "Close"]]]
  else [].

(** Lines 48-271; the query options (lines 29-46) are those of
    [RoadmapDialog.query]. *)
Definition render (p : RoadmapDialogProps) (q : UseQueryResult) : result node :=
  let! loaded := when_loaded q content in
  let! save := when_loaded q (fun _ => Ok [save_button]) in
  Ok (Elem "Dialog"
        [("open", VBool (open p)); ("maxWidth", VStr "md"); ("fullWidth", VBool true)]
        [("onClose", onClose p)]
        [Elem "DialogTitle" [] [] [str "Career Roadmap: "; str (jobTitle p)];
         Elem "DialogContent" [] [] (loading_view q ++ error_view p q ++ loaded);
         Elem "DialogActions" [] [] (close_button p q :: save)]).

End RoadmapDialogPart000.

(** ** src/unnamed/part_000, second document: ResumeUpload *)

Module ResumeUpload.

(** What running a handler or a mutation callback does to the world. *)
Inductive effect :=
| Http (r : request)
| InvalidateQueries (filter : QueryKey)
| OnUploadSuccess (id : value).          (* the [onUploadSuccess] prop is called *)

Record State := {
  file : option File;                    (* [useState<File | null>(null)] *)
  uploadMutation : MutationStatus
}.

Definition initial_state : State := {| file := None; uploadMutation := MIdle |}.

(** Lines 290-297: [mutationFn]. *)
Definition mutationFn (formData : list (string * File)) : request :=
  {| method := "POST"; path := "/resume/upload"; body_of := FormData formData |}.

(** Lines 298-301: [onSuccess]; reading [data.id] throws when the response
    body is null or undefined, after the invalidation. *)
Definition onSuccess (data : value) : list effect * option exn :=
  match get data "id" with
  | Ok id => ([InvalidateQueries [Some "resume"]; OnUploadSuccess id], None)
  | Throw e => ([InvalidateQueries [Some "resume"]], Some e)
  end.

(** [uploadMutation.mutate(formData)]: the mutation is pending and its
    [mutationFn] runs. *)
Definition mutate (formData : list (string * File)) (st : State) : State * list effect :=
  ({| file := file st; uploadMutation := MPending |}, [Http (mutationFn formData)]).

(** Lines 304-309. *)
Definition handleUpload (st : State) : State * list effect :=
  match file st with
  | None => (st, [])
  | Some f => mutate [("file", f)] st
  end.

(** Lines 328-338: the submit button. *)
Definition submit_button (st : State) : node :=
  Button [("variant", VStr "contained");
          ("disabled", VBool (negb (bool_decide (is_Some (file st))) || isPending (uploadMutation st)))]
    HandleUpload
    [if isPending (uploadMutation st)
     then Elem "CircularProgress" [("size", VNum 24)] [] []
     else str "Upload Resume"].

(** Lines 311-350. *)
Definition render (st : State) : node :=
  Box []
    ([Typography [("variant", VStr "h5")] [str "Career Path Navigator"];
      Elem "div" [("className", VStr "upload-container")] []
        [Elem "label" [("htmlFor", VStr "resume-file")] [] [str "Upload your resume"];
         Elem "input" [("id", VStr "resume-file"); ("type", VStr "file");
                       ("accept", VStr ".pdf,.doc,.docx")]
              [("onChange", SetFileFromInput)] []];
      submit_button st] ++
     (if isSuccess (uploadMutation st)
      then [Typography [("color", VStr "success.main")] [str "Resume uploaded successfully!"]]
      else []) ++
     (if mutation_isError (uploadMutation st)
      then [Typography [("color", VStr "error.main")]
              [str "Error uploading resume. Please try again."]]
      else [])).

(** What can happen to the component. *)
Inductive event :=
| ChooseFile (f : option File)           (* [onChange]: [e.target.files?.[0] || null] *)
| ClickSubmit
| UploadResponse (data : value)          (* the POST succeeded with body [data] *)
| UploadError.

Definition step (ev : event) (st : State) : State * list effect :=
  match ev with
  | ChooseFile f => ({| file := f; uploadMutation := uploadMutation st |}, [])
  | ClickSubmit =>
      match click (submit_button st) with
      | Some HandleUpload => handleUpload st
      | _ => (st, [])
      end
  | UploadResponse data =>
      (* a callback that throws turns the mutation into an error *)
      ({| file := file st;
          uploadMutation := match snd (onSuccess data) with Some _ => MError | None => MSuccess end |},
       fst (onSuccess data))
  | UploadError => ({| file := file st; uploadMutation := MError |}, [])
  end.

Fixpoint run (evs : list event) (st : State) : State * list effect :=
  match evs with
  | [] => (st, [])
  | ev :: rest =>
      let '(st1, out1) := step ev st in
      let '(st2, out2) := run rest st1 in
      (st2, out1 ++ out2)
  end.

Definition is_http (e : effect) : bool :=
  match e with Http _ => true | _ => false end.

Definition is_callback (e : effect) : bool :=
  match e with OnUploadSuccess _ => true | _ => false end.

End ResumeUpload.

(** ** src/unnamed/part_000, third document: JobList *)

Module JobList.

(** Lines 368-374: the interface the entries of the response are declared
    to have, and the JSON value of an entry that has this shape. *)
Record Job := {
  job_id : string;
  title : string;
  company : string;
  score : float;
  match_percentage : string
}.

Definition job_value (job : Job) : value :=
  VObj [("job_id", VStr (job_id job)); ("title", VStr (title job));
        ("company", VStr (company job)); ("score", VNum (score job));
        ("match_percentage", VStr (match_percentage job))].

(** [string | null] as a value. *)
Definition of_nullable (s : option string) : value :=
  match s with None => VNull | Some s => VStr s end.

(** Lines 382-390: the options handed to [useQuery]. *)
Definition query (resumeId : option string) : QueryOptions :=
  {| queryKey := [Some "jobs"; resumeId];
     queryFn := match resumeId with
                | Some id => if truthy (VStr id)
                             then Fetch {| method := "GET"; path := "/jobs/match/" +:+ id;
                                           body_of := NoBody |}
                             else Resolve (VArr [])
                | None => Resolve (VArr [])
                end;
     enabled := truthy (of_nullable resumeId);
     retry := 3;
     staleTime := 0 |}.

(** What the component reads of its query: [data] as the response body
    arrived, which nothing checks against [Job] ([undefined] before a first
    result), and the two flags. *)
Record JobsResult := {
  jobs : value;
  jobs_isLoading : bool;
  jobs_error : option string
}.

(** [l.map(f)] where the callback may throw. *)
Fixpoint map_result {A B} (f : A -> result B) (l : list A) : result (list B) :=
  match l with
  | [] => Ok []
  | x :: rest =>
      let! a := f x in
      let! b := map_result f rest in
      Ok (a :: b)
  end.

(** The element one match is created as (lines 430-459).  The callback of
    [map] reads the fields of the entry and multiplies the score while
    [JobList] runs; the children are checked by React later, when the card
    is rendered. *)
Record CardElement := {
  card_key : value;
  card_title : value;
  card_company : value;
  card_value : value;
  card_percentage : value
}.

(** What is created for [jobs?.length === 0 ? message : list]. *)
Inductive MatchesElement :=
| NoMatches
| JobCards (cards : list CardElement).

(** [v?.length === 0]: an array or a string without entries, or an object
    whose own [length] is the number zero. *)
Definition length_is_zero (v : value) : bool :=
  match v with
  | VArr [] => true
  | VStr s => String.eqb s ""
  | VObj fields =>
      match lookup_field "length" fields with
      | Some (VNum f) => PrimFloat.eqb f 0
      | _ => false
      end
  | _ => false
  end.

(** Line 452: [() => setSelectedJob(job.title)].  [undefined] is stored as
    no selection, which is how the component reads it ([!!selectedJob],
    [selectedJob || '']). *)
Definition select_job (title : value) : handler :=
  match title with
  | VStr s => SetSelectedJob (Some s)
  | VUndefined | VNull => SetSelectedJob None
  | _ => SetSelectedJobUntyped title
  end.

(** Lines 440-447: the progress bar and the percentage beside it. *)
Definition score_row (c : CardElement) : result node :=
  let! percentage := child (card_percentage c) in
  Ok (Box []
        [Elem "LinearProgress"
           [("variant", VStr "determinate"); ("value", card_value c)] [] [];
         Typography [("variant", VStr "body2")] percentage]).

(** Lines 430-459: one card, rendered. *)
Definition card (c : CardElement) : result node :=
  let! title := child (card_title c) in
  let! company := child (card_company c) in
  let! row := score_row c in
  Ok (Elem "Card" [("key", card_key c); ("className", VStr "job-card")] []
        [Elem "CardContent" [] []
           [Typography [("variant", VStr "h6")] title;
            Typography [("variant", VStr "subtitle1"); ("color", VStr "text.secondary")] company;
            Box []
              [Typography [("variant", VStr "body2"); ("color", VStr "text.secondary")]
                 [str "Match Score"];
               row;
               Box []
                 [Button [("variant", VStr "outlined"); ("size", VStr "small")]
                    (select_job (card_title c)) [str "View Career Roadmap"]]]]]).

(** Lines 423-462, rendered. *)
Definition matches (m : MatchesElement) : result node :=
  match m with
  | NoMatches =>
      Ok (Typography [("color", VStr "text.secondary")]
            [str "No matching jobs found. Please try uploading a different resume."])
  | JobCards cs =>
      let! cards := map_result card cs in
      Ok (Box [("className", VStr "job-list")] cards)
  end.

(** Lines 414-419: the props of the nested dialog, [open={!!selectedJob}],
    [onClose={() => setSelectedJob(null)}], [jobTitle={selectedJob || ''}]. *)
Definition dialog_props (resumeId : string) (selectedJob : option string)
  : RoadmapDialog.RoadmapDialogProps :=
  {| RoadmapDialog.open := truthy (of_nullable selectedJob);
     RoadmapDialog.onClose := SetSelectedJob None;
     RoadmapDialog.resumeId := resumeId;
     RoadmapDialog.jobTitle := default "" selectedJob |}.

Section Rendering.

(** ToNumber of the language for an operand that is a string, an array or
    an object (the parse of a numeric literal, or ToPrimitive, which can
    throw): taken as given. *)
Variable ToNumber : value -> result float.

(** [a * b] for a number [b]. *)
Definition times (a : value) (b : float) : result value :=
  match a with
  | VNum f => Ok (VNum (f * b))
  | VUndefined => Ok (VNum (nan * b))
  | VNull => Ok (VNum (0 * b))
  | VBool c => Ok (VNum ((if c then 1 else 0) * b))
  | VStr _ | VArr _ | VObj _ =>
      let! f := ToNumber a in
      Ok (VNum (f * b))
  end.

(** Lines 429-459: the callback of [map].  An entry that is null or
    undefined throws at the first read of a property, whichever it is. *)
Definition create_card (job : value) : result CardElement :=
  let! job_id := get job "job_id" in
  let title := get_own job "title" in
  let company := get_own job "company" in
  let! value := times (get_own job "score") 100 in
  Ok {| card_key := job_id; card_title := title; card_company := company;
        card_value := value; card_percentage := get_own job "match_percentage" |}.

(** [jobs?.map(callback)]: nothing for null and undefined, a TypeError for
    any other value that is not an array. *)
Definition create_cards (jobs : value) : result (list CardElement) :=
  match jobs with
  | VUndefined | VNull => Ok []
  | VArr l => map_result create_card l
  | _ => Throw (TypeError "jobs.map is not a function")
  end.

(** Lines 423-462: [jobs?.length === 0 ? message : list]. *)
Definition create_matches (jobs : value) : result MatchesElement :=
  if length_is_zero jobs then Ok NoMatches
  else
    let! cards := create_cards jobs in
    Ok (JobCards cards).

(** Lines 392-464.  [None] is a component that returned [null]; [roadmap]
    is the result of the query of the nested [RoadmapDialog].  The elements
    are created while the component runs; React then renders the dialog and
    the list, in this order. *)
Definition render (DEV : bool) (resumeId selectedJob : option string)
    (q : JobsResult) (roadmap : UseQueryResult) : result (option node) :=
  if negb (truthy (of_nullable resumeId)) then Ok None
  else if jobs_isLoading q then Ok (Some (Box [] [Elem "CircularProgress" [] [] []]))
  else if bool_decide (is_Some (jobs_error q))
  then Ok (Some (Typography [("color", VStr "error")] [str "Error loading job matches"]))
  else
    let! created := create_matches (jobs q) in
    let! dialog :=
      RoadmapDialog.render DEV (dialog_props (default "" resumeId) selectedJob) roadmap in
    let! list := matches created in
    Ok (Some (Box []
                [dialog;
                 Typography [("variant", VStr "h5")] [str "Matching Jobs"];
                 list])).

End Rendering.

End JobList.

(** ** src/unnamed/part_000, third document: the state of JobList

    [selectedJob] (line 381) and the two handlers that set it: the button
    of a card (line 452) and the [onClose] given to the dialog (line 416). *)

Module JobListState.

(** What a handler of the rendered list does to [selectedJob]; the handlers
    of other components leave it alone.  A title that is no string is
    outside the declared type [string | null] of the state: a falsy one
    reads as no selection, a truthy one is not modelled ([None]). *)
Definition fire (h : handler) (selectedJob : option string) : option (option string) :=
  match h with
  | SetSelectedJob title => Some title
  | SetSelectedJobUntyped title => if truthy title then None else Some None
  | _ => Some selectedJob
  end.

(** A click on an element of the rendered list. *)
Definition click_on (n : node) (selectedJob : option string) : option (option string) :=
  match click n with
  | Some h => fire h selectedJob
  | None => Some selectedJob
  end.

End JobListState.

(** ** src/client/src/App.tsx *)

Module App.

(** [useState<string | null>(null)]. *)
Record State := { resumeId : option string }.

Definition initial_state : State := {| resumeId := None |}.

(** Line 31: [onUploadSuccess={(id) => setResumeId(id)}].  The callback is
    declared for a string; [undefined] and [null] are both stored as the
    absent identifier, which is how [JobList] and its query key read them.
    An identifier of another type is outside the declared type of the state
    and is not modelled ([None]). *)
Definition onUploadSuccess (id : value) (st : State) : option State :=
  match id with
  | VStr s => Some {| resumeId := Some s |}
  | VUndefined | VNull => Some {| resumeId := None |}
  | _ => None
  end.

(** The effects of the upload panel as the page sees them: only the call of
    [onUploadSuccess] concerns its state. *)
Definition deliver (e : ResumeUpload.effect) (st : State) : option State :=
  match e with
  | ResumeUpload.OnUploadSuccess id => onUploadSuccess id st
  | _ => Some st
  end.

Fixpoint deliver_all (es : list ResumeUpload.effect) (st : State) : option State :=
  match es with
  | [] => Some st
  | e :: rest =>
      match deliver e st with
      | Some st' => deliver_all rest st'
      | None => None
      end
  end.

(** Lines 10-20: the theme. *)
Definition theme : list (string * value) :=
  [("palette.mode", VStr "light"); ("palette.primary.main", VStr "#1976d2");
   ("palette.secondary.main", VStr "#dc004e")].

(** Lines 25-37; [ToNumber] as in [JobList]. *)
Definition render (ToNumber : value -> result float) (DEV : bool) (st : State)
    (upload : ResumeUpload.State) (selectedJob : option string) (jobs : JobList.JobsResult)
    (roadmap : UseQueryResult) : result node :=
  let! jobList := JobList.render ToNumber DEV (resumeId st) selectedJob jobs roadmap in
  Ok (Elem "QueryClientProvider" [] []
        [Elem "ThemeProvider" theme []
           [Elem "CssBaseline" [] [] [];
            Elem "div" [("className", VStr "app-container")] []
              [Elem "div" [("className", VStr "content-wrapper")] []
                 (ResumeUpload.render upload ::
                  match jobList with Some n => [n] | None => [] end)]]]).

End App.

(** ** The declared shape of a roadmap

    The interface [RoadmapData] of RoadmapDialog.tsx (lines 14-26) and the
    JSON value of a response that has this shape. *)

Module RoadmapData.

Record Phase := {
  phase_title : string;
  phase_duration : string;
  phase_tasks : list string
}.

Record Project := {
  project_title : string;
  project_description : string
}.

Record t := {
  skills_gap : list string;
  learning_path : list Phase;
  certifications : list string;
  projects : list Project
}.

Definition phase_value (ph : Phase) : value :=
  VObj [("title", VStr (phase_title ph)); ("duration", VStr (phase_duration ph));
        ("tasks", VArr (map VStr (phase_tasks ph)))].

Definition project_value (pr : Project) : value :=
  VObj [("title", VStr (project_title pr)); ("description", VStr (project_description pr))].

Definition to_value (d : t) : value :=
  VObj [("skills_gap", VArr (map VStr (skills_gap d)));
        ("learning_path", VArr (map phase_value (learning_path d)));
        ("certifications", VArr (map VStr (certifications d)));
        ("projects", VArr (map project_value (projects d)))].

End RoadmapData.

(** ** Vocabulary of the properties *)

(** The query result of a roadmap that has arrived. *)
Definition loaded (roadmap : value) : UseQueryResult :=
  {| data := roadmap; isLoading := false; isError := false; error := None |}.

(** The children of the action bar of a rendered dialog. *)
Definition action_bar (tree : node) : list node :=
  flat_map children_of
    (List.filter (fun n => String.eqb (component_of n) "DialogActions") (children_of tree)).

Definition no_matching_jobs : string :=
  "No matching jobs found. Please try uploading a different resume.".

(** The job list has answered with the body [v]. *)
Definition answered_with (v : value) : JobList.JobsResult :=
  {| JobList.jobs := v; JobList.jobs_isLoading := false; JobList.jobs_error := None |}.

(** The job list has answered with the matches [l], each of the declared
    shape. *)
Definition answered (l : list JobList.Job) : JobList.JobsResult :=
  answered_with (VArr (map JobList.job_value l)).

(** A value that React renders as text or as nothing: anything but an
    array or an object. *)
Definition scalar (v : value) : bool :=
  match v with VArr _ | VObj _ => false | _ => true end.

(** The two values are the same, or the first is the empty array and the
    second is absent. *)
Definition empty_for_absent (a b : value) : Prop :=
  a = b \/ (a = VArr [] /\ b = VUndefined).

(** A response with no [certifications] field and otherwise as declared. *)
Definition roadmap_without_certifications : value :=
  VObj [("skills_gap", VArr [VStr "Required: Python"; VStr "Nice to have: SQL"]);
        ("learning_path",
         VArr [VObj [("title", VStr "Foundations"); ("duration", VStr "2 weeks");
                     ("tasks", VArr [VStr "Read the handbook"])]]);
        ("projects",
         VArr [VObj [("title", VStr "Portfolio"); ("description", VStr "Publish one analysis")]])].

(** A response whose skills are objects rather than strings. *)
Definition roadmap_with_skill_objects : value :=
  VObj [("skills_gap", VArr [VObj [("name", VStr "Python"); ("required", VBool true)]])].

(** A response one of whose skills has a field named [startsWith]. *)
Definition roadmap_with_startsWith_field : value :=
  VObj [("skills_gap", VArr [VObj [("startsWith", VBool true)]])].


(** The dialog opened on [resumeId] and [jobTitle]. *)
Definition opened (onClose : handler) (resumeId jobTitle : string)
  : RoadmapDialog.RoadmapDialogProps :=
  {| RoadmapDialog.open := true; RoadmapDialog.onClose := onClose;
     RoadmapDialog.resumeId := resumeId; RoadmapDialog.jobTitle := jobTitle |}.

(** The values of the progress bars of a tree, in document order. *)
Definition progress_values (n : node) : list value :=
  map (prop "value") (find_all "LinearProgress" n).

(** No element of component [c] among the nodes. *)
Definition free_of (c : string) (ns : list node) : Prop :=
  flat_map (find_all c) ns = [].

(** The components a roadmap dialog is built from. *)
Definition dialog_components : list string :=
  ["Dialog"; "DialogTitle"; "DialogContent"; "DialogActions"; "Typography"; "Box";
   "Button"; "Stepper"; "Step"; "StepLabel"; "StepContent"].

Definition foreign (c : string) : Prop :=
  existsb (String.eqb c) dialog_components = false.

(** *** What a well-formed roadmap is expected to show *)

(** [s || fallback] for a string [s]. *)
Definition shown (fallback s : string) : string :=
  if String.eqb s "" then fallback else s.

(** The texts of a list of bullets. *)
Definition bullets_shown (fallback : string) (l : list string) : list text :=
  map (fun s => TStr (shown fallback s)) l.

(** The texts of a guarded list: the placeholder when the list is empty. *)
Definition list_shown (none fallback : string) (l : list string) : list text :=
  match l with
  | [] => [TStr none]
  | _ => bullets_shown fallback l
  end.

Definition phase_shown (index : nat) (ph : RoadmapData.Phase) : list text :=
  [TStr (shown ("Phase " +:+ pretty (index + 1)) (RoadmapData.phase_title ph));
   TStr (shown "Duration not specified" (RoadmapData.phase_duration ph))]
  ++ bullets_shown "Task not specified" (RoadmapData.phase_tasks ph).

Definition project_shown (index : nat) (pr : RoadmapData.Project) : list text :=
  [TStr (shown ("Project " +:+ pretty (index + 1)) (RoadmapData.project_title pr));
   TStr (shown "Project description not available" (RoadmapData.project_description pr))].

Definition phases_shown (l : list RoadmapData.Phase) : list text :=
  match l with
  | [] => [TStr "No learning path data available"]
  | _ => concat (imap phase_shown l)
  end.

Definition projects_shown (l : list RoadmapData.Project) : list text :=
  match l with
  | [] => [TStr "No project suggestions available"]
  | _ => concat (imap project_shown l)
  end.

(** Every text of the dialog of a well-formed roadmap, top to bottom. *)
Definition roadmap_shown (jobTitle : string) (d : RoadmapData.t) : list text :=
  [TStr "Career Roadmap: "; TStr jobTitle; TStr "Skills Gap Analysis"]
  ++ list_shown "No skills gap data available" "Unknown skill" (RoadmapData.skills_gap d)
  ++ [TStr "Learning Path"]
  ++ phases_shown (RoadmapData.learning_path d)
  ++ [TStr "Recommended Certifications"]
  ++ list_shown "No certification recommendations available" "Certification not specified"
       (RoadmapData.certifications d)
  ++ [TStr "Suggested Projects"]
  ++ projects_shown (RoadmapData.projects d)
  ++ [TStr "Close"; TStr "Save Roadmap"].

(** The colour of a skill. *)
Definition skill_colour (s : string) : value :=
  VStr (if startsWith s "Required:" then "error.main" else "info.main").

(** The upload requests among the effects of a run, and the settlements
    (responses and errors) among its events. *)
Definition uploads (es : list ResumeUpload.effect) : nat :=
  length (List.filter ResumeUpload.is_http es).

Definition is_settlement (ev : ResumeUpload.event) : bool :=
  match ev with
  | ResumeUpload.UploadResponse _ | ResumeUpload.UploadError => true
  | _ => false
  end.

Definition settlements (evs : list ResumeUpload.event) : nat :=
  length (List.filter is_settlement evs).

(** The query failed with [msg] after its retries. *)
Definition errored (msg : string) : Query := failed msg (fetching initial).

(** The bullet of a string. *)
Definition bullet_of (key : nat -> value) (fallback : string) (index : nat) (s : string) : node :=
  Typography [("key", key index); ("variant", VStr "body2")] [str (shown fallback s)].

(** The item of a skill that is a string. *)
Definition skill_of (index : nat) (s : string) : node :=
  Typography [("key", VStr ("skill-" +:+ pretty index)); ("variant", VStr "body2");
              ("sx.color", skill_colour s)]
             [str (shown "Unknown skill" s)].

(** The step of a well-formed phase. *)
Definition step_of (index : nat) (ph : RoadmapData.Phase) : node :=
  Elem "Step" [("key", VNum (of_nat index)); ("active", VBool true)] []
    [Elem "StepLabel" [] []
       [Typography [("variant", VStr "subtitle1")]
          [str (shown ("Phase " +:+ pretty (index + 1)) (RoadmapData.phase_title ph))];
        Typography [("variant", VStr "caption"); ("color", VStr "text.secondary")]
          [str (shown "Duration not specified" (RoadmapData.phase_duration ph))]];
     Elem "StepContent" [] []
       [Box [] (imap (bullet_of (fun k => VNum (of_nat k)) "Task not specified")
                     (RoadmapData.phase_tasks ph))]].

(** The box of a well-formed project. *)
Definition project_of (index : nat) (pr : RoadmapData.Project) : node :=
  Box [("key", VNum (of_nat index))]
    [Typography [("variant", VStr "subtitle1"); ("color", VStr "primary")]
       [str (shown ("Project " +:+ pretty (index + 1)) (RoadmapData.project_title pr))];
     Typography [("variant", VStr "body2"); ("color", VStr "text.secondary")]
       [str (shown "Project description not available" (RoadmapData.project_description pr))]].

(** The items of a guarded list, or its placeholder when there is none. *)
Definition guarded (none : string) (items : list node) : list node :=
  match items with
  | [] => [RoadmapDialog.placeholder none]
  | _ => items
  end.

(** The step rendered for an entry that has no title, duration or tasks. *)
Definition fallback_step (index : nat) : node :=
  Elem "Step" [("key", VNum (of_nat index)); ("active", VBool true)] []
    [Elem "StepLabel" [] []
       [Typography [("variant", VStr "subtitle1")] [str ("Phase " +:+ pretty (index + 1))];
        Typography [("variant", VStr "caption"); ("color", VStr "text.secondary")]
          [str "Duration not specified"]];
     Elem "StepContent" [] []
       [Box [] [RoadmapDialog.placeholder "No tasks defined for this phase"]]].

Definition fallback_step_shown (index : nat) : list text :=
  [TStr ("Phase " +:+ pretty (index + 1)); TStr "Duration not specified";
   TStr "No tasks defined for this phase"].

(** The texts of the dialog in the error state. *)
Definition error_shown (jobTitle : string) (error : option string) : list text :=
  [TStr "Career Roadmap: "; TStr jobTitle; TStr "Error Loading Roadmap";
   TStr (default "An error occurred while generating your career roadmap" error);
   TStr "Please try again. If the problem persists, check the console for more details.";
   TStr "Close"; TStr "Retry"; TStr "Close"].

(** The texts of one card. *)
Definition card_shown (job : JobList.Job) : list text :=
  [TStr (JobList.title job); TStr (JobList.company job); TStr "Match Score";
   TStr (JobList.match_percentage job); TStr "View Career Roadmap"].

(** The texts of the list of matches. *)
Definition matches_shown (l : list JobList.Job) : list text :=
  match l with
  | [] => [TStr no_matching_jobs]
  | _ => concat (map card_shown l)
  end.

(** The card of a match of the declared shape. *)
Definition score_row_of (job : JobList.Job) : node :=
  Box []
    [Elem "LinearProgress"
       [("variant", VStr "determinate"); ("value", VNum (JobList.score job * 100))] [] [];
     Typography [("variant", VStr "body2")] [str (JobList.match_percentage job)]].

Definition card_of (job : JobList.Job) : node :=
  Elem "Card" [("key", VStr (JobList.job_id job)); ("className", VStr "job-card")] []
    [Elem "CardContent" [] []
       [Typography [("variant", VStr "h6")] [str (JobList.title job)];
        Typography [("variant", VStr "subtitle1"); ("color", VStr "text.secondary")]
          [str (JobList.company job)];
        Box []
          [Typography [("variant", VStr "body2"); ("color", VStr "text.secondary")]
             [str "Match Score"];
           score_row_of job;
           Box []
             [Button [("variant", VStr "outlined"); ("size", VStr "small")]
                (SetSelectedJob (Some (JobList.title job))) [str "View Career Roadmap"]]]]].

(** The element created for a match of the declared shape. *)
Definition element_of (job : JobList.Job) : JobList.CardElement :=
  {| JobList.card_key := VStr (JobList.job_id job);
     JobList.card_title := VStr (JobList.title job);
     JobList.card_company := VStr (JobList.company job);
     JobList.card_value := VNum (JobList.score job * 100);
     JobList.card_percentage := VStr (JobList.match_percentage job) |}.

(** The list of the matches [l], or the message when there is none. *)
Definition matches_of (l : list JobList.Job) : node :=
  match l with
  | [] => Typography [("color", VStr "text.secondary")] [str no_matching_jobs]
  | _ => Box [("className", VStr "job-list")] (map card_of l)
  end.

(** The job list around its dialog. *)
Definition job_list_of (dialog : node) (l : list JobList.Job) : node :=
  Box [] [dialog; Typography [("variant", VStr "h5")] [str "Matching Jobs"]; matches_of l].

(** The state of the upload panel after the response [data]. *)
Definition after_response (data : value) (st : ResumeUpload.State) : ResumeUpload.State :=
  fst (ResumeUpload.step (ResumeUpload.UploadResponse data) st).

(** The button of a card. *)
Definition roadmap_button (job : JobList.Job) : node :=
  Button [("variant", VStr "outlined"); ("size", VStr "small")]
    (SetSelectedJob (Some (JobList.title job))) [str "View Career Roadmap"].

(** GET [/jobs/match/{id}]. *)
Definition jobs_request (id : string) : request :=
  {| method := "GET"; path := "/jobs/match/" +:+ id; body_of := NoBody |}.

(** The cache after the invalidations among the effects of the upload
    panel. *)
Fixpoint invalidate_all (es : list ResumeUpload.effect) (c : gmap QueryKey Query)
  : gmap QueryKey Query :=
  match es with
  | [] => c
  | ResumeUpload.InvalidateQueries filter :: rest => invalidate_all rest (invalidateQueries filter c)
  | _ :: rest => invalidate_all rest c
  end.



(** The dialog closed on the resume and the job it was opened on. *)
Definition closed (onClose : handler) (resumeId jobTitle : string)
  : RoadmapDialog.RoadmapDialogProps :=
  {| RoadmapDialog.open := false; RoadmapDialog.onClose := onClose;
     RoadmapDialog.resumeId := resumeId; RoadmapDialog.jobTitle := jobTitle |}.

(** The events of a roadmap fetch that fails three times. *)
Definition three_failures (now : Z) (o : QueryOptions) (msg : string) : list cache_event :=
  [Observe now o; Failure o msg; Failure o msg; Failure o msg].

(** A value that React accepts in child position: no object, also not
    inside an array. *)
Fixpoint printable (v : value) : bool :=
  match v with
  | VObj _ => false
  | VArr l =>
      (fix entries (l : list value) : bool :=
         match l with
         | [] => true
         | x :: rest => printable x && entries rest
         end) l
  | _ => true
  end.

(** The title, the duration and, where [tasks] is an array, the tasks of a
    phase are printable. *)
Definition step_printable (step : value) : bool :=
  printable (opt_get step "title")
  && printable (opt_get step "duration")
  && forallb printable (RoadmapDialog.elements (opt_get step "tasks")).

Definition project_printable (project : value) : bool :=
  printable (opt_get project "title") && printable (opt_get project "description").

(** The [length] that the debug box of a development build prints for each
    of the four fields is printable. *)
Definition lengths_printable (roadmap : value) : bool :=
  printable (opt_get (get_own roadmap "skills_gap") "length")
  && printable (opt_get (get_own roadmap "learning_path") "length")
  && printable (opt_get (get_own roadmap "certifications") "length")
  && printable (opt_get (get_own roadmap "projects") "length").

(** Every value of the response that reaches a child position is
    printable: the entries of the lists that are arrays, field by field,
    and in a development build the four lengths. *)
Definition renderable (DEV : bool) (roadmap : value) : bool :=
  (if DEV then lengths_printable roadmap else true)
  && forallb printable (RoadmapDialog.elements (get_own roadmap "skills_gap"))
  && forallb step_printable (RoadmapDialog.elements (get_own roadmap "learning_path"))
  && forallb printable (RoadmapDialog.elements (get_own roadmap "certifications"))
  && forallb project_printable (RoadmapDialog.elements (get_own roadmap "projects")).

(** The four list fields of the response are arrays. *)
Definition four_arrays (roadmap : value) : bool :=
  isArray (get_own roadmap "skills_gap")
  && isArray (get_own roadmap "learning_path")
  && isArray (get_own roadmap "certifications")
  && isArray (get_own roadmap "projects").

(** The element [n] is part of the tree. *)
Inductive inside (n : node) : node -> Prop :=
| inside_here : inside n n
| inside_child (c : string) props hs (cs : list node) (m : node) :
    In m cs -> inside n m -> inside n (Elem c props hs cs).

(** * Properties *)

(** ** Strings and values *)




Lemma truthy_VStr (s : string) : truthy (VStr s) = true <-> s <> "".
Proof.
  simpl. destruct (String.eqb_spec s ""); simpl; split; intros; congruence.
Qed.

(** ** C4: the colour of a skill-gap entry *)


(** ** The request cache *)

Lemma build_insert_eq (k : QueryKey) (q : Query) (c : gmap QueryKey Query) :
  build k (<[k := q]> c) = q.
Proof. unfold build. rewrite lookup_insert_eq. reflexivity. Qed.

Lemma build_absent (k : QueryKey) (c : gmap QueryKey Query) :
  build k c = initial <-> c !! k = None \/ c !! k = Some initial.
Proof.
  unfold build. destruct (c !! k) as [q|]; simpl; split; intros H.
  - right. congruence.
  - destruct H as [H|H]; congruence.
  - left. reflexivity.
  - reflexivity.
Qed.

Lemma build_lookup (k : QueryKey) (q : Query) (c : gmap QueryKey Query) :
  c !! k = Some q -> build k c = q.
Proof. unfold build. intros ->. reflexivity. Qed.

Lemma observe_disabled (now : Z) (o : QueryOptions) (c : gmap QueryKey Query) :
  enabled o = false -> snd (observe now o c) = [].
Proof. unfold observe. intros ->. reflexivity. Qed.

Lemma observe_fresh (now : Z) (o : QueryOptions) (c : gmap QueryKey Query) :
  isStaleByTime (build (queryKey o) c) (staleTime o) now = false ->
  snd (observe now o c) = [].
Proof. unfold observe. intros ->. rewrite andb_false_r. reflexivity. Qed.

Lemma settle_success_lookup (now : Z) (o : QueryOptions) (v : value)
    (c : gmap QueryKey Query) :
  is_undefined v = false ->
  settle_success now o v c !! queryKey o = Some (succeeded now v).
Proof. unfold settle_success. intros ->. apply lookup_insert_eq. Qed.

Lemma settle_success_other (now : Z) (o : QueryOptions) (v : value)
    (c : gmap QueryKey Query) (k : QueryKey) :
  queryKey o <> k -> settle_success now o v c !! k = c !! k.
Proof.
  unfold settle_success. intros Hk.
  destruct (is_undefined v); apply lookup_insert_ne; exact Hk.
Qed.

Lemma fetch_other (now : Z) (o : QueryOptions) (c : gmap QueryKey Query) (k : QueryKey) :
  queryKey o <> k -> fst (fetch now o c) !! k = c !! k.
Proof.
  unfold fetch. intros Hk.
  destruct (state_fetchStatus (build (queryKey o) c)); [reflexivity|].
  destruct (queryFn o); simpl.
  - rewrite settle_success_other by exact Hk. apply lookup_insert_ne; exact Hk.
  - apply lookup_insert_ne; exact Hk.
Qed.

Lemma observe_other (now : Z) (o : QueryOptions) (c : gmap QueryKey Query) (k : QueryKey) :
  queryKey o <> k -> fst (observe now o c) !! k = c !! k.
Proof.
  unfold observe. intros Hk.
  destruct (enabled o && isStaleByTime (build (queryKey o) c) (staleTime o) now).
  - apply fetch_other; exact Hk.
  - simpl. apply lookup_insert_ne; exact Hk.
Qed.

Lemma settle_failure_other (o : QueryOptions) (msg : string) (c : gmap QueryKey Query)
    (k : QueryKey) :
  queryKey o <> k -> fst (settle_failure o msg c) !! k = c !! k.
Proof.
  unfold settle_failure. intros Hk.
  destruct (state_fetchStatus (build (queryKey o) c)); [|reflexivity].
  destruct (state_failureCount (build (queryKey o) c) <? retry o)%nat;
    simpl; apply lookup_insert_ne; exact Hk.
Qed.

Lemma invalidateQueries_other (filter k : QueryKey) (c : gmap QueryKey Query) :
  ~ filter `prefix_of` k -> invalidateQueries filter c !! k = c !! k.
Proof.
  unfold invalidateQueries. intros Hk. rewrite map_lookup_imap.
  destruct (c !! k) as [q|]; simpl; [|reflexivity].
  rewrite bool_decide_eq_false_2 by exact Hk. reflexivity.
Qed.

(** An event that does not concern a key leaves its query as it was. *)
Lemma cache_step_other (k : QueryKey) (ev : cache_event) (c : gmap QueryKey Query) :
  touches k ev = false -> fst (cache_step ev c) !! k = c !! k.
Proof.
  destruct ev as [now o|now o v|o msg|filter]; simpl; intros H;
    apply bool_decide_eq_false in H.
  - apply observe_other; exact H.
  - apply settle_success_other; exact H.
  - apply settle_failure_other; exact H.
  - apply invalidateQueries_other; exact H.
Qed.

Lemma cache_run_other (k : QueryKey) (evs : list cache_event) (c : gmap QueryKey Query) :
  forallb (fun ev => negb (touches k ev)) evs = true ->
  fst (cache_run evs c) !! k = c !! k.
Proof.
  revert c. induction evs as [|ev evs IH]; intros c H; simpl in *; [reflexivity|].
  apply andb_true_iff in H as [H1 H2]. apply negb_true_iff in H1.
  pose proof (cache_step_other k ev c H1) as Hs.
  destruct (cache_step ev c) as [c1 out1]. simpl in Hs.
  specialize (IH c1 H2).
  destruct (cache_run evs c1) as [c2 out2]. simpl in *. congruence.
Qed.

(** ** C3: when the roadmap is fetched *)








(** ** C2: the roadmap is cached for five minutes *)

Lemma succeeded_fresh (t0 now staleTime : Z) (v : value) :
  is_undefined v = false ->
  (now < t0 + staleTime)%Z ->
  isStaleByTime (succeeded t0 v) staleTime now = false.
Proof.
  intros Hv Ht. unfold isStaleByTime. cbn [succeeded state_data state_isInvalidated
    state_dataUpdatedAt]. rewrite Hv. simpl. apply Z.leb_gt. exact Ht.
Qed.

(** Two dialogs share a cache entry exactly when they agree on the resume
    and on the job title. *)
Lemma roadmap_key_injective (p p' : RoadmapDialog.RoadmapDialogProps) :
  queryKey (RoadmapDialog.query p) = queryKey (RoadmapDialog.query p')
  <-> RoadmapDialog.resumeId p = RoadmapDialog.resumeId p'
      /\ RoadmapDialog.jobTitle p = RoadmapDialog.jobTitle p'.
Proof.
  cbn [RoadmapDialog.query queryKey]. split.
  - intros [= Hr Hj]. split; assumption.
  - intros [-> ->]. reflexivity.
Qed.

(** C2.  The roadmap query of a pair (resumeId, jobTitle) lives under the
    key ['roadmap', resumeId, jobTitle] with a stale time of 300000 ms.
    Once a response [v] arrived at [t0], and whatever happened since to the
    queries under other keys (the dialog closed or shown for another job,
    the job list fetched, an upload invalidating ['resume']), opening the
    dialog on the same pair at a time [t1] less than five minutes after
    [t0] issues no request, and the dialog is given the cached [v]. *)
Theorem C2_roadmap_cached_five_minutes (onClose : handler) (resumeId jobTitle : string)
    (v : value) (c : gmap QueryKey Query) (t0 t1 : Z) (between : list cache_event) :
  let o := RoadmapDialog.query (opened onClose resumeId jobTitle) in
  is_undefined v = false ->
  forallb (fun ev => negb (touches (queryKey o) ev)) between = true ->
  (t1 < t0 + 5 * 60 * 1000)%Z ->
  queryKey o = [Some "roadmap"; Some resumeId; Some jobTitle]
  /\ staleTime o = 300000%Z
  /\ snd (observe t1 o (fst (cache_run between (settle_success t0 o v c)))) = []
  /\ data (useQuery o (fst (cache_run between (settle_success t0 o v c)))) = v.
Proof.
  intros o Hv Hb Ht.
  assert (Hq : build (queryKey o) (fst (cache_run between (settle_success t0 o v c)))
               = succeeded t0 v).
  { apply build_lookup. rewrite cache_run_other by exact Hb.
    apply settle_success_lookup. exact Hv. }
  split; [reflexivity|]. split; [reflexivity|]. split.
  - apply observe_fresh. rewrite Hq. apply succeeded_fresh; [exact Hv|exact Ht].
  - unfold useQuery. rewrite Hq. reflexivity.
Qed.

(** The witness of C2: fetched at 1000 ms, then the dialog closed, an upload
    invalidated ['resume'], and the dialog reopened at 299999 ms. *)
Lemma C2_witness :
  let o := RoadmapDialog.query (opened (Callback "onClose") "r1" "Data Analyst") in
  let closed := RoadmapDialog.query
    {| RoadmapDialog.open := false; RoadmapDialog.onClose := Callback "onClose";
       RoadmapDialog.resumeId := "r1"; RoadmapDialog.jobTitle := "" |} in
  let between := [Observe 2000 closed; Invalidate [Some "resume"]] in
  queryKey o = [Some "roadmap"; Some "r1"; Some "Data Analyst"]
  /\ staleTime o = 300000%Z
  /\ snd (observe 299999 o (fst (cache_run between (settle_success 1000 o (VObj []) ∅)))) = []
  /\ data (useQuery o (fst (cache_run between (settle_success 1000 o (VObj []) ∅)))) = VObj [].
Proof.
  apply (C2_roadmap_cached_five_minutes (Callback "onClose") "r1" "Data Analyst"
           (VObj []) ∅ 1000 299999
           [Observe 2000 (RoadmapDialog.query
              {| RoadmapDialog.open := false; RoadmapDialog.onClose := Callback "onClose";
                 RoadmapDialog.resumeId := "r1"; RoadmapDialog.jobTitle := "" |});
            Invalidate [Some "resume"]]).
  - reflexivity.
  - vm_compute. reflexivity.
  - lia.
Defined.

(** From five minutes on the cached roadmap is stale, and opening the
    dialog fetches it again. *)
Lemma roadmap_refetched_when_stale (onClose : handler) (resumeId jobTitle : string)
    (v : value) (c : gmap QueryKey Query) (t0 t1 : Z) :
  let o := RoadmapDialog.query (opened onClose resumeId jobTitle) in
  resumeId <> "" -> jobTitle <> "" ->
  is_undefined v = false ->
  (t0 + 5 * 60 * 1000 <= t1)%Z ->
  snd (observe t1 o (settle_success t0 o v c)) = [RoadmapDialog.roadmap_request resumeId jobTitle].
Proof.
  intros o Hr Hj Hv Ht.
  assert (He : enabled o = true).
  { cbn. apply andb_true_iff. split; apply truthy_VStr; assumption. }
  assert (Hq : build (queryKey o) (settle_success t0 o v c) = succeeded t0 v).
  { apply build_lookup, settle_success_lookup, Hv. }
  assert (Hs : isStaleByTime (succeeded t0 v) (staleTime o) t1 = true).
  { unfold isStaleByTime. cbn [succeeded state_data state_isInvalidated state_dataUpdatedAt].
    rewrite Hv. simpl. apply Z.leb_le. exact Ht. }
  unfold observe. rewrite He, Hq, Hs. cbn [andb].
  unfold fetch. rewrite Hq. reflexivity.
Qed.

(** ** C7: no upload without a file *)

(** Until a file is chosen no run of the component issues a request,
    however often submit is clicked. *)
Lemma no_request_until_file_chosen (evs : list ResumeUpload.event) (st : ResumeUpload.State) :
  ResumeUpload.file st = None ->
  forallb (fun ev => match ev with ResumeUpload.ChooseFile (Some _) => false | _ => true end)
          evs = true ->
  List.filter ResumeUpload.is_http (snd (ResumeUpload.run evs st)) = [].
Proof.
  revert st. induction evs as [|ev evs IH]; intros st Hf Hevs; [reflexivity|].
  simpl in Hevs. apply andb_true_iff in Hevs as [Hev Hevs].
  cbn [ResumeUpload.run].
  assert (Hstep : ResumeUpload.file (fst (ResumeUpload.step ev st)) = None
                  /\ List.filter ResumeUpload.is_http (snd (ResumeUpload.step ev st)) = []).
  { destruct ev as [[f|]| |data|]; try discriminate; cbn.
    - split; [reflexivity|reflexivity].
    - unfold ResumeUpload.submit_button, click, disabled. cbn. rewrite Hf. cbn.
      split; [exact Hf|reflexivity].
    - split; [exact Hf|]. unfold ResumeUpload.onSuccess.
      destruct (get data "id"); reflexivity.
    - split; [exact Hf|reflexivity]. }
  destruct (ResumeUpload.step ev st) as [st1 out1]. destruct Hstep as [Hf1 Hout1].
  specialize (IH st1 Hf1 Hevs).
  destruct (ResumeUpload.run evs st1) as [st2 out2]. cbn in *.
  rewrite List.filter_app, Hout1, IH. reflexivity.
Qed.

(** C7.  In a state with no file selected, or with an upload in flight, the
    submit button is disabled, so a click on it runs no handler and leaves
    the state as it is without a request; and [handleUpload] itself, run
    with no file, returns at once without calling the mutation. *)
Theorem C7_no_upload_without_file (st : ResumeUpload.State) :
  ResumeUpload.file st = None \/ isPending (ResumeUpload.uploadMutation st) = true ->
  disabled (ResumeUpload.submit_button st) = true
  /\ click (ResumeUpload.submit_button st) = None
  /\ ResumeUpload.step ResumeUpload.ClickSubmit st = (st, [])
  /\ (ResumeUpload.file st = None -> ResumeUpload.handleUpload st = (st, [])).
Proof.
  intros H.
  assert (Hd : disabled (ResumeUpload.submit_button st) = true).
  { unfold disabled, ResumeUpload.submit_button. cbn.
    destruct H as [H|H]; rewrite H; cbn; [reflexivity|apply orb_true_r]. }
  assert (Hc : click (ResumeUpload.submit_button st) = None).
  { unfold click. rewrite Hd. reflexivity. }
  repeat split; try assumption.
  - cbn [ResumeUpload.step]. rewrite Hc. reflexivity.
  - intros Hf. unfold ResumeUpload.handleUpload. rewrite Hf. reflexivity.
Qed.

(** The witness of C7: the initial state, where no file has been chosen. *)
Lemma C7_witness :
  disabled (ResumeUpload.submit_button ResumeUpload.initial_state) = true
  /\ click (ResumeUpload.submit_button ResumeUpload.initial_state) = None
  /\ ResumeUpload.step ResumeUpload.ClickSubmit ResumeUpload.initial_state
     = (ResumeUpload.initial_state, [])
  /\ (ResumeUpload.file ResumeUpload.initial_state = None
      -> ResumeUpload.handleUpload ResumeUpload.initial_state
         = (ResumeUpload.initial_state, [])).
Proof.
  apply (C7_no_upload_without_file ResumeUpload.initial_state).
  left. reflexivity.
Defined.

(** With a file chosen and no upload in flight, the click does post it. *)
Lemma upload_with_file (f : File) :
  ResumeUpload.step ResumeUpload.ClickSubmit
    {| ResumeUpload.file := Some f; ResumeUpload.uploadMutation := MIdle |}
  = ({| ResumeUpload.file := Some f; ResumeUpload.uploadMutation := MPending |},
     [ResumeUpload.Http {| method := "POST"; path := "/resume/upload";
                           body_of := FormData [("file", f)] |}]).
Proof. reflexivity. Qed.

(** ** C8: the identifier reaches the caller *)

(** C8.  When the upload succeeds with a body that is an object with an
    [id] field, the effects of the response contain exactly one call of
    [onUploadSuccess], with the value of that field, and the mutation ends
    as a success. *)
Theorem C8_callback_once_with_id (st : ResumeUpload.State) (fields : list (string * value))
    (id : value) :
  lookup_field "id" fields = Some id ->
  List.filter ResumeUpload.is_callback
    (snd (ResumeUpload.step (ResumeUpload.UploadResponse (VObj fields)) st))
  = [ResumeUpload.OnUploadSuccess id]
  /\ ResumeUpload.uploadMutation
       (fst (ResumeUpload.step (ResumeUpload.UploadResponse (VObj fields)) st)) = MSuccess.
Proof.
  intros Hid. cbn [ResumeUpload.step fst snd].
  unfold ResumeUpload.onSuccess, get. cbn [nullish get_own]. rewrite Hid.
  split; reflexivity.
Qed.

(** The witness of C8: the response [{id: "abc"}]. *)
Lemma C8_witness :
  List.filter ResumeUpload.is_callback
    (snd (ResumeUpload.step (ResumeUpload.UploadResponse (VObj [("id", VStr "abc")]))
            ResumeUpload.initial_state))
  = [ResumeUpload.OnUploadSuccess (VStr "abc")]
  /\ ResumeUpload.uploadMutation
       (fst (ResumeUpload.step (ResumeUpload.UploadResponse (VObj [("id", VStr "abc")]))
               ResumeUpload.initial_state)) = MSuccess.
Proof.
  apply (C8_callback_once_with_id ResumeUpload.initial_state [("id", VStr "abc")] (VStr "abc")).
  reflexivity.
Defined.

(** ** Reading trees *)

Lemma bind_Ok_inv {A B} (m : result A) (k : A -> result B) (b : B) :
  JS.bind m k = Ok b -> exists a, m = Ok a /\ k a = Ok b.
Proof. destruct m as [a|e]; simpl; [eauto|discriminate]. Qed.

Ltac inv_bind H :=
  let a := fresh "a" in
  let Ha := fresh "H" a in
  apply bind_Ok_inv in H as (a & Ha & H).

Ltac inv_Ok H := injection H as H; subst.

Lemma find_all_Elem (c c' : string) props hs (cs : list node) :
  find_all c (Elem c' props hs cs)
  = (if String.eqb c c' then [Elem c' props hs cs] else []) ++ flat_map (find_all c) cs.
Proof.
  cbn [find_all]. f_equal.
Qed.

Lemma texts_Elem (c : string) props hs (cs : list node) :
  texts (Elem c props hs cs) = flat_map texts cs.
Proof.
  cbn [texts]. induction cs as [|x cs IH]; [reflexivity|].
  cbn [flat_map]. rewrite IH. reflexivity.
Qed.

Lemma free_of_nil (c : string) : free_of c [].
Proof. reflexivity. Qed.

Lemma free_of_app (c : string) (a b : list node) :
  free_of c a -> free_of c b -> free_of c (a ++ b).
Proof. unfold free_of. intros Ha Hb. rewrite flat_map_app, Ha, Hb. reflexivity. Qed.

Lemma free_of_cons (c : string) (n : node) (ns : list node) :
  find_all c n = [] -> free_of c ns -> free_of c (n :: ns).
Proof. unfold free_of. intros Hn Hns. cbn [flat_map]. rewrite Hn, Hns. reflexivity. Qed.

Lemma find_all_other (c c' : string) props hs (cs : list node) :
  String.eqb c c' = false -> free_of c cs -> find_all c (Elem c' props hs cs) = [].
Proof. intros Hc Hcs. rewrite find_all_Elem, Hc, Hcs. reflexivity. Qed.

Lemma find_all_Text (c : string) (t : text) : find_all c (Text t) = [].
Proof. reflexivity. Qed.

(** A value in child position contributes text only. *)
Lemma child_free_of (c : string) (v : value) :
  forall ns, child v = Ok ns -> free_of c ns.
Proof.
  induction v as [| | b | f | s | l IH | fields] using value_array_ind;
    intros ns H; cbn [child] in H; try (inv_Ok H; reflexivity); try discriminate.
  revert ns H. induction IH as [|x rest Hx _ IHrest]; intros ns H.
  - inv_Ok H. reflexivity.
  - inv_bind H. inv_bind H. inv_Ok H.
    apply free_of_app; [apply Hx; assumption | apply IHrest; assumption].
Qed.

Lemma mapi_from_free_of {A} (c : string) (f : A -> nat -> result (list node)) :
  (forall x i ns, f x i = Ok ns -> free_of c ns) ->
  forall l i ns, mapi_from f i l = Ok ns -> free_of c ns.
Proof.
  intros Hf l. induction l as [|x l IH]; intros i ns H; cbn [mapi_from] in H.
  - inv_Ok H. reflexivity.
  - inv_bind H. inv_bind H. inv_Ok H.
    apply free_of_app; [eapply Hf; eassumption | eapply IH; eassumption].
Qed.

Ltac foreign_cases Hc :=
  unfold foreign in Hc; cbn [existsb dialog_components] in Hc;
  repeat (let E := fresh "E" in apply orb_false_elim in Hc as [E Hc]).

Ltac free_step :=
  first
    [ assumption
    | apply free_of_nil
    | apply find_all_Text
    | apply free_of_app
    | apply free_of_cons
    | (apply find_all_other; [assumption|])
    | (eapply child_free_of; eassumption) ].

Ltac free_auto := unfold Typography, Box, Button, str; repeat free_step.

Section dialog_is_free.
Variable c : string.
Hypothesis Hc : foreign c.

Lemma placeholder_free_of (msg : string) : find_all c (RoadmapDialog.placeholder msg) = [].
Proof. foreign_cases Hc. unfold RoadmapDialog.placeholder. free_auto. Qed.

Lemma heading_free_of (title : string) : find_all c (RoadmapDialog.heading title) = [].
Proof. foreign_cases Hc. unfold RoadmapDialog.heading. free_auto. Qed.

Lemma bullet_free_of key item fallback ns :
  RoadmapDialog.bullet key item fallback = Ok ns -> free_of c ns.
Proof.
  foreign_cases Hc. unfold RoadmapDialog.bullet. intros H.
  inv_bind H. inv_Ok H. free_auto.
Qed.

Lemma skill_item_free_of skill index ns :
  RoadmapDialog.skill_item skill index = Ok ns -> free_of c ns.
Proof.
  foreign_cases Hc. unfold RoadmapDialog.skill_item. intros H.
  inv_bind H. inv_bind H. inv_Ok H. free_auto.
Qed.

Lemma tasks_of_free_of step ns :
  RoadmapDialog.tasks_of step = Ok ns -> free_of c ns.
Proof.
  unfold RoadmapDialog.tasks_of. intros H.
  destruct (truthy _ && isArray _).
  - eapply mapi_from_free_of; [|exact H]. intros x i ns'. apply bullet_free_of.
  - inv_Ok H. apply free_of_cons; [apply placeholder_free_of|apply free_of_nil].
Qed.

Lemma step_item_free_of step index ns :
  RoadmapDialog.step_item step index = Ok ns -> free_of c ns.
Proof.
  unfold RoadmapDialog.step_item. intros H.
  inv_bind H. inv_bind H. inv_bind H. inv_Ok H.
  apply tasks_of_free_of in Ha1.
  foreign_cases Hc. free_auto.
Qed.

Lemma project_item_free_of project index ns :
  RoadmapDialog.project_item project index = Ok ns -> free_of c ns.
Proof.
  foreign_cases Hc. unfold RoadmapDialog.project_item. intros H.
  inv_bind H. inv_bind H. inv_Ok H. free_auto.
Qed.

Lemma section_free_of (v : value) (f : value -> nat -> result (list node)) msg ns :
  (forall x i ns, f x i = Ok ns -> free_of c ns) ->
  (if RoadmapDialog.nonempty_array v
   then mapi f (RoadmapDialog.elements v)
   else Ok [RoadmapDialog.placeholder msg]) = Ok ns ->
  free_of c ns.
Proof.
  intros Hf H. destruct (RoadmapDialog.nonempty_array v).
  - eapply mapi_from_free_of; eassumption.
  - inv_Ok H. apply free_of_cons; [apply placeholder_free_of|apply free_of_nil].
Qed.

Lemma sections_free_of roadmap ns :
  RoadmapDialog.sections roadmap = Ok ns -> free_of c ns.
Proof.
  unfold RoadmapDialog.sections,
    RoadmapDialog.skills_gap_section, RoadmapDialog.learning_path_section,
    RoadmapDialog.certifications_section, RoadmapDialog.projects_section.
  intros H.
  inv_bind H. inv_bind Ha. apply section_free_of in Ha; [|apply skill_item_free_of].
  inv_bind H. inv_bind Ha1. apply section_free_of in Ha1; [|apply step_item_free_of].
  inv_bind H. inv_bind Ha3.
  apply section_free_of in Ha3; [|intros x i ns'; apply bullet_free_of].
  inv_bind H. inv_bind Ha5. apply section_free_of in Ha5; [|apply project_item_free_of].
  inv_Ok H.
  pose proof (heading_free_of "Skills Gap Analysis").
  pose proof (heading_free_of "Learning Path").
  pose proof (heading_free_of "Recommended Certifications").
  pose proof (heading_free_of "Suggested Projects").
  foreign_cases Hc. free_auto.
Qed.

Lemma debug_info_free_of roadmap ns :
  RoadmapDialog.debug_info roadmap = Ok ns -> free_of c ns.
Proof.
  foreign_cases Hc. unfold RoadmapDialog.debug_info. intros H.
  inv_bind H. inv_bind H. inv_bind H. inv_bind H. inv_Ok H. free_auto.
Qed.

Lemma content_free_of DEV roadmap ns :
  RoadmapDialog.content DEV roadmap = Ok ns -> free_of c ns.
Proof.
  unfold RoadmapDialog.content. intros H.
  inv_bind H. inv_bind H. inv_Ok H.
  apply sections_free_of in Ha0.
  assert (free_of c a).
  { destruct DEV; [eapply debug_info_free_of; eassumption|inv_Ok Ha; reflexivity]. }
  foreign_cases Hc. free_auto.
Qed.

Lemma when_loaded_free_of q view ns :
  (forall v ns, view v = Ok ns -> free_of c ns) ->
  RoadmapDialog.when_loaded q view = Ok ns -> free_of c ns.
Proof.
  unfold RoadmapDialog.when_loaded. intros Hv H.
  destruct (negb (isLoading q) && negb (isError q)).
  - destruct (truthy (data q)); [eapply Hv; eassumption|eapply child_free_of; eassumption].
  - inv_Ok H. reflexivity.
Qed.

(** A rendered roadmap dialog holds no element of a foreign component. *)
Lemma dialog_free_of DEV p q tree :
  RoadmapDialog.render DEV p q = Ok tree -> find_all c tree = [].
Proof.
  unfold RoadmapDialog.render. intros H.
  inv_bind H. inv_bind H. inv_Ok H.
  apply when_loaded_free_of in Ha; [|apply content_free_of].
  apply when_loaded_free_of in Ha0;
    [|intros v ns Hns; inv_Ok Hns; foreign_cases Hc;
      unfold RoadmapDialog.save_button; free_auto].
  assert (free_of c (RoadmapDialog.loading_view q)).
  { unfold RoadmapDialog.loading_view. foreign_cases Hc. destruct (isLoading q); free_auto. }
  assert (free_of c (RoadmapDialog.error_view p q)).
  { unfold RoadmapDialog.error_view. foreign_cases Hc. destruct (isError q); free_auto. }
  assert (find_all c (RoadmapDialog.close_button p q) = []).
  { unfold RoadmapDialog.close_button. foreign_cases Hc. free_auto. }
  foreign_cases Hc. free_auto.
Qed.

End dialog_is_free.

(** ** The job list of an answer of the declared shape *)

Lemma find_all_cards (c : string) (l : list JobList.Job) :
  c <> "Box" ->
  find_all c (Box [("className", VStr "job-list")] (map card_of l))
  = flat_map (fun j => find_all c (card_of j)) l.
Proof.
  intros Hc. cbn [Box find_all].
  destruct (String.eqb_spec c "Box") as [E|_]; [contradiction|]. cbn [app].
  induction l as [|j l IH]; [reflexivity|].
  cbn [map flat_map]. rewrite IH. reflexivity.
Qed.

Lemma create_cards_answered (ToNumber : value -> result float) (l : list JobList.Job) :
  JobList.map_result (JobList.create_card ToNumber) (map JobList.job_value l)
  = Ok (map element_of l).
Proof.
  induction l as [|j l IH]; [reflexivity|].
  cbn [map JobList.map_result]. rewrite IH. reflexivity.
Qed.

Lemma cards_rendered (l : list JobList.Job) :
  JobList.map_result JobList.card (map element_of l) = Ok (map card_of l).
Proof.
  induction l as [|j l IH]; [reflexivity|].
  cbn [map JobList.map_result]. rewrite IH. reflexivity.
Qed.

(** With an identifier that is set and a dialog that renders, an answer of
    the declared shape renders as the list of its cards. *)
Lemma render_answered (ToNumber : value -> result float) (DEV : bool) (id : string)
    (selectedJob : option string) (roadmap : UseQueryResult) (dialog : node)
    (l : list JobList.Job) :
  id <> "" ->
  RoadmapDialog.render DEV (JobList.dialog_props id selectedJob) roadmap = Ok dialog ->
  JobList.render ToNumber DEV (Some id) selectedJob (answered l) roadmap
  = Ok (Some (job_list_of dialog l)).
Proof.
  intros Hid Hd.
  assert (Ht : truthy (JobList.of_nullable (Some id)) = true) by (apply truthy_VStr; exact Hid).
  unfold JobList.render. rewrite Ht.
  cbn [negb answered answered_with JobList.jobs_isLoading JobList.jobs_error JobList.jobs
       bool_decide].
  change (default "" (Some id)) with id.
  destruct l as [|j l].
  - cbn [map JobList.create_matches JobList.length_is_zero JS.bind]. rewrite Hd. reflexivity.
  - unfold JobList.create_matches.
    cbn [map JobList.length_is_zero JobList.create_cards].
    rewrite <- (map_cons JobList.job_value j l), create_cards_answered.
    cbn [JS.bind]. rewrite Hd. cbn [JS.bind JobList.matches].
    rewrite cards_rendered. reflexivity.
Qed.

Lemma texts_cards (l : list JobList.Job) :
  flat_map texts (map card_of l) = concat (map card_shown l).
Proof.
  induction l as [|j l IH]; [reflexivity|].
  cbn [map flat_map concat]. rewrite IH. reflexivity.
Qed.

Lemma texts_matches_of (l : list JobList.Job) : texts (matches_of l) = matches_shown l.
Proof.
  destruct l as [|j l]; [reflexivity|].
  unfold matches_of, matches_shown, Box. rewrite texts_Elem. apply texts_cards.
Qed.

(** What a tree search finds in the job list: nothing in the dialog, for a
    component foreign to it, and then what it finds in each card. *)
Lemma find_all_job_list (c : string) (DEV : bool) (p : RoadmapDialog.RoadmapDialogProps)
    (roadmap : UseQueryResult) (dialog : node) (l : list JobList.Job) :
  foreign c -> l <> [] ->
  RoadmapDialog.render DEV p roadmap = Ok dialog ->
  find_all c (job_list_of dialog l) = flat_map (fun j => find_all c (card_of j)) l.
Proof.
  intros Hc Hl Hd.
  assert (Hbox : c <> "Box") by (intros ->; discriminate Hc).
  pose proof (dialog_free_of c Hc DEV p roadmap dialog Hd) as Hfree.
  destruct l as [|j l]; [contradiction|].
  rewrite <- (find_all_cards c (j :: l) Hbox).
  foreign_cases Hc.
  unfold job_list_of, matches_of, Box at 1, Typography.
  rewrite (find_all_Elem c "Box" [] []), E4. cbn [app flat_map].
  rewrite Hfree, (find_all_Elem c "Typography"), E3. cbn [app flat_map str find_all].
  apply app_nil_r.
Qed.

(** ** C6: an empty list of matches, and no resume *)

Lemma shows_Elem (s c : string) props hs (cs : list node) :
  Exists (shows s) cs -> shows s (Elem c props hs cs).
Proof.
  unfold shows. rewrite texts_Elem. intros H.
  apply in_flat_map. apply Exists_exists in H as (n & Hn & Hs).
  exists n. split; [apply list_elem_of_In; exact Hn|exact Hs].
Qed.

Lemma shows_str (s : string) : shows s (str s).
Proof. left. reflexivity. Qed.

(** C6.  With a resume identifier that is set, and a nested dialog that
    renders, an answer of zero matches is rendered as the message "No
    matching jobs found..." and no card at all.  The query of the list is
    enabled exactly when the identifier is a non-empty string, so a request
    goes out only for an identifier that is not null; with a null identifier
    no request is issued and the component returns null. *)
Theorem C6_empty_matches_and_null_id (ToNumber : value -> result float) (DEV : bool)
    (resumeId selectedJob : option string)
    (id : string) (roadmap : UseQueryResult) (q : JobList.JobsResult) (dialog : node)
    (now : Z) (c : gmap QueryKey Query) :
  (id <> "" ->
   RoadmapDialog.render DEV (JobList.dialog_props id selectedJob) roadmap = Ok dialog ->
   exists tree,
     JobList.render ToNumber DEV (Some id) selectedJob (answered []) roadmap = Ok (Some tree)
     /\ shows no_matching_jobs tree
     /\ find_all "Card" tree = [])
  /\ (enabled (JobList.query resumeId) = true <-> exists i, resumeId = Some i /\ i <> "")
  /\ (snd (observe now (JobList.query resumeId) c) <> [] -> resumeId <> None)
  /\ snd (observe now (JobList.query None) c) = []
  /\ JobList.render ToNumber DEV None selectedJob q roadmap = Ok None.
Proof.
  assert (Hen : enabled (JobList.query resumeId) = true <-> exists i, resumeId = Some i /\ i <> "").
  { destruct resumeId as [i|]; cbn [JobList.query enabled JobList.of_nullable].
    - rewrite truthy_VStr. split; [eauto|]. intros (j & [= ->] & Hj). exact Hj.
    - split; [discriminate|]. intros (j & [=] & _). }
  split; [|split; [exact Hen|split; [|split; reflexivity]]].
  - intros Hid Hd.
    rewrite (render_answered ToNumber DEV id selectedJob roadmap dialog [] Hid Hd).
    unfold job_list_of, matches_of, Box, Typography.
    eexists. split; [reflexivity|]. split.
    + apply shows_Elem. do 2 apply Exists_cons_tl. apply Exists_cons_hd.
      apply shows_Elem. apply Exists_cons_hd. apply shows_str.
    + apply find_all_other; [reflexivity|].
      apply free_of_cons; [|reflexivity].
      eapply dialog_free_of; [|exact Hd]. reflexivity.
  - intros Hreq Hnone. apply Hreq. apply observe_disabled.
    apply not_true_is_false. intros E. apply Hen in E as (i & Hi & _). congruence.
Qed.

(** The witness of C6: resume "r1", nothing selected, the dialog idle. *)
Lemma C6_witness :
  exists tree,
    JobList.render (fun _ => Ok nan) false (Some "r1") None (answered []) (result_of initial)
    = Ok (Some tree)
    /\ shows no_matching_jobs tree
    /\ find_all "Card" tree = [].
Proof.
  refine (proj1 (C6_empty_matches_and_null_id (fun _ => Ok nan) false None None "r1"
                   (result_of initial) (answered []) _ 0 ∅) _ _).
  - discriminate.
  - reflexivity.
Defined.

(** ** C5: the progress bar and the percentage *)

Lemma progress_of_cards (l : list JobList.Job) :
  map (prop "value") (flat_map (fun j => find_all "LinearProgress" (card_of j)) l)
  = map (fun j => VNum (JobList.score j * 100)) l.
Proof.
  induction l as [|j l IH]; [reflexivity|].
  cbn [flat_map map]. rewrite map_app, IH. reflexivity.
Qed.

(** C5.  Rendered for an answer whose entries have the declared shape (and
    a nested dialog that renders), the job list holds one progress bar per
    match and their values are, in order, the scores times 100 as
    JavaScript computes the product (a double, not clamped to any range);
    the texts of the list are, per match, its title, its company, "Match
    Score", its [match_percentage] string as it arrived and the label of the
    button: the score occurs in none of them.  For any entry of the answer,
    of whatever shape, whose [score] is a number [s], the element created
    for it carries the value [s * 100] and the [match_percentage] of the
    entry, whatever the conversion of other operands to numbers does.  A
    score of 0.73 gives the value 73, a score of 1.5 gives 150. *)
Theorem C5_progress_is_score_times_100 (ToNumber : value -> result float) (DEV : bool)
    (id : string) (selectedJob : option string) (roadmap : UseQueryResult) (dialog : node)
    (l : list JobList.Job) (job : value) (s : float) :
  (id <> "" ->
   RoadmapDialog.render DEV (JobList.dialog_props id selectedJob) roadmap = Ok dialog ->
   exists tree,
     JobList.render ToNumber DEV (Some id) selectedJob (answered l) roadmap = Ok (Some tree)
     /\ progress_values tree = map (fun j => VNum (JobList.score j * 100)) l
     /\ texts tree = texts dialog ++ TStr "Matching Jobs" :: matches_shown l)
  /\ (nullish job = false -> get_own job "score" = VNum s ->
      exists element,
        JobList.create_card ToNumber job = Ok element
        /\ JobList.card_value element = VNum (s * 100)
        /\ JobList.card_percentage element = get_own job "match_percentage"
        /\ forall row, JobList.score_row element = Ok row ->
             progress_values row = [VNum (s * 100)]
             /\ child (get_own job "match_percentage")
                = Ok (flat_map children_of (find_all "Typography" row)))
  /\ (exists a b,
        JobList.create_cards ToNumber
          (VArr [VObj [("job_id", VStr "j1"); ("title", VStr "Data Analyst");
                       ("company", VStr "Acme"); ("score", VNum 0.73);
                       ("match_percentage", VStr "73%")];
                 VObj [("job_id", VStr "j2"); ("title", VStr "Data Engineer");
                       ("company", VStr "Acme"); ("score", VNum 1.5);
                       ("match_percentage", VStr "150%")]])
        = Ok [a; b]
        /\ JobList.card_value a = VNum 73
        /\ JobList.card_value b = VNum 150).
Proof.
  split; [|split].
  - intros Hid Hd.
    rewrite (render_answered ToNumber DEV id selectedJob roadmap dialog l Hid Hd).
    eexists. split; [reflexivity|]. split.
    + unfold progress_values. destruct l as [|j l].
      * unfold job_list_of, matches_of, Box, Typography.
        rewrite find_all_Elem. cbn [String.eqb Ascii.eqb Bool.eqb app flat_map].
        rewrite (dialog_free_of "LinearProgress" eq_refl DEV _ roadmap dialog Hd).
        reflexivity.
      * rewrite (find_all_job_list "LinearProgress" DEV _ roadmap dialog (j :: l) eq_refl
                   ltac:(discriminate) Hd).
        apply progress_of_cards.
    + unfold job_list_of, Box at 1. rewrite texts_Elem. cbn [flat_map].
      rewrite texts_matches_of, app_nil_r. reflexivity.
  - intros Hj Hs. unfold JobList.create_card, get. rewrite Hj, Hs.
    cbn [JS.bind JobList.times]. eexists. split; [reflexivity|].
    cbn [JobList.card_value JobList.card_percentage]. split; [reflexivity|].
    split; [reflexivity|].
    intros row Hrow. unfold JobList.score_row in Hrow.
    cbn [JobList.card_value JobList.card_percentage] in Hrow.
    destruct (child (get_own job "match_percentage")) as [shown|e] eqn:Hc;
      [|discriminate Hrow].
    cbn [JS.bind] in Hrow. injection Hrow as <-. split.
    { unfold progress_values, Box, Typography. rewrite !find_all_Elem.
      cbn [String.eqb Ascii.eqb Bool.eqb app flat_map].
      rewrite (child_free_of "LinearProgress" _ shown Hc). reflexivity. }
    unfold Box, Typography. rewrite find_all_Elem.
    cbn [String.eqb Ascii.eqb Bool.eqb app flat_map].
    rewrite !find_all_Elem. cbn [String.eqb Ascii.eqb Bool.eqb app flat_map children_of].
    rewrite (child_free_of "Typography" _ shown Hc). rewrite !app_nil_r. reflexivity.
  - do 2 eexists. split; [reflexivity|]. split; reflexivity.
Qed.

(** The witness of C5: two matches beside an idle dialog. *)
Lemma C5_witness :
  let a := {| JobList.job_id := "j1"; JobList.title := "Data Analyst";
              JobList.company := "Acme"; JobList.score := 0.73;
              JobList.match_percentage := "73%" |} in
  let b := {| JobList.job_id := "j2"; JobList.title := "Data Engineer";
              JobList.company := "Initech"; JobList.score := 1.5;
              JobList.match_percentage := "150%" |} in
  exists tree,
    JobList.render (fun _ => Ok nan) false (Some "r1") None (answered [a; b])
      (result_of initial) = Ok (Some tree)
    /\ progress_values tree = [VNum 73; VNum 150]
    /\ texts tree
       = [TStr "Career Roadmap: "; TStr ""; TStr "Close"; TStr "Matching Jobs"]
         ++ card_shown a ++ card_shown b.
Proof.
  intros a b.
  destruct (proj1 (C5_progress_is_score_times_100 (fun _ => Ok nan) false "r1" None
                     (result_of initial) _ [a; b] VNull 0)
              ltac:(discriminate) eq_refl) as (tree & Hr & Hp & Ht).
  exists tree. split; [exact Hr|]. split; [exact Hp|exact Ht].
Defined.

(** ** C10: the Close button while the roadmap loads *)

Lemma when_loaded_loading (q : UseQueryResult) view :
  isLoading q = true -> RoadmapDialog.when_loaded q view = Ok [].
Proof. unfold RoadmapDialog.when_loaded. intros ->. reflexivity. Qed.

Lemma loading_not_error (qs : Query) :
  isLoading (result_of qs) = true -> isError (result_of qs) = false.
Proof.
  cbn [result_of isLoading isError]. unfold is_pending, is_errored.
  destruct (state_status qs); rewrite ?andb_false_r; intros; congruence.
Qed.

Lemma settled_not_loading (qs : Query) :
  state_status qs = Success \/ state_status qs = Errored ->
  isLoading (result_of qs) = false.
Proof.
  intros H. cbn [result_of isLoading]. unfold is_pending.
  destruct H as [H|H]; rewrite H; apply andb_false_r.
Qed.

(** The roadmap query stays loading through its two retries, each of which
    posts again, and ends in the error state at the third failure; a
    response ends the loading at once. *)
Lemma roadmap_retried_twice (onClose : handler) (resumeId jobTitle msg : string) (now : Z)
    (c : gmap QueryKey Query) :
  let o := RoadmapDialog.query (opened onClose resumeId jobTitle) in
  let post := RoadmapDialog.roadmap_request resumeId jobTitle in
  resumeId <> "" -> jobTitle <> "" -> c !! queryKey o = None ->
  let '(c0, out0) := observe now o c in
  let '(c1, out1) := settle_failure o msg c0 in
  let '(c2, out2) := settle_failure o msg c1 in
  let '(c3, out3) := settle_failure o msg c2 in
  out0 = [post] /\ isLoading (useQuery o c0) = true
  /\ out1 = [post] /\ isLoading (useQuery o c1) = true
  /\ out2 = [post] /\ isLoading (useQuery o c2) = true
  /\ out3 = [] /\ isLoading (useQuery o c3) = false /\ isError (useQuery o c3) = true
  /\ error (useQuery o c3) = Some msg
  /\ isLoading (useQuery o (settle_success now o (VObj []) c0)) = false
  /\ isError (useQuery o (settle_success now o (VObj []) c0)) = false.
Proof.
  intros o post Hr Hj Hc.
  assert (He : enabled o = true).
  { cbn. apply andb_true_iff. split; apply truthy_VStr; assumption. }
  unfold observe, fetch. rewrite He, (proj2 (build_absent _ _) (or_introl Hc)).
  unfold settle_failure, useQuery, settle_success.
  change (queryFn o) with (Fetch post). change (retry o) with 2%nat.
  generalize (queryKey o). intros k.
  cbn [isStaleByTime initial state_data is_undefined orb andb state_fetchStatus requests_of].
  repeat (rewrite !build_insert_eq;
          cbn [fetching retrying failed succeeded initial state_failureCount state_status
               state_fetchStatus state_error state_data state_dataUpdatedAt
               state_isInvalidated is_undefined Nat.ltb Nat.leb
               is_fetching is_pending is_errored andb result_of isLoading isError error]).
  repeat split; reflexivity.
Qed.

(** ** Responses that have arrived *)

Lemma truthy_not_nullish (v : value) : truthy v = true -> nullish v = false.
Proof. destruct v; simpl; congruence. Qed.

Lemma get_truthy (v : value) (k : string) :
  truthy v = true -> get v k = Ok (get_own v k).
Proof. intros H. unfold get. rewrite (truthy_not_nullish v H). reflexivity. Qed.

Lemma opt_get_truthy (v : value) (k : string) :
  truthy v = true -> opt_get v k = get_own v k.
Proof. intros H. unfold opt_get. rewrite (truthy_not_nullish v H). reflexivity. Qed.

Lemma nonempty_array_not_array (v : value) :
  isArray v = false -> RoadmapDialog.nonempty_array v = false.
Proof.
  unfold RoadmapDialog.nonempty_array. intros ->.
  rewrite andb_false_r. reflexivity.
Qed.

Lemma Exists_last {A} (P : A -> Prop) (x : A) (l : list A) : P x -> Exists P (l ++ [x]).
Proof. intros H. apply Exists_app. right. apply Exists_cons_hd. exact H. Qed.

Lemma when_loaded_loaded (roadmap : value) view :
  truthy roadmap = true -> RoadmapDialog.when_loaded (loaded roadmap) view = view roadmap.
Proof. unfold RoadmapDialog.when_loaded. cbn. intros ->. reflexivity. Qed.

(** ** C9: an empty list is rendered like a missing one *)

Lemma guarded_list_empty_for_absent (a b : value) f msg :
  empty_for_absent a b ->
  (if RoadmapDialog.nonempty_array a then mapi f (RoadmapDialog.elements a)
   else Ok [RoadmapDialog.placeholder msg])
  = (if RoadmapDialog.nonempty_array b then mapi f (RoadmapDialog.elements b)
     else Ok [RoadmapDialog.placeholder msg]).
Proof. intros [->|[-> ->]]; reflexivity. Qed.

(** C9, as the code has it.  Take two responses that differ only in that
    list fields which are empty arrays in the first are absent in the
    second.  Every section renders the same for both, an empty list giving
    the placeholder of its section, and in a production build the whole
    dialog is the same tree for both. *)
Theorem C9_empty_list_like_absent (p : RoadmapDialog.RoadmapDialogProps) (r r' : value) :
  truthy r = true -> truthy r' = true ->
  empty_for_absent (get_own r "skills_gap") (get_own r' "skills_gap") ->
  empty_for_absent (get_own r "learning_path") (get_own r' "learning_path") ->
  empty_for_absent (get_own r "certifications") (get_own r' "certifications") ->
  empty_for_absent (get_own r "projects") (get_own r' "projects") ->
  RoadmapDialog.skills_gap_section r = RoadmapDialog.skills_gap_section r'
  /\ RoadmapDialog.learning_path_section r = RoadmapDialog.learning_path_section r'
  /\ RoadmapDialog.certifications_section r = RoadmapDialog.certifications_section r'
  /\ RoadmapDialog.projects_section r = RoadmapDialog.projects_section r'
  /\ RoadmapDialog.render false p (loaded r) = RoadmapDialog.render false p (loaded r')
  /\ (get_own r "skills_gap" = VArr [] ->
      RoadmapDialog.skills_gap_section r
      = Ok [RoadmapDialog.placeholder "No skills gap data available"])
  /\ (get_own r "learning_path" = VArr [] ->
      RoadmapDialog.learning_path_section r
      = Ok [RoadmapDialog.placeholder "No learning path data available"])
  /\ (get_own r "certifications" = VArr [] ->
      RoadmapDialog.certifications_section r
      = Ok [RoadmapDialog.placeholder "No certification recommendations available"])
  /\ (get_own r "projects" = VArr [] ->
      RoadmapDialog.projects_section r
      = Ok [RoadmapDialog.placeholder "No project suggestions available"]).
Proof.
  intros Hr Hr' H1 H2 H3 H4.
  assert (E1 : RoadmapDialog.skills_gap_section r = RoadmapDialog.skills_gap_section r').
  { unfold RoadmapDialog.skills_gap_section.
    rewrite (get_truthy r _ Hr), (get_truthy r' _ Hr'). cbn [JS.bind].
    apply guarded_list_empty_for_absent, H1. }
  assert (E2 : RoadmapDialog.learning_path_section r = RoadmapDialog.learning_path_section r').
  { unfold RoadmapDialog.learning_path_section.
    rewrite (get_truthy r _ Hr), (get_truthy r' _ Hr'). cbn [JS.bind].
    apply guarded_list_empty_for_absent, H2. }
  assert (E3 : RoadmapDialog.certifications_section r = RoadmapDialog.certifications_section r').
  { unfold RoadmapDialog.certifications_section.
    rewrite (get_truthy r _ Hr), (get_truthy r' _ Hr'). cbn [JS.bind].
    apply guarded_list_empty_for_absent, H3. }
  assert (E4 : RoadmapDialog.projects_section r = RoadmapDialog.projects_section r').
  { unfold RoadmapDialog.projects_section.
    rewrite (get_truthy r _ Hr), (get_truthy r' _ Hr'). cbn [JS.bind].
    apply guarded_list_empty_for_absent, H4. }
  split; [exact E1|]. split; [exact E2|]. split; [exact E3|]. split; [exact E4|].
  split; [|split; [|split; [|split]]].
  - unfold RoadmapDialog.render.
    rewrite !(when_loaded_loaded r _ Hr), !(when_loaded_loaded r' _ Hr').
    unfold RoadmapDialog.content, RoadmapDialog.sections.
    rewrite E1, E2, E3, E4. reflexivity.
  - intros H. unfold RoadmapDialog.skills_gap_section.
    rewrite (get_truthy r _ Hr), H. reflexivity.
  - intros H. unfold RoadmapDialog.learning_path_section.
    rewrite (get_truthy r _ Hr), H. reflexivity.
  - intros H. unfold RoadmapDialog.certifications_section.
    rewrite (get_truthy r _ Hr), H. reflexivity.
  - intros H. unfold RoadmapDialog.projects_section.
    rewrite (get_truthy r _ Hr), H. reflexivity.
Qed.

(** The witness of C9: [certifications] empty against [certifications]
    absent. *)
Lemma C9_witness :
  let p := opened (Callback "onClose") "r1" "Data Analyst" in
  let r := VObj [("skills_gap", VArr [VStr "Required: Python"]); ("certifications", VArr [])] in
  let r' := VObj [("skills_gap", VArr [VStr "Required: Python"])] in
  RoadmapDialog.certifications_section r = RoadmapDialog.certifications_section r'
  /\ RoadmapDialog.render false p (loaded r) = RoadmapDialog.render false p (loaded r').
Proof.
  intros p r r'.
  destruct (C9_empty_list_like_absent p r r' eq_refl eq_refl
              (or_introl eq_refl) (or_introl eq_refl)
              (or_intror (conj eq_refl eq_refl)) (or_introl eq_refl))
    as (_ & _ & H3 & _ & H5 & _).
  split; [exact H3|exact H5].
Defined.

(** C9 as stated fails in a development build: the debug box prints the
    response itself, so the dialog of a response with an empty
    [certifications] is not the dialog of the response without it, though
    all four sections are the same. *)
Lemma C9_counterexample :
  let p := opened (Callback "onClose") "r1" "Data Analyst" in
  let r := VObj [("certifications", VArr [])] in
  let r' := VObj [] in
  get_own r "certifications" = VArr []
  /\ get_own r' "certifications" = VUndefined
  /\ RoadmapDialog.sections r = RoadmapDialog.sections r'
  /\ RoadmapDialog.render true p (loaded r) <> RoadmapDialog.render true p (loaded r')
  /\ In (TJson r) (match RoadmapDialog.render true p (loaded r) with
                   | Ok tree => texts tree | Throw _ => [] end)
  /\ ~ In (TJson r) (match RoadmapDialog.render true p (loaded r') with
                     | Ok tree => texts tree | Throw _ => [] end).
Proof.
  intros p r r'.
  split; [reflexivity|]. split; [reflexivity|]. split; [reflexivity|].
  split; [|split].
  - vm_compute. intros H. discriminate H.
  - vm_compute. tauto.
  - vm_compute. intros H.
    repeat (destruct H as [H|H]; [discriminate H|]). exact H.
Qed.

(** * Further properties of the components *)

(** ** Lists rendered entry by entry *)

Lemma mapi_from_fmap {A} (inj : A -> value) (f : value -> nat -> result (list node))
    (g : nat -> A -> node) (l : list A) :
  (forall y k, f (inj y) k = Ok [g k y]) ->
  forall i, mapi_from f i (map inj l) = Ok (imap (fun k => g (i + k)) l).
Proof.
  intros Hf. induction l as [|x l IH]; intros i; [reflexivity|].
  cbn [map mapi_from]. rewrite Hf, (IH (S i)). cbn [JS.bind app].
  rewrite imap_cons, Nat.add_0_r. do 2 f_equal.
  apply imap_ext. intros k y _. cbn. f_equal. lia.
Qed.

Lemma mapi_fmap {A} (inj : A -> value) (f : value -> nat -> result (list node))
    (g : nat -> A -> node) (l : list A) :
  (forall y k, f (inj y) k = Ok [g k y]) ->
  mapi f (map inj l) = Ok (imap g l).
Proof. intros Hf. unfold mapi. rewrite (mapi_from_fmap inj f g l Hf 0). reflexivity. Qed.

Lemma flat_map_imap {A B C} (h : B -> list C) (g : nat -> A -> B) (l : list A) :
  flat_map h (imap g l) = concat (imap (fun k y => h (g k y)) l).
Proof.
  revert g. induction l as [|x l IH]; intros g; [reflexivity|].
  cbn [imap flat_map concat]. rewrite IH. reflexivity.
Qed.

Lemma concat_imap_singleton {A B} (g : nat -> A -> B) (l : list A) :
  concat (imap (fun k y => [g k y]) l) = imap g l.
Proof.
  revert g. induction l as [|x l IH]; intros g; [reflexivity|].
  cbn [imap concat app].
  change ((fun k y => [g k y]) ∘ S) with (fun k y => [(g ∘ S) k y]).
  rewrite IH. reflexivity.
Qed.

Lemma NoDup_imap_inj {A B} (h : nat -> B) (l : list A) :
  (forall i j, h i = h j -> i = j) -> NoDup (imap (fun k _ => h k) l).
Proof.
  intros Hh. apply NoDup_alt. intros i j b Hi Hj.
  apply list_lookup_imap_Some in Hi as (x & _ & ->).
  apply list_lookup_imap_Some in Hj as (y & _ & Hj).
  apply Hh. exact Hj.
Qed.

Lemma child_or_string (s fallback : string) :
  child (JS.or (VStr s) (VStr fallback)) = Ok [str (shown fallback s)].
Proof.
  unfold JS.or, shown. cbn [truthy]. destruct (String.eqb s ""); reflexivity.
Qed.

Lemma nonempty_array_fmap {A} (inj : A -> value) (l : list A) :
  RoadmapDialog.nonempty_array (VArr (map inj l)) = match l with [] => false | _ => true end.
Proof. destruct l; reflexivity. Qed.

Lemma bullet_string (key : nat -> value) (fallback s : string) (index : nat) :
  RoadmapDialog.bullet (key index) (VStr s) fallback = Ok [bullet_of key fallback index s].
Proof. unfold RoadmapDialog.bullet. rewrite child_or_string. reflexivity. Qed.

Lemma texts_bullets (key : nat -> value) (fallback : string) (l : list string) :
  flat_map texts (imap (bullet_of key fallback) l) = bullets_shown fallback l.
Proof.
  rewrite flat_map_imap. unfold bullet_of, Typography, str. cbn [texts app].
  rewrite concat_imap_singleton. unfold bullets_shown.
  rewrite <- imap_const. reflexivity.
Qed.

(** ** The skills of a roadmap *)

Lemma skill_item_string (s : string) (index : nat) :
  RoadmapDialog.skill_item (VStr s) index = Ok [skill_of index s].
Proof.
  unfold RoadmapDialog.skill_item. cbn [opt_call_startsWith JS.bind].
  rewrite child_or_string. cbn [JS.bind truthy]. unfold skill_of, skill_colour.
  destruct (startsWith s "Required:"); reflexivity.
Qed.

Lemma skill_key_inj (i j : nat) :
  VStr ("skill-" +:+ pretty i) = VStr ("skill-" +:+ pretty j) -> i = j.
Proof. intros [= H]. apply (inj pretty). exact H. Qed.

(** X1.  A skills gap that is a non-empty list of strings is rendered as one
    item per skill, in the order of the response: the text of an item is the
    skill (or "Unknown skill" for an empty string), its colour follows the
    prefix of the skill, and its React key is "skill-" and its position, so
    the keys are pairwise different even when a skill occurs twice. *)
Theorem X1_skills_rendered_in_order (roadmap : value) (l : list string) :
  truthy roadmap = true ->
  get_own roadmap "skills_gap" = VArr (map VStr l) ->
  l <> [] ->
  exists items,
    RoadmapDialog.skills_gap_section roadmap = Ok items
    /\ length items = length l
    /\ flat_map texts items = bullets_shown "Unknown skill" l
    /\ map (prop "sx.color") items = map skill_colour l
    /\ map (prop "key") items = imap (fun k _ => VStr ("skill-" +:+ pretty k)) l
    /\ NoDup (map (prop "key") items).
Proof.
  intros Hr Hs Hl. exists (imap skill_of l).
  assert (Hkeys : map (prop "key") (imap skill_of l)
                  = imap (fun k _ => VStr ("skill-" +:+ pretty k)) l).
  { change (map (prop "key") (imap skill_of l)) with (prop "key" <$> imap skill_of l).
    rewrite fmap_imap. reflexivity. }
  split; [|split; [|split; [|split; [|split]]]].
  - unfold RoadmapDialog.skills_gap_section. rewrite (get_truthy roadmap _ Hr), Hs.
    cbn [JS.bind]. rewrite nonempty_array_fmap. destruct l; [contradiction|].
    apply mapi_fmap. intros y k. apply skill_item_string.
  - apply length_imap.
  - rewrite flat_map_imap. unfold skill_of, Typography, str. cbn [texts app].
    rewrite concat_imap_singleton. unfold bullets_shown. rewrite <- imap_const. reflexivity.
  - change (map (prop "sx.color") (imap skill_of l)) with (prop "sx.color" <$> imap skill_of l).
    rewrite fmap_imap. rewrite <- imap_const. reflexivity.
  - exact Hkeys.
  - rewrite Hkeys. apply NoDup_imap_inj. apply skill_key_inj.
Qed.

(** The witness of X1: "Required: Python" listed twice. *)
Lemma X1_witness :
  exists items,
    RoadmapDialog.skills_gap_section
      (VObj [("skills_gap", VArr [VStr "Required: Python"; VStr "Required: Python"])]) = Ok items
    /\ length items = 2
    /\ flat_map texts items = [TStr "Required: Python"; TStr "Required: Python"]
    /\ map (prop "sx.color") items = [VStr "error.main"; VStr "error.main"]
    /\ map (prop "key") items = [VStr "skill-0"; VStr "skill-1"]
    /\ NoDup (map (prop "key") items).
Proof.
  apply (X1_skills_rendered_in_order
           (VObj [("skills_gap", VArr [VStr "Required: Python"; VStr "Required: Python"])])
           ["Required: Python"; "Required: Python"]).
  - reflexivity.
  - reflexivity.
  - discriminate.
Defined.

(** ** A well-formed roadmap is shown completely *)

Lemma guarded_list_fmap {A} (inj : A -> value) (f : value -> nat -> result (list node))
    (g : nat -> A -> node) (none : string) (l : list A) :
  (forall y k, f (inj y) k = Ok [g k y]) ->
  (if RoadmapDialog.nonempty_array (VArr (map inj l))
   then mapi f (RoadmapDialog.elements (VArr (map inj l)))
   else Ok [RoadmapDialog.placeholder none])
  = Ok (guarded none (imap g l)).
Proof.
  intros Hf. rewrite nonempty_array_fmap. destruct l as [|x l]; [reflexivity|].
  cbn [RoadmapDialog.elements]. rewrite (mapi_fmap inj f g (x :: l) Hf). reflexivity.
Qed.

Lemma texts_guarded {A} (none : string) (g : nat -> A -> node) (l : list A) :
  flat_map texts (guarded none (imap g l))
  = match l with
    | [] => [TStr none]
    | _ => concat (imap (fun k y => texts (g k y)) l)
    end.
Proof.
  destruct l as [|x l]; [reflexivity|].
  change (guarded none (imap g (x :: l))) with (imap g (x :: l)).
  apply flat_map_imap.
Qed.

Lemma tasks_of_phase (ph : RoadmapData.Phase) :
  RoadmapDialog.tasks_of (RoadmapData.phase_value ph)
  = Ok (imap (bullet_of (fun k => VNum (of_nat k)) "Task not specified")
             (RoadmapData.phase_tasks ph)).
Proof.
  unfold RoadmapDialog.tasks_of.
  change (opt_get (RoadmapData.phase_value ph) "tasks")
    with (VArr (map VStr (RoadmapData.phase_tasks ph))).
  cbn [truthy isArray andb RoadmapDialog.elements].
  apply mapi_fmap. intros s k.
  apply (bullet_string (fun k => VNum (of_nat k))).
Qed.

Lemma step_item_phase (ph : RoadmapData.Phase) (index : nat) :
  RoadmapDialog.step_item (RoadmapData.phase_value ph) index = Ok [step_of index ph].
Proof.
  unfold RoadmapDialog.step_item.
  change (opt_get (RoadmapData.phase_value ph) "title") with (VStr (RoadmapData.phase_title ph)).
  change (opt_get (RoadmapData.phase_value ph) "duration")
    with (VStr (RoadmapData.phase_duration ph)).
  rewrite !child_or_string, tasks_of_phase. reflexivity.
Qed.

Lemma project_item_project (pr : RoadmapData.Project) (index : nat) :
  RoadmapDialog.project_item (RoadmapData.project_value pr) index = Ok [project_of index pr].
Proof.
  unfold RoadmapDialog.project_item.
  change (opt_get (RoadmapData.project_value pr) "title")
    with (VStr (RoadmapData.project_title pr)).
  change (opt_get (RoadmapData.project_value pr) "description")
    with (VStr (RoadmapData.project_description pr)).
  rewrite !child_or_string. reflexivity.
Qed.

Lemma texts_step_of (index : nat) (ph : RoadmapData.Phase) :
  texts (step_of index ph) = phase_shown index ph.
Proof.
  unfold step_of, phase_shown. rewrite texts_Elem. cbn [flat_map].
  rewrite !texts_Elem. cbn [flat_map]. unfold Box. rewrite texts_Elem, texts_bullets.
  unfold Typography, str. cbn [texts app]. rewrite !app_nil_r. reflexivity.
Qed.

Lemma texts_project_of (index : nat) (pr : RoadmapData.Project) :
  texts (project_of index pr) = project_shown index pr.
Proof. reflexivity. Qed.

Lemma texts_skill_of (index : nat) (s : string) :
  texts (skill_of index s) = [TStr (shown "Unknown skill" s)].
Proof. reflexivity. Qed.

Lemma list_shown_imap (none fallback : string) (g : nat -> string -> node) (l : list string) :
  (forall k s, texts (g k s) = [TStr (shown fallback s)]) ->
  flat_map texts (guarded none (imap g l)) = list_shown none fallback l.
Proof.
  intros Hg. rewrite texts_guarded. destruct l as [|x l]; [reflexivity|].
  unfold list_shown, bullets_shown. rewrite <- imap_const.
  rewrite <- (concat_imap_singleton (fun _ s => TStr (shown fallback s))).
  f_equal. apply imap_ext. intros k s _. apply Hg.
Qed.

(** The four sections of a well-formed roadmap. *)
Lemma sections_well_formed (d : RoadmapData.t) :
  RoadmapDialog.sections (RoadmapData.to_value d)
  = Ok [Box [] [RoadmapDialog.heading "Skills Gap Analysis";
                Box [] (guarded "No skills gap data available"
                          (imap skill_of (RoadmapData.skills_gap d)))];
        Box [] [RoadmapDialog.heading "Learning Path";
                Elem "Stepper" [("orientation", VStr "vertical")] []
                  (guarded "No learning path data available"
                     (imap step_of (RoadmapData.learning_path d)))];
        Box [] [RoadmapDialog.heading "Recommended Certifications";
                Box [] (guarded "No certification recommendations available"
                          (imap (bullet_of (fun k => VStr ("cert-" +:+ pretty k))
                                   "Certification not specified")
                                (RoadmapData.certifications d)))];
        Box [] [RoadmapDialog.heading "Suggested Projects";
                Box [] (guarded "No project suggestions available"
                          (imap project_of (RoadmapData.projects d)))]].
Proof.
  unfold RoadmapDialog.sections, RoadmapDialog.skills_gap_section,
    RoadmapDialog.learning_path_section, RoadmapDialog.certifications_section,
    RoadmapDialog.projects_section.
  rewrite !(get_truthy (RoadmapData.to_value d) _ eq_refl).
  change (get_own (RoadmapData.to_value d) "skills_gap")
    with (VArr (map VStr (RoadmapData.skills_gap d))).
  change (get_own (RoadmapData.to_value d) "learning_path")
    with (VArr (map RoadmapData.phase_value (RoadmapData.learning_path d))).
  change (get_own (RoadmapData.to_value d) "certifications")
    with (VArr (map VStr (RoadmapData.certifications d))).
  change (get_own (RoadmapData.to_value d) "projects")
    with (VArr (map RoadmapData.project_value (RoadmapData.projects d))).
  cbn [JS.bind].
  rewrite (guarded_list_fmap VStr RoadmapDialog.skill_item skill_of)
    by (intros; apply skill_item_string).
  rewrite (guarded_list_fmap RoadmapData.phase_value RoadmapDialog.step_item step_of)
    by (intros; apply step_item_phase).
  rewrite (guarded_list_fmap VStr _
             (bullet_of (fun k => VStr ("cert-" +:+ pretty k)) "Certification not specified"))
    by (intros y k; apply (bullet_string (fun k => VStr ("cert-" +:+ pretty k)))).
  rewrite (guarded_list_fmap RoadmapData.project_value RoadmapDialog.project_item project_of)
    by (intros; apply project_item_project).
  reflexivity.
Qed.

(** X2.  In a production build the dialog of a roadmap of the declared shape
    renders, and its texts are, top to bottom: the title with the job, then
    for each section its heading and either every entry of its list in the
    order of the response or, for an empty list, the placeholder of the
    section, then the two buttons.  An empty string is replaced by its
    fallback ("Unknown skill", "Phase n", "Duration not specified", "Task
    not specified", "Certification not specified", "Project n", "Project
    description not available"); a phase without tasks shows no task and no
    placeholder. *)
Theorem X2_well_formed_roadmap_shown_completely (p : RoadmapDialog.RoadmapDialogProps)
    (d : RoadmapData.t) :
  exists tree,
    RoadmapDialog.render false p (loaded (RoadmapData.to_value d)) = Ok tree
    /\ texts tree = roadmap_shown (RoadmapDialog.jobTitle p) d.
Proof.
  unfold RoadmapDialog.render.
  rewrite !(when_loaded_loaded (RoadmapData.to_value d) _ eq_refl).
  unfold RoadmapDialog.content. rewrite sections_well_formed. cbn [JS.bind].
  eexists. split; [reflexivity|].
  unfold roadmap_shown, phases_shown, projects_shown.
  rewrite <- (list_shown_imap "No skills gap data available" "Unknown skill" skill_of)
    by (intros; apply texts_skill_of).
  rewrite <- (list_shown_imap "No certification recommendations available"
                "Certification not specified"
                (bullet_of (fun k => VStr ("cert-" +:+ pretty k)) "Certification not specified"))
    by reflexivity.
  assert (Hph : flat_map texts (guarded "No learning path data available"
                                  (imap step_of (RoadmapData.learning_path d)))
                = match RoadmapData.learning_path d with
                  | [] => [TStr "No learning path data available"]
                  | _ => concat (imap phase_shown (RoadmapData.learning_path d))
                  end).
  { rewrite texts_guarded. destruct (RoadmapData.learning_path d); [reflexivity|].
    f_equal. apply imap_ext. intros k ph _. apply texts_step_of. }
  assert (Hpr : flat_map texts (guarded "No project suggestions available"
                                  (imap project_of (RoadmapData.projects d)))
                = match RoadmapData.projects d with
                  | [] => [TStr "No project suggestions available"]
                  | _ => concat (imap project_shown (RoadmapData.projects d))
                  end).
  { rewrite texts_guarded. destruct (RoadmapData.projects d); reflexivity. }
  rewrite <- Hph, <- Hpr.
  unfold Box, RoadmapDialog.heading, RoadmapDialog.close_button, RoadmapDialog.save_button,
    Button, Typography, str.
  repeat (rewrite texts_Elem; cbn [flat_map app RoadmapDialog.loading_view
            RoadmapDialog.error_view loaded isLoading isError]).
  rewrite ?app_nil_r, <- ?app_assoc. reflexivity.
Qed.

(** ** A learning path whose entries are not objects *)

Lemma mapi_from_Forall (P : value -> Prop) (f : value -> nat -> result (list node))
    (g : nat -> value -> node) (l : list value) :
  (forall y k, P y -> f y k = Ok [g k y]) ->
  Forall P l ->
  forall i, mapi_from f i l = Ok (imap (fun k => g (i + k)) l).
Proof.
  intros Hf Hl. induction Hl as [|x l Hx _ IH]; intros i; [reflexivity|].
  cbn [mapi_from]. rewrite (Hf x i Hx), (IH (S i)). cbn [JS.bind app].
  rewrite imap_cons, Nat.add_0_r. do 2 f_equal.
  apply imap_ext. intros k y _. cbn. f_equal. lia.
Qed.

Lemma step_item_scalar (v : value) (index : nat) :
  scalar v = true -> RoadmapDialog.step_item v index = Ok [fallback_step index].
Proof. destruct v; intros H; try discriminate H; reflexivity. Qed.

Lemma part000_step_item_scalar (v : value) (index : nat) :
  scalar v = true -> is_ok (RoadmapDialogPart000.step_item v index) = false.
Proof. destruct v; intros H; try discriminate H; reflexivity. Qed.

(** X3.  A learning path that is a non-empty list of entries that are not
    objects (null, strings, numbers, booleans) is rendered as one phase per
    entry, numbered from "Phase 1", each with "Duration not specified" and
    "No tasks defined for this phase": what the entries say is not shown,
    and nothing throws.  The second copy of the component throws on the
    same response. *)
Theorem X3_scalar_phases_render_as_numbered_fallbacks (roadmap : value) (l : list value) :
  truthy roadmap = true ->
  get_own roadmap "learning_path" = VArr l ->
  Forall (fun v => scalar v = true) l ->
  l <> [] ->
  RoadmapDialog.learning_path_section roadmap = Ok (imap (fun k _ => fallback_step k) l)
  /\ flat_map texts (imap (fun k (_ : value) => fallback_step k) l)
     = concat (imap (fun k _ => fallback_step_shown k) l)
  /\ is_ok (RoadmapDialogPart000.learning_path_section roadmap) = false.
Proof.
  intros Hr Hp Hl Hne. split; [|split].
  - unfold RoadmapDialog.learning_path_section. rewrite (get_truthy roadmap _ Hr), Hp.
    cbn [JS.bind]. destruct l as [|x l]; [contradiction|].
    change (RoadmapDialog.nonempty_array (VArr (x :: l))) with true.
    cbn [RoadmapDialog.elements]. unfold mapi.
    rewrite (mapi_from_Forall (fun v => scalar v = true) RoadmapDialog.step_item
               (fun k _ => fallback_step k) (x :: l)); [reflexivity| |exact Hl].
    intros y k Hy. apply step_item_scalar. exact Hy.
  - rewrite flat_map_imap. reflexivity.
  - unfold RoadmapDialogPart000.learning_path_section.
    rewrite (get_truthy roadmap _ Hr), Hp. cbn [JS.bind RoadmapDialogPart000.call_map].
    destruct l as [|x l]; [contradiction|]. unfold mapi. cbn [mapi_from].
    apply Forall_cons in Hl as [Hx _].
    pose proof (part000_step_item_scalar x 0 Hx) as Hthrow.
    destruct (RoadmapDialogPart000.step_item x 0); [discriminate Hthrow|reflexivity].
Qed.

(** The witness of X3: a learning path given as two plain strings. *)
Lemma X3_witness :
  let roadmap := VObj [("learning_path", VArr [VStr "Learn Python"; VStr "Learn SQL"])] in
  RoadmapDialog.learning_path_section roadmap = Ok [fallback_step 0; fallback_step 1]
  /\ flat_map texts [fallback_step 0; fallback_step 1]
     = [TStr "Phase 1"; TStr "Duration not specified"; TStr "No tasks defined for this phase";
        TStr "Phase 2"; TStr "Duration not specified"; TStr "No tasks defined for this phase"]
  /\ is_ok (RoadmapDialogPart000.learning_path_section roadmap) = false.
Proof.
  apply (X3_scalar_phases_render_as_numbered_fallbacks
           (VObj [("learning_path", VArr [VStr "Learn Python"; VStr "Learn SQL"])])
           [VStr "Learn Python"; VStr "Learn SQL"]).
  - reflexivity.
  - reflexivity.
  - repeat constructor.
  - discriminate.
Defined.

(** ** The second copy needs every list *)

Lemma call_map_needs_array (v : value) f ns :
  RoadmapDialogPart000.call_map v f = Ok ns -> isArray v = true.
Proof. destruct v; simpl; intros H; try discriminate H; reflexivity. Qed.



(** ** The dialog when there is no roadmap to show *)

(** X5.  When the query of the dialog has ended in an error, the dialog
    renders whatever the cache holds as data: it shows the message of the
    error (or a fixed text when there is none) and nothing of the data, and
    its buttons are Close, Retry and Close, where Close calls [onClose] and
    Retry reloads the page rather than fetching again. *)
Theorem X5_error_view (DEV : bool) (p : RoadmapDialog.RoadmapDialogProps) (qs : Query) :
  state_status qs = Errored ->
  exists tree,
    RoadmapDialog.render DEV p (result_of qs) = Ok tree
    /\ texts tree = error_shown (RoadmapDialog.jobTitle p) (state_error qs)
    /\ map click (find_all "Button" tree)
       = [Some (RoadmapDialog.onClose p); Some WindowLocationReload;
          Some (RoadmapDialog.onClose p)].
Proof.
  intros Hs.
  assert (Hl : isLoading (result_of qs) = false).
  { apply settled_not_loading. right. exact Hs. }
  assert (He : isError (result_of qs) = true).
  { cbn [result_of isError]. unfold is_errored. rewrite Hs. reflexivity. }
  unfold RoadmapDialog.render, RoadmapDialog.when_loaded.
  rewrite Hl, He. cbn [negb andb JS.bind].
  eexists. split; [reflexivity|].
  unfold RoadmapDialog.loading_view, RoadmapDialog.error_view, RoadmapDialog.close_button.
  rewrite Hl, He. split; reflexivity.
Qed.

(** The witness of X5: the state after a failed first fetch. *)
Lemma X5_witness :
  let p := opened (SetSelectedJob None) "r1" "Data Analyst" in
  exists tree,
    RoadmapDialog.render false p (result_of (errored "Network Error")) = Ok tree
    /\ texts tree = error_shown "Data Analyst" (Some "Network Error")
    /\ map click (find_all "Button" tree)
       = [Some (SetSelectedJob None); Some WindowLocationReload; Some (SetSelectedJob None)].
Proof.
  apply (X5_error_view false (opened (SetSelectedJob None) "r1" "Data Analyst")
           (errored "Network Error")).
  reflexivity.
Defined.

Lemma child_falsy (v : value) :
  truthy v = false -> exists shown, child v = Ok shown /\ free_of "Button" shown
                                    /\ free_of "Box" shown /\ free_of "Typography" shown.
Proof.
  destruct v; simpl; intros H; try discriminate H; eexists; repeat split; reflexivity.
Qed.

(** X6.  When the roadmap that arrived is a falsy value (an empty body, null,
    false, 0), the dialog renders without any of the four sections and
    without their placeholders: no box and no line of text is built, the
    only button is Close, and no Save button is offered. *)
Theorem X6_falsy_roadmap_blank_dialog (DEV : bool) (p : RoadmapDialog.RoadmapDialogProps)
    (roadmap : value) :
  truthy roadmap = false ->
  exists tree,
    RoadmapDialog.render DEV p (loaded roadmap) = Ok tree
    /\ find_all "Button" tree = [RoadmapDialog.close_button p (loaded roadmap)]
    /\ find_all "Box" tree = []
    /\ find_all "Typography" tree = [].
Proof.
  intros Hr. destruct (child_falsy roadmap Hr) as (shown & Hc & Hb & Hx & Ht).
  unfold RoadmapDialog.render, RoadmapDialog.when_loaded.
  cbn [loaded isLoading isError data negb andb]. rewrite Hr, Hc. cbn [JS.bind].
  eexists. split; [reflexivity|].
  unfold free_of in Hb, Hx, Ht.
  cbn [RoadmapDialog.loading_view RoadmapDialog.error_view loaded isLoading isError app].
  rewrite !find_all_Elem. cbn [String.eqb Ascii.eqb Bool.eqb flat_map app].
  rewrite !find_all_Elem. cbn [String.eqb Ascii.eqb Bool.eqb flat_map app].
  rewrite ?Hb, ?Hx, ?Ht. cbn [app].
  unfold RoadmapDialog.close_button, Button, str.
  rewrite !find_all_Elem. cbn [String.eqb Ascii.eqb Bool.eqb flat_map app find_all].
  rewrite ?Hb, ?Hx, ?Ht. repeat split; reflexivity.
Qed.

(** The witness of X6: a response with an empty body. *)
Lemma X6_witness :
  let p := opened (SetSelectedJob None) "r1" "Data Analyst" in
  exists tree,
    RoadmapDialog.render false p (loaded (VStr "")) = Ok tree
    /\ find_all "Button" tree = [RoadmapDialog.close_button p (loaded (VStr ""))]
    /\ find_all "Box" tree = []
    /\ find_all "Typography" tree = [].
Proof.
  apply (X6_falsy_roadmap_blank_dialog false (opened (SetSelectedJob None) "r1" "Data Analyst")
           (VStr "")).
  reflexivity.
Defined.

(** ** The upload panel over time *)

Lemma upload_step_bound (ev : ResumeUpload.event) (st : ResumeUpload.State) :
  uploads (snd (ResumeUpload.step ev st))
  + (if isPending (ResumeUpload.uploadMutation st) then 1 else 0)
  <= (if is_settlement ev then 1 else 0)
     + (if isPending (ResumeUpload.uploadMutation (fst (ResumeUpload.step ev st)))
        then 1 else 0).
Proof.
  destruct ev as [f| |data|]; cbn [ResumeUpload.step is_settlement fst snd].
  - cbn. lia.
  - unfold click, disabled, ResumeUpload.submit_button, ResumeUpload.handleUpload. cbn.
    destruct (ResumeUpload.file st) as [f|] eqn:Hf; cbn;
      destruct (isPending (ResumeUpload.uploadMutation st)) eqn:Hp; cbn;
      rewrite ?Hf, ?Hp; cbn; lia.
  - unfold ResumeUpload.onSuccess. destruct (get data "id"); cbn;
      destruct (isPending (ResumeUpload.uploadMutation st)); lia.
  - cbn. destruct (isPending (ResumeUpload.uploadMutation st)); lia.
Qed.

Lemma upload_run_bound (evs : list ResumeUpload.event) (st : ResumeUpload.State) :
  uploads (snd (ResumeUpload.run evs st))
  + (if isPending (ResumeUpload.uploadMutation st) then 1 else 0)
  <= settlements evs
     + (if isPending (ResumeUpload.uploadMutation (fst (ResumeUpload.run evs st)))
        then 1 else 0).
Proof.
  revert st. induction evs as [|ev evs IH]; intros st.
  - cbn. lia.
  - pose proof (upload_step_bound ev st) as Hs.
    cbn [ResumeUpload.run]. destruct (ResumeUpload.step ev st) as [st1 out1].
    specialize (IH st1). destruct (ResumeUpload.run evs st1) as [st2 out2].
    cbn [fst snd] in *. unfold uploads, settlements in *.
    cbn [List.filter]. rewrite List.filter_app, length_app.
    destruct (is_settlement ev); cbn [length]; lia.
Qed.

(** X7.  However the user clicks and whatever arrives, the upload panel has
    at most one request in flight: in every run from the initial state the
    number of POSTs issued is at most the number of responses and errors
    received, plus one if a request is pending at the end of the run. *)
Theorem X7_one_upload_in_flight (evs : list ResumeUpload.event) :
  uploads (snd (ResumeUpload.run evs ResumeUpload.initial_state))
  <= settlements evs
     + (if isPending (ResumeUpload.uploadMutation
                        (fst (ResumeUpload.run evs ResumeUpload.initial_state)))
        then 1 else 0).
Proof.
  pose proof (upload_run_bound evs ResumeUpload.initial_state) as H.
  cbn [ResumeUpload.initial_state ResumeUpload.uploadMutation isPending] in H.
  lia.
Qed.

(** X8.  A response to the upload always invalidates ['resume'] first.  If
    its body is null or undefined, reading [data.id] throws: the callback is
    not called, the mutation ends as an error, and the panel shows the error
    text although the POST succeeded.  For any other body the callback is
    called once with [data.id] ([undefined] when the body has no id), and
    the panel shows the success text.  The chosen file is kept either way. *)
Theorem X8_upload_response (data : value) (st : ResumeUpload.State) :
  snd (ResumeUpload.step (ResumeUpload.UploadResponse data) st)
  = ResumeUpload.InvalidateQueries [Some "resume"]
    :: (if nullish data then [] else [ResumeUpload.OnUploadSuccess (get_own data "id")])
  /\ ResumeUpload.file (after_response data st) = ResumeUpload.file st
  /\ ResumeUpload.uploadMutation (after_response data st)
     = (if nullish data then MError else MSuccess)
  /\ (shows "Error uploading resume. Please try again."
        (ResumeUpload.render (after_response data st)) <-> nullish data = true)
  /\ (shows "Resume uploaded successfully!"
        (ResumeUpload.render (after_response data st)) <-> nullish data = false).
Proof.
  unfold after_response. cbn [ResumeUpload.step fst snd].
  unfold ResumeUpload.onSuccess, get.
  destruct (nullish data) eqn:Hn; cbn [fst snd ResumeUpload.file ResumeUpload.uploadMutation].
  - split; [reflexivity|]. split; [reflexivity|]. split; [reflexivity|].
    unfold shows, ResumeUpload.render, ResumeUpload.submit_button. cbn.
    split; split; intros H; try reflexivity; try discriminate H.
    + destruct (ResumeUpload.file st); cbn; tauto.
    + destruct (ResumeUpload.file st); cbn in H;
        repeat (destruct H as [H|H]; [discriminate H|]); destruct H.
  - split; [reflexivity|]. split; [reflexivity|]. split; [reflexivity|].
    unfold shows, ResumeUpload.render, ResumeUpload.submit_button. cbn.
    split; split; intros H; try reflexivity; try discriminate H.
    + destruct (ResumeUpload.file st); cbn in H;
        repeat (destruct H as [H|H]; [discriminate H|]); destruct H.
    + destruct (ResumeUpload.file st); cbn; tauto.
Qed.

(** After a failed upload the panel can be used again: with the file still
    chosen, a second click posts it once more. *)
Lemma upload_again_after_error (f : File) :
  ResumeUpload.run
    [ResumeUpload.ChooseFile (Some f); ResumeUpload.ClickSubmit; ResumeUpload.UploadError;
     ResumeUpload.ClickSubmit]
    ResumeUpload.initial_state
  = ({| ResumeUpload.file := Some f; ResumeUpload.uploadMutation := MPending |},
     [ResumeUpload.Http (ResumeUpload.mutationFn [("file", f)]);
      ResumeUpload.Http (ResumeUpload.mutationFn [("file", f)])]).
Proof. reflexivity. Qed.

(** ** The list of matches *)

Lemma find_all_in_cards (c : string) (l : list JobList.Job) (found : JobList.Job -> node) :
  (forall j, find_all c (card_of j) = [found j]) ->
  flat_map (fun j => find_all c (card_of j)) l = map found l.
Proof.
  intros Hf. induction l as [|j l IH]; [reflexivity|].
  cbn [flat_map map]. rewrite Hf, IH. reflexivity.
Qed.

(** X9.  With a resume identifier that is set and a nested dialog that
    renders, a non-empty answer of the matching endpoint whose entries have
    the declared shape is rendered by the job list as one card per match, in
    the order of the answer and keyed by [job_id]; a card shows the title,
    the company, "Match Score", the percentage string and one button, and a
    click on that button selects the title of its job. *)
Theorem X9_one_card_per_match (ToNumber : value -> result float) (DEV : bool) (id : string)
    (selectedJob : option string) (roadmap : UseQueryResult) (dialog : node)
    (l : list JobList.Job) :
  l <> [] ->
  id <> "" ->
  RoadmapDialog.render DEV (JobList.dialog_props id selectedJob) roadmap = Ok dialog ->
  exists tree,
    JobList.render ToNumber DEV (Some id) selectedJob (answered l) roadmap = Ok (Some tree)
    /\ find_all "Card" tree = map card_of l
    /\ map (prop "key") (find_all "Card" tree) = map (fun j => VStr (JobList.job_id j)) l
    /\ flat_map texts (find_all "Card" tree) = concat (map card_shown l)
    /\ map click (flat_map (find_all "Button") (find_all "Card" tree))
       = map (fun j => Some (SetSelectedJob (Some (JobList.title j)))) l.
Proof.
  intros Hl Hid Hd.
  rewrite (render_answered ToNumber DEV id selectedJob roadmap dialog l Hid Hd).
  eexists. split; [reflexivity|].
  assert (Hcards : find_all "Card" (job_list_of dialog l) = map card_of l).
  { rewrite (find_all_job_list "Card" DEV _ roadmap dialog l eq_refl Hl Hd).
    apply find_all_in_cards. reflexivity. }
  rewrite Hcards. split; [reflexivity|]. split; [|split].
  - rewrite map_map. reflexivity.
  - apply texts_cards.
  - clear. induction l as [|j l IH]; [reflexivity|].
    cbn [map flat_map]. rewrite map_app, IH. reflexivity.
Qed.

(** The witness of X9: two matches beside an idle dialog. *)
Lemma X9_witness :
  let a := {| JobList.job_id := "j1"; JobList.title := "Data Analyst";
              JobList.company := "Acme"; JobList.score := 0.73;
              JobList.match_percentage := "73%" |} in
  let b := {| JobList.job_id := "j2"; JobList.title := "Data Engineer";
              JobList.company := "Initech"; JobList.score := 0.5;
              JobList.match_percentage := "50%" |} in
  exists tree,
    JobList.render (fun _ => Ok nan) false (Some "r1") None (answered [a; b])
      (result_of initial) = Ok (Some tree)
    /\ find_all "Card" tree = [card_of a; card_of b]
    /\ map (prop "key") (find_all "Card" tree) = [VStr "j1"; VStr "j2"]
    /\ flat_map texts (find_all "Card" tree) = card_shown a ++ card_shown b
    /\ map click (flat_map (find_all "Button") (find_all "Card" tree))
       = [Some (SetSelectedJob (Some "Data Analyst"));
          Some (SetSelectedJob (Some "Data Engineer"))].
Proof.
  intros a b.
  eapply (X9_one_card_per_match (fun _ => Ok nan) false "r1" None (result_of initial) _ [a; b]);
    [discriminate|discriminate|reflexivity].
Defined.

(** ** From a card to the roadmap request *)

Lemma observe_requests_lookup (now : Z) (o : QueryOptions) (c c' : gmap QueryKey Query) :
  c !! queryKey o = c' !! queryKey o ->
  snd (observe now o c) = snd (observe now o c').
Proof.
  intros H. unfold observe, fetch, build. rewrite H.
  destruct (enabled o && isStaleByTime _ _ _); [|reflexivity].
  destruct (state_fetchStatus _); [reflexivity|].
  destruct (queryFn o); reflexivity.
Qed.

Lemma roadmap_post_on_empty_cache (p : RoadmapDialog.RoadmapDialogProps) (now : Z)
    (c : gmap QueryKey Query) :
  enabled (RoadmapDialog.query p) = true ->
  c !! queryKey (RoadmapDialog.query p) = None ->
  snd (observe now (RoadmapDialog.query p) c)
  = [RoadmapDialog.roadmap_request (RoadmapDialog.resumeId p) (RoadmapDialog.jobTitle p)].
Proof. intros He Hc. unfold observe, fetch, build. rewrite He, Hc. reflexivity. Qed.

(** X10.  The card of a match of the declared shape has one button, and a
    click on it selects the title of its job, whatever was selected before.
    With a title and a resume identifier that are not empty, the dialog is
    then open on that title and, when the cache has nothing for the pair,
    its query posts [resume_id] and [target_role] to /career/roadmap; a job
    whose title is empty leaves the dialog closed and posts nothing.  The
    [onClose] the list gives to the dialog clears the selection, after which
    the query of the dialog is disabled. *)
Theorem X10_select_job_opens_roadmap (ToNumber : value -> result float) (resumeId : string)
    (job : JobList.Job) (selectedJob : option string) (now : Z) (c : gmap QueryKey Query) :
  let selected := Some (JobList.title job) in
  let p := JobList.dialog_props resumeId selected in
  (exists element tree,
     JobList.create_card ToNumber (JobList.job_value job) = Ok element
     /\ JobList.card element = Ok tree
     /\ find_all "Button" tree = [roadmap_button job])
  /\ JobListState.click_on (roadmap_button job) selectedJob = Some selected
  /\ RoadmapDialog.jobTitle p = JobList.title job
  /\ (RoadmapDialog.open p = true <-> JobList.title job <> "")
  /\ (JobList.title job <> "" -> resumeId <> "" ->
      c !! queryKey (RoadmapDialog.query p) = None ->
      snd (observe now (RoadmapDialog.query p) c)
      = [{| method := "POST"; path := "/career/roadmap";
            body_of := JsonBody (VObj [("resume_id", VStr resumeId);
                                       ("target_role", VStr (JobList.title job))]) |}])
  /\ (JobList.title job = "" -> snd (observe now (RoadmapDialog.query p) c) = [])
  /\ JobListState.fire (RoadmapDialog.onClose p) selected = Some None
  /\ snd (observe now (RoadmapDialog.query (JobList.dialog_props resumeId None)) c) = [].
Proof.
  intros selected p.
  assert (Hsel : selected = Some (JobList.title job)) by reflexivity.
  split; [do 2 eexists; split; [reflexivity|split; reflexivity]|].
  split; [reflexivity|]. split; [reflexivity|].
  split; [|split; [|split; [|split]]].
  - subst p. rewrite Hsel. cbn [JobList.dialog_props RoadmapDialog.open JobList.of_nullable].
    apply truthy_VStr.
  - intros Ht Hr Hc.
    rewrite (roadmap_post_on_empty_cache p now c); [reflexivity| |exact Hc].
    subst p. rewrite Hsel.
    cbn [JobList.dialog_props RoadmapDialog.query enabled RoadmapDialog.open
         RoadmapDialog.resumeId RoadmapDialog.jobTitle JobList.of_nullable].
    change (default "" (Some (JobList.title job))) with (JobList.title job).
    rewrite !andb_true_iff, !truthy_VStr. tauto.
  - intros Ht. apply observe_disabled. subst p. rewrite Hsel.
    cbn [JobList.dialog_props RoadmapDialog.query enabled RoadmapDialog.open
         RoadmapDialog.resumeId RoadmapDialog.jobTitle JobList.of_nullable].
    rewrite Ht. reflexivity.
  - reflexivity.
  - apply observe_disabled. reflexivity.
Qed.

(** The witness of X10: the card of "Data Analyst" for resume "r1". *)
Lemma X10_witness :
  let job := {| JobList.job_id := "j1"; JobList.title := "Data Analyst";
                JobList.company := "Acme"; JobList.score := 0.73;
                JobList.match_percentage := "73%" |} in
  JobListState.click_on (roadmap_button job) None = Some (Some "Data Analyst")
  /\ snd (observe 0 (RoadmapDialog.query (JobList.dialog_props "r1" (Some "Data Analyst"))) ∅)
     = [{| method := "POST"; path := "/career/roadmap";
           body_of := JsonBody (VObj [("resume_id", VStr "r1");
                                      ("target_role", VStr "Data Analyst")]) |}].
Proof.
  intros job. split.
  - exact (proj1 (proj2 (X10_select_job_opens_roadmap (fun _ => Ok nan) "r1" job None 0 ∅))).
  - refine (proj1 (proj2 (proj2 (proj2 (proj2
              (X10_select_job_opens_roadmap (fun _ => Ok nan) "r1" job None 0 ∅))))) _ _ _);
      [discriminate|discriminate|reflexivity].
Defined.

(** ** From the upload to the list of matches *)

Lemma invalidate_resume_keeps (k : QueryKey) (c : gmap QueryKey Query) :
  (exists rest, k = Some "jobs" :: rest) \/ (exists rest, k = Some "roadmap" :: rest) ->
  invalidateQueries [Some "resume"] c !! k = c !! k.
Proof.
  intros Hk. apply invalidateQueries_other. intros [tail Htail].
  destruct Hk as [[rest ->]|[rest ->]]; discriminate Htail.
Qed.

(** X11.  The invalidation that a successful upload performs,
    ['resume'], matches no query of this client: the queries of the job
    list and of the roadmap dialog are under ['jobs', ...] and
    ['roadmap', ...], their cache entries are left exactly as they were,
    and attaching either query issues the same requests as before the
    invalidation. *)
Theorem X11_upload_invalidation_matches_nothing (resumeId : option string)
    (p : RoadmapDialog.RoadmapDialogProps) (now : Z) (c : gmap QueryKey Query) :
  invalidateQueries [Some "resume"] c !! queryKey (JobList.query resumeId)
  = c !! queryKey (JobList.query resumeId)
  /\ invalidateQueries [Some "resume"] c !! queryKey (RoadmapDialog.query p)
     = c !! queryKey (RoadmapDialog.query p)
  /\ snd (observe now (JobList.query resumeId) (invalidateQueries [Some "resume"] c))
     = snd (observe now (JobList.query resumeId) c)
  /\ snd (observe now (RoadmapDialog.query p) (invalidateQueries [Some "resume"] c))
     = snd (observe now (RoadmapDialog.query p) c).
Proof.
  assert (Hj : invalidateQueries [Some "resume"] c !! queryKey (JobList.query resumeId)
               = c !! queryKey (JobList.query resumeId)).
  { apply invalidate_resume_keeps. left. eexists. reflexivity. }
  assert (Hr : invalidateQueries [Some "resume"] c !! queryKey (RoadmapDialog.query p)
               = c !! queryKey (RoadmapDialog.query p)).
  { apply invalidate_resume_keeps. right. eexists. reflexivity. }
  split; [exact Hj|]. split; [exact Hr|].
  split; apply observe_requests_lookup; assumption.
Qed.

Lemma jobs_get_on_empty_cache (id : string) (now : Z) (c : gmap QueryKey Query) :
  id <> "" ->
  c !! queryKey (JobList.query (Some id)) = None ->
  snd (observe now (JobList.query (Some id)) c) = [jobs_request id].
Proof.
  intros Hid Hc.
  assert (Ht : truthy (VStr id) = true) by (apply truthy_VStr; exact Hid).
  unfold observe, fetch, build. rewrite Hc.
  cbn [JobList.query enabled queryFn JobList.of_nullable default initial isStaleByTime
       state_data is_undefined orb state_fetchStatus].
  rewrite Ht. cbn [andb]. reflexivity.
Qed.

(** X12.  When the upload succeeds with a body whose [id] is a non-empty
    string, the page stores that string as its resume identifier, and the
    job list, given it, asks for /jobs/match/{id} when the cache has nothing
    for it, also after the invalidation of the same response.  Before that
    the identifier is null: the page renders the upload panel and nothing of
    the job list, and rendering cannot throw. *)
Theorem X12_upload_then_matches (ToNumber : value -> result float)
    (fields : list (string * value)) (id : string)
    (upload : ResumeUpload.State) (now : Z) (c : gmap QueryKey Query)
    (DEV : bool) (selectedJob : option string) (jobs : JobList.JobsResult)
    (roadmap : UseQueryResult) :
  lookup_field "id" fields = Some (VStr id) ->
  id <> "" ->
  c !! [Some "jobs"; Some id] = None ->
  let effects := snd (ResumeUpload.step (ResumeUpload.UploadResponse (VObj fields)) upload) in
  App.deliver_all effects App.initial_state = Some {| App.resumeId := Some id |}
  /\ snd (observe now (JobList.query (Some id)) (invalidate_all effects c)) = [jobs_request id]
  /\ App.render ToNumber DEV App.initial_state upload selectedJob jobs roadmap
     = Ok (Elem "QueryClientProvider" [] []
             [Elem "ThemeProvider" App.theme []
                [Elem "CssBaseline" [] [] [];
                 Elem "div" [("className", VStr "app-container")] []
                   [Elem "div" [("className", VStr "content-wrapper")] []
                      [ResumeUpload.render upload]]]]).
Proof.
  intros Hid Hne Hc effects.
  assert (He : effects = [ResumeUpload.InvalidateQueries [Some "resume"];
                          ResumeUpload.OnUploadSuccess (VStr id)]).
  { subst effects. cbn [ResumeUpload.step snd].
    unfold ResumeUpload.onSuccess, get. cbn [nullish get_own]. rewrite Hid. reflexivity. }
  rewrite He. split; [reflexivity|]. split; [|reflexivity].
  cbn [invalidate_all]. apply jobs_get_on_empty_cache; [exact Hne|].
  rewrite invalidate_resume_keeps; [exact Hc|]. left. eexists. reflexivity.
Qed.

(** The witness of X12: the response [{id: "abc"}]. *)
Lemma X12_witness :
  let effects := snd (ResumeUpload.step (ResumeUpload.UploadResponse (VObj [("id", VStr "abc")]))
                        ResumeUpload.initial_state) in
  App.deliver_all effects App.initial_state = Some {| App.resumeId := Some "abc" |}
  /\ snd (observe 0 (JobList.query (Some "abc")) (invalidate_all effects ∅))
     = [jobs_request "abc"].
Proof.
  intros effects.
  destruct (X12_upload_then_matches (fun _ => Ok nan) [("id", VStr "abc")] "abc"
              ResumeUpload.initial_state 0 ∅
              false None (answered []) (result_of initial) eq_refl)
    as (H1 & H2 & _); [discriminate|reflexivity|].
  split; [exact H1|exact H2].
Defined.

(** ** The roadmap query over time *)

(** X13.  Right after a roadmap arrived at [t0], opening the dialog on the
    same resume and job at [t1] issues no request exactly when [t1] is less
    than 300000 ms after [t0]; from five minutes on it posts once more. *)
Theorem X13_roadmap_fresh_iff_within_five_minutes (onClose : handler)
    (resumeId jobTitle : string) (v : value) (c : gmap QueryKey Query) (t0 t1 : Z) :
  let o := RoadmapDialog.query (opened onClose resumeId jobTitle) in
  resumeId <> "" -> jobTitle <> "" -> is_undefined v = false ->
  (snd (observe t1 o (settle_success t0 o v c)) = [] <-> (t1 < t0 + 300000)%Z)
  /\ (snd (observe t1 o (settle_success t0 o v c))
      = [RoadmapDialog.roadmap_request resumeId jobTitle] <-> (t0 + 300000 <= t1)%Z).
Proof.
  intros o Hr Hj Hv.
  assert (Hq : build (queryKey o) (settle_success t0 o v c) = succeeded t0 v).
  { apply build_lookup, settle_success_lookup, Hv. }
  assert (Hfresh : (t1 < t0 + 300000)%Z -> snd (observe t1 o (settle_success t0 o v c)) = []).
  { intros Ht. apply observe_fresh. rewrite Hq. apply succeeded_fresh; [exact Hv|exact Ht]. }
  assert (Hstale : (t0 + 300000 <= t1)%Z ->
                   snd (observe t1 o (settle_success t0 o v c))
                   = [RoadmapDialog.roadmap_request resumeId jobTitle]).
  { intros Ht. apply (roadmap_refetched_when_stale onClose resumeId jobTitle v c t0 t1);
      assumption. }
  split; split.
  - intros H. destruct (Z.lt_ge_cases t1 (t0 + 300000)) as [Hlt|Hge]; [exact Hlt|].
    rewrite (Hstale Hge) in H. discriminate H.
  - exact Hfresh.
  - intros H. destruct (Z.lt_ge_cases t1 (t0 + 300000)) as [Hlt|Hge]; [|exact Hge].
    rewrite (Hfresh Hlt) in H. discriminate H.
  - exact Hstale.
Qed.

(** The witness of X13: one millisecond before and exactly at five minutes. *)
Lemma X13_witness :
  let o := RoadmapDialog.query (opened (Callback "onClose") "r1" "Data Analyst") in
  snd (observe 300999 o (settle_success 1000 o (VObj []) ∅)) = []
  /\ snd (observe 301000 o (settle_success 1000 o (VObj []) ∅))
     = [RoadmapDialog.roadmap_request "r1" "Data Analyst"].
Proof.
  intros o.
  destruct (X13_roadmap_fresh_iff_within_five_minutes (Callback "onClose") "r1" "Data Analyst"
              (VObj []) ∅ 1000 300999) as ([_ H1] & _);
    [discriminate|discriminate|reflexivity|].
  destruct (X13_roadmap_fresh_iff_within_five_minutes (Callback "onClose") "r1" "Data Analyst"
              (VObj []) ∅ 1000 301000) as (_ & [_ H2]);
    [discriminate|discriminate|reflexivity|].
  split; [apply H1; lia|apply H2; lia].
Defined.

(** X14.  Opening the dialog on a resume and a job that are not empty, with
    nothing cached, and failing every attempt: the POST is issued three
    times in all (the first attempt and two retries), and after the third
    failure the dialog shows the error view with the message of the error
    and nothing else. *)
Theorem X14_three_posts_then_error_view (DEV : bool) (onClose : handler)
    (resumeId jobTitle msg : string) (now : Z) (c : gmap QueryKey Query) :
  let p := opened onClose resumeId jobTitle in
  let o := RoadmapDialog.query p in
  resumeId <> "" -> jobTitle <> "" -> c !! queryKey o = None ->
  snd (cache_run (three_failures now o msg) c)
  = [RoadmapDialog.roadmap_request resumeId jobTitle;
     RoadmapDialog.roadmap_request resumeId jobTitle;
     RoadmapDialog.roadmap_request resumeId jobTitle]
  /\ exists tree,
       RoadmapDialog.render DEV p (useQuery o (fst (cache_run (three_failures now o msg) c)))
       = Ok tree
       /\ texts tree = error_shown jobTitle (Some msg).
Proof.
  intros p o Hr Hj Hc.
  pose proof (roadmap_retried_twice onClose resumeId jobTitle msg now c Hr Hj Hc) as H.
  fold p o in H. unfold three_failures. cbn [cache_run cache_step].
  destruct (observe now o c) as [c0 out0].
  destruct (settle_failure o msg c0) as [c1 out1].
  destruct (settle_failure o msg c1) as [c2 out2].
  destruct (settle_failure o msg c2) as [c3 out3].
  destruct H as (-> & _ & -> & _ & -> & _ & -> & Hl & He & Hm & _).
  cbn [fst snd app]. split; [reflexivity|].
  unfold RoadmapDialog.render, RoadmapDialog.when_loaded,
    RoadmapDialog.loading_view, RoadmapDialog.error_view, RoadmapDialog.close_button.
  rewrite Hl, He, Hm. cbn [negb andb JS.bind]. eexists. split; reflexivity.
Qed.

(** The witness of X14. *)
Lemma X14_witness :
  let o := RoadmapDialog.query (opened (SetSelectedJob None) "r1" "Data Analyst") in
  snd (cache_run (three_failures 0 o "Network Error") ∅)
  = [RoadmapDialog.roadmap_request "r1" "Data Analyst";
     RoadmapDialog.roadmap_request "r1" "Data Analyst";
     RoadmapDialog.roadmap_request "r1" "Data Analyst"].
Proof.
  intros o.
  refine (proj1 (X14_three_posts_then_error_view false (SetSelectedJob None) "r1"
                   "Data Analyst" "Network Error" 0 ∅ _ _ _));
    [discriminate|discriminate|reflexivity].
Defined.

(** ** The job list while it has no answer *)

(** While it has no answer the list shows a spinner, or its error text,
    and no dialog. *)
Lemma job_list_without_answer (ToNumber : value -> result float) (DEV : bool) (id : string)
    (selectedJob : option string) (q : JobList.JobsResult) (roadmap : UseQueryResult) :
  id <> "" ->
  (JobList.jobs_isLoading q = true ->
     JobList.render ToNumber DEV (Some id) selectedJob q roadmap
     = Ok (Some (Box [] [Elem "CircularProgress" [] [] []])))
  /\ (JobList.jobs_isLoading q = false -> is_Some (JobList.jobs_error q) ->
      exists tree,
        JobList.render ToNumber DEV (Some id) selectedJob q roadmap = Ok (Some tree)
        /\ texts tree = [TStr "Error loading job matches"]
        /\ find_all "Dialog" tree = []).
Proof.
  intros Hid.
  assert (Ht : truthy (JobList.of_nullable (Some id)) = true) by (apply truthy_VStr; exact Hid).
  split.
  - intros Hl. unfold JobList.render. rewrite Ht, Hl. reflexivity.
  - intros Hl He. unfold JobList.render. rewrite Ht, Hl. cbn [negb].
    rewrite bool_decide_eq_true_2 by exact He.
    eexists. split; [reflexivity|]. split; reflexivity.
Qed.

Lemma create_matches_answered (ToNumber : value -> result float) (l : list JobList.Job) :
  exists created,
    JobList.create_matches ToNumber (VArr (map JobList.job_value l)) = Ok created
    /\ JobList.matches created = Ok (matches_of l).
Proof.
  destruct l as [|j l].
  - exists JobList.NoMatches. split; reflexivity.
  - exists (JobList.JobCards (map element_of (j :: l))). split.
    + unfold JobList.create_matches.
      cbn [map JobList.length_is_zero JobList.create_cards].
      rewrite <- (map_cons JobList.job_value j l), create_cards_answered. reflexivity.
    + cbn [JobList.matches]. rewrite cards_rendered. reflexivity.
Qed.

(** After the early returns of the job list: an identifier that is set, no
    loading and no error. *)
Lemma job_list_past_early_returns (ToNumber : value -> result float) (DEV : bool)
    (resumeId selectedJob : option string) (q : JobList.JobsResult) (roadmap : UseQueryResult)
    (e : exn) :
  JobList.render ToNumber DEV resumeId selectedJob q roadmap = Throw e ->
  exists id,
    resumeId = Some id /\ id <> ""
    /\ JobList.jobs_isLoading q = false /\ JobList.jobs_error q = None
    /\ (let! created := JobList.create_matches ToNumber (JobList.jobs q) in
        let! dialog := RoadmapDialog.render DEV (JobList.dialog_props id selectedJob) roadmap in
        let! list := JobList.matches created in
        Ok (Some (job_list_of dialog []))) = Throw e.
Proof.
  unfold JobList.render. intros H.
  destruct resumeId as [id|]; cbn [JobList.of_nullable truthy] in H; [|discriminate H].
  destruct (String.eqb_spec id "") as [->|Hid]; cbn [negb] in H; [discriminate H|].
  destruct (JobList.jobs_isLoading q); [discriminate H|].
  destruct (JobList.jobs_error q) as [msg|].
  - rewrite bool_decide_eq_true_2 in H by eauto. discriminate H.
  - rewrite bool_decide_eq_false_2 in H by (intros [x Hx]; discriminate Hx).
    change (default "" (Some id)) with id in H.
    exists id. split; [reflexivity|]. split; [exact Hid|]. split; [reflexivity|].
    split; [reflexivity|].
    destruct (JobList.create_matches ToNumber (JobList.jobs q)) as [created|e1];
      cbn [JS.bind] in *; [|exact H].
    destruct (RoadmapDialog.render DEV (JobList.dialog_props id selectedJob) roadmap)
      as [dialog|e2]; cbn [JS.bind] in *; [|exact H].
    destruct (JobList.matches created) as [list|e3]; cbn [JS.bind] in *;
      [discriminate H|exact H].
Qed.

(** X15.  The job list throws only past its early returns, and only
    through its answer or its dialog: if rendering the list throws, then the
    resume identifier is a non-empty string, the query of the list is
    neither loading nor in error, and the exception was thrown by the
    creation of the cards from the answer, by the nested roadmap dialog, or
    by the rendering of the cards; for an answer whose entries have the
    declared shape it was the dialog.  An answer that is not an array (and
    not null, undefined or of length zero) throws a TypeError, [map] being
    no function, and so does an array that starts with null, at the first
    read of the entry.  While the list is loading it is a spinner alone, and
    otherwise, when its query has an error, the text "Error loading job
    matches" alone, whatever the answer and the query of the dialog hold. *)
Theorem X15_job_list_throws_through_answer_or_dialog (ToNumber : value -> result float)
    (DEV : bool) (resumeId selectedJob : option string) (q : JobList.JobsResult)
    (roadmap : UseQueryResult) (e : exn) (l : list JobList.Job) (i : string) (v : value)
    (rest : list value) :
  (JobList.render ToNumber DEV resumeId selectedJob q roadmap = Throw e ->
   (exists id, resumeId = Some id /\ id <> ""
      /\ (JobList.create_matches ToNumber (JobList.jobs q) = Throw e
          \/ RoadmapDialog.render DEV (JobList.dialog_props id selectedJob) roadmap = Throw e
          \/ exists created,
               JobList.create_matches ToNumber (JobList.jobs q) = Ok created
               /\ JobList.matches created = Throw e))
   /\ JobList.jobs_isLoading q = false
   /\ JobList.jobs_error q = None)
  /\ (JobList.render ToNumber DEV resumeId selectedJob (answered l) roadmap = Throw e ->
      exists id, resumeId = Some id /\ id <> ""
        /\ RoadmapDialog.render DEV (JobList.dialog_props id selectedJob) roadmap = Throw e)
  /\ (i <> "" -> isArray v = false -> nullish v = false -> JobList.length_is_zero v = false ->
      exists msg,
        JobList.render ToNumber DEV (Some i) selectedJob (answered_with v) roadmap
        = Throw (TypeError msg))
  /\ (i <> "" ->
      exists msg,
        JobList.render ToNumber DEV (Some i) selectedJob (answered_with (VArr (VNull :: rest)))
          roadmap
        = Throw (TypeError msg))
  /\ (i <> "" -> JobList.jobs_isLoading q = true ->
      JobList.render ToNumber DEV (Some i) selectedJob q roadmap
      = Ok (Some (Box [] [Elem "CircularProgress" [] [] []])))
  /\ (i <> "" -> JobList.jobs_isLoading q = false -> is_Some (JobList.jobs_error q) ->
      exists tree,
        JobList.render ToNumber DEV (Some i) selectedJob q roadmap = Ok (Some tree)
        /\ texts tree = [TStr "Error loading job matches"]
        /\ find_all "Dialog" tree = []).
Proof.
  split; [|split; [|split; [|split; [|split]]]].
  - intros H. apply job_list_past_early_returns in H as (id & -> & Hid & Hl & He & H).
    split; [|split; assumption].
    exists id. split; [reflexivity|]. split; [exact Hid|].
    destruct (JobList.create_matches ToNumber (JobList.jobs q)) as [created|e1];
      cbn [JS.bind] in H; [|left; congruence].
    destruct (RoadmapDialog.render DEV (JobList.dialog_props id selectedJob) roadmap)
      as [dialog|e2]; cbn [JS.bind] in H; [|right; left; congruence].
    destruct (JobList.matches created) as [list|e3] eqn:Hm; cbn [JS.bind] in H;
      [discriminate H|].
    right; right. exists created. split; [reflexivity|congruence].
  - intros H. apply job_list_past_early_returns in H as (id & -> & Hid & _ & _ & H).
    exists id. split; [reflexivity|]. split; [exact Hid|].
    cbn [answered answered_with JobList.jobs] in H.
    destruct (create_matches_answered ToNumber l) as (created & Hc & Hm).
    rewrite Hc in H. cbn [JS.bind] in H.
    destruct (RoadmapDialog.render DEV (JobList.dialog_props id selectedJob) roadmap)
      as [dialog|e2]; cbn [JS.bind] in H; [|congruence].
    rewrite Hm in H. discriminate H.
  - intros Hi Ha Hn Hz.
    assert (Ht : truthy (JobList.of_nullable (Some i)) = true) by (apply truthy_VStr; exact Hi).
    unfold JobList.render. rewrite Ht.
    cbn [negb answered_with JobList.jobs_isLoading JobList.jobs_error JobList.jobs bool_decide].
    unfold JobList.create_matches. rewrite Hz.
    destruct v; try discriminate; eexists; reflexivity.
  - intros Hi.
    assert (Ht : truthy (JobList.of_nullable (Some i)) = true) by (apply truthy_VStr; exact Hi).
    unfold JobList.render. rewrite Ht. eexists. reflexivity.
  - intros Hi. apply (job_list_without_answer ToNumber DEV i selectedJob q roadmap Hi).
  - intros Hi. apply (job_list_without_answer ToNumber DEV i selectedJob q roadmap Hi).
Qed.

(** The witness of X15: the dialog is open on a roadmap whose skills are
    objects. *)
Lemma X15_witness :
  exists id, Some "r1" = Some id /\ id <> ""
     /\ RoadmapDialog.render false (JobList.dialog_props id (Some "Data Analyst"))
          (loaded roadmap_with_skill_objects)
        = Throw (ReactError "Objects are not valid as a React child").
Proof.
  apply (proj1 (proj2 (X15_job_list_throws_through_answer_or_dialog (fun _ => Ok nan) false
                         (Some "r1") (Some "Data Analyst") (answered [])
                         (loaded roadmap_with_skill_objects)
                         (ReactError "Objects are not valid as a React child") [] "" VNull []))).
  reflexivity.
Defined.

(** * The dialog as a whole

    Two properties of the whole dialog that rest on the lemmas above. *)

(** ** C10: the Close button in the three states of the query *)

Lemma when_loaded_settled (q : UseQueryResult) view :
  isLoading q = false -> isError q = false -> truthy (data q) = true ->
  RoadmapDialog.when_loaded q view = view (data q).
Proof. unfold RoadmapDialog.when_loaded. intros -> -> ->. reflexivity. Qed.

Lemma when_loaded_error (q : UseQueryResult) view :
  isError q = true -> RoadmapDialog.when_loaded q view = Ok [].
Proof. unfold RoadmapDialog.when_loaded. intros ->. rewrite andb_false_r. reflexivity. Qed.

Lemma mapi_from_map_ok {A} (inj : A -> value) (f : value -> nat -> result (list node))
    (l : list A) :
  (forall y k, exists ns, f (inj y) k = Ok ns) ->
  forall i, exists ns, mapi_from f i (map inj l) = Ok ns.
Proof.
  intros Hf. induction l as [|x l IH]; intros i; cbn [map mapi_from]; [eauto|].
  destruct (Hf x i) as [n ->]. destruct (IH (S i)) as [ns ->]. cbn [JS.bind]. eauto.
Qed.

Lemma debug_info_well_formed (d : RoadmapData.t) :
  exists ns, RoadmapDialog.debug_info (RoadmapData.to_value d) = Ok ns.
Proof.
  unfold RoadmapDialog.debug_info, RoadmapDialog.count, JS.or.
  cbn [RoadmapData.to_value opt_get nullish get_own lookup_field String.eqb Ascii.eqb
       Bool.eqb default from_option id].
  repeat match goal with
         | |- context [truthy ?v] => destruct (truthy v)
         end; cbn [child JS.bind]; eauto.
Qed.

(** The second copy renders a roadmap of the declared shape. *)
Lemma part000_content_well_formed (d : RoadmapData.t) :
  exists ns, RoadmapDialogPart000.content (RoadmapData.to_value d) = Ok ns.
Proof.
  unfold RoadmapDialogPart000.content, RoadmapDialogPart000.sections,
    RoadmapDialogPart000.skills_gap_section, RoadmapDialogPart000.learning_path_section,
    RoadmapDialogPart000.certifications_section, RoadmapDialogPart000.projects_section.
  rewrite !(get_truthy (RoadmapData.to_value d) _ eq_refl).
  change (get_own (RoadmapData.to_value d) "skills_gap")
    with (VArr (map VStr (RoadmapData.skills_gap d))).
  change (get_own (RoadmapData.to_value d) "learning_path")
    with (VArr (map RoadmapData.phase_value (RoadmapData.learning_path d))).
  change (get_own (RoadmapData.to_value d) "certifications")
    with (VArr (map VStr (RoadmapData.certifications d))).
  change (get_own (RoadmapData.to_value d) "projects")
    with (VArr (map RoadmapData.project_value (RoadmapData.projects d))).
  cbn [JS.bind RoadmapDialogPart000.call_map]. unfold mapi.
  destruct (mapi_from_map_ok VStr RoadmapDialogPart000.skill_item (RoadmapData.skills_gap d)
              ltac:(intros; eexists; reflexivity) 0) as [s1 ->].
  destruct (mapi_from_map_ok RoadmapData.phase_value RoadmapDialogPart000.step_item
              (RoadmapData.learning_path d)) with (i := 0%nat) as [s2 ->].
  { intros ph k. unfold RoadmapDialogPart000.step_item, get.
    cbn [RoadmapData.phase_value nullish get_own lookup_field String.eqb Ascii.eqb Bool.eqb
         default from_option id JS.bind child RoadmapDialogPart000.call_map].
    unfold mapi.
    destruct (mapi_from_map_ok VStr
                (fun task taskIndex =>
                   let! shown := child task in
                   Ok [Typography [("key", VNum (of_nat taskIndex)); ("variant", VStr "body2")]
                         shown])
                (RoadmapData.phase_tasks ph) ltac:(intros; eexists; reflexivity) 0) as [t ->].
    cbn [JS.bind]. eauto. }
  destruct (mapi_from_map_ok VStr
              (fun cert (_ : nat) =>
                 let! shown := child cert in
                 Ok [Typography [("key", cert); ("variant", VStr "body2")] shown])
              (RoadmapData.certifications d) ltac:(intros; eexists; reflexivity) 0) as [s3 ->].
  destruct (mapi_from_map_ok RoadmapData.project_value RoadmapDialogPart000.project_item
              (RoadmapData.projects d) ltac:(intros; eexists; reflexivity) 0) as [s4 ->].
  cbn [JS.bind]. eauto.
Qed.

(** C10.  While the query of the dialog is loading, the dialog renders, its
    action bar holds the Close button alone, and no button of the whole
    dialog reacts to a click; the same holds of the second copy of the
    component.  In every state the first button of the action bar is Close,
    disabled exactly when the query is loading, and a click on it calls
    [onClose] once loading is over.  When the query has ended in an error
    both copies render with Close alone in the action bar, and when it has
    succeeded with a roadmap of the declared shape both render with Close
    and Save; in both states Close reacts to a click. *)
Theorem C10_close_disabled_while_loading (DEV : bool) (p : RoadmapDialog.RoadmapDialogProps)
    (qs : Query) (d : RoadmapData.t) :
  let q := result_of qs in
  (isLoading q = true ->
     exists tree, RoadmapDialog.render DEV p q = Ok tree
       /\ action_bar tree = [RoadmapDialog.close_button p q]
       /\ forall b, In b (find_all "Button" tree) -> click b = None)
  /\ (forall tree, RoadmapDialog.render DEV p q = Ok tree ->
        exists rest, action_bar tree = RoadmapDialog.close_button p q :: rest)
  /\ (forall tree, RoadmapDialogPart000.render p q = Ok tree ->
        exists rest, action_bar tree = RoadmapDialog.close_button p q :: rest)
  /\ texts (RoadmapDialog.close_button p q) = [TStr "Close"]
  /\ disabled (RoadmapDialog.close_button p q) = isLoading q
  /\ click (RoadmapDialog.close_button p q)
     = (if isLoading q then None else Some (RoadmapDialog.onClose p))
  /\ (state_status qs = Success \/ state_status qs = Errored ->
        isLoading q = false
        /\ click (RoadmapDialog.close_button p q) = Some (RoadmapDialog.onClose p))
  /\ (isLoading q = true ->
     exists tree, RoadmapDialogPart000.render p q = Ok tree
       /\ action_bar tree = [RoadmapDialog.close_button p q]
       /\ forall b, In b (find_all "Button" tree) -> click b = None)
  /\ (state_status qs = Errored ->
     (exists tree, RoadmapDialog.render DEV p q = Ok tree
        /\ action_bar tree = [RoadmapDialog.close_button p q])
     /\ (exists tree, RoadmapDialogPart000.render p q = Ok tree
        /\ action_bar tree = [RoadmapDialog.close_button p q]))
  /\ (state_status qs = Success -> state_data qs = RoadmapData.to_value d ->
     (exists tree, RoadmapDialog.render DEV p q = Ok tree
        /\ action_bar tree = [RoadmapDialog.close_button p q; RoadmapDialog.save_button])
     /\ (exists tree, RoadmapDialogPart000.render p q = Ok tree
        /\ action_bar tree = [RoadmapDialog.close_button p q; RoadmapDialog.save_button])).
Proof.
  intros q.
  assert (Hclick : click (RoadmapDialog.close_button p q)
                   = (if isLoading q then None else Some (RoadmapDialog.onClose p))).
  { unfold click, disabled, RoadmapDialog.close_button. cbn.
    destruct (isLoading q); reflexivity. }
  split; [|split; [|split; [|split; [|split; [|split; [|split; [|split; [|split]]]]]]]].
  - intros Hl. unfold RoadmapDialog.render.
    rewrite !when_loaded_loading by exact Hl. cbn [JS.bind].
    eexists. split; [reflexivity|]. split; [reflexivity|].
    pose proof (loading_not_error qs Hl) as He. fold q in He.
    match goal with
    | |- forall b, In b ?l -> _ => assert (Hbs : l = [RoadmapDialog.close_button p q])
    end.
    { unfold RoadmapDialog.loading_view, RoadmapDialog.error_view.
      rewrite Hl, He. reflexivity. }
    rewrite Hbs. intros b [<-|[]]. rewrite Hclick, Hl. reflexivity.
  - intros tree H. unfold RoadmapDialog.render in H.
    inv_bind H. inv_bind H. inv_Ok H. eexists. reflexivity.
  - intros tree H. unfold RoadmapDialogPart000.render in H.
    inv_bind H. inv_bind H. inv_Ok H. eexists. reflexivity.
  - reflexivity.
  - reflexivity.
  - exact Hclick.
  - intros H. rewrite Hclick. subst q. rewrite settled_not_loading by exact H.
    split; reflexivity.
  - intros Hl. unfold RoadmapDialogPart000.render.
    rewrite !when_loaded_loading by exact Hl. cbn [JS.bind].
    eexists. split; [reflexivity|]. split; [reflexivity|].
    pose proof (loading_not_error qs Hl) as He. fold q in He.
    match goal with
    | |- forall b, In b ?l -> _ => assert (Hbs : l = [RoadmapDialog.close_button p q])
    end.
    { unfold RoadmapDialog.loading_view, RoadmapDialogPart000.error_view.
      rewrite Hl, He. reflexivity. }
    rewrite Hbs. intros b [<-|[]]. rewrite Hclick, Hl. reflexivity.
  - intros Hs.
    assert (He : isError q = true).
    { subst q. cbn [result_of isError]. unfold is_errored. rewrite Hs. reflexivity. }
    split.
    + unfold RoadmapDialog.render. rewrite !when_loaded_error by exact He. cbn [JS.bind].
      eexists. split; reflexivity.
    + unfold RoadmapDialogPart000.render. rewrite !when_loaded_error by exact He.
      cbn [JS.bind]. eexists. split; reflexivity.
  - intros Hs Hd.
    assert (Hl : isLoading q = false).
    { subst q. apply settled_not_loading. left. exact Hs. }
    assert (He : isError q = false).
    { subst q. cbn [result_of isError]. unfold is_errored. rewrite Hs. reflexivity. }
    assert (Hdata : data q = RoadmapData.to_value d) by exact Hd.
    assert (Ht : truthy (data q) = true) by (rewrite Hdata; reflexivity).
    split.
    + unfold RoadmapDialog.render. rewrite !(when_loaded_settled q _ Hl He Ht), Hdata.
      unfold RoadmapDialog.content. rewrite sections_well_formed.
      assert (Hdebug : exists ns,
                (if DEV then RoadmapDialog.debug_info (RoadmapData.to_value d) else Ok [])
                = Ok ns)
        by (destruct DEV; [apply debug_info_well_formed|eauto]).
      destruct Hdebug as [debug ->]. cbn [JS.bind].
      eexists. split; reflexivity.
    + unfold RoadmapDialogPart000.render. rewrite !(when_loaded_settled q _ Hl He Ht), Hdata.
      destruct (part000_content_well_formed d) as [ns ->]. cbn [JS.bind].
      eexists. split; reflexivity.
Qed.

(** The witness of C10: the first fetch of a roadmap is in flight. *)
Lemma C10_witness :
  let p := opened (SetSelectedJob None) "r1" "Data Analyst" in
  let q := result_of (fetching initial) in
  exists tree, RoadmapDialog.render false p q = Ok tree
    /\ action_bar tree = [RoadmapDialog.close_button p q]
    /\ forall b, In b (find_all "Button" tree) -> click b = None.
Proof.
  refine (proj1 (C10_close_disabled_while_loading false
                   (opened (SetSelectedJob None) "r1" "Data Analyst") (fetching initial)
                   {| RoadmapData.skills_gap := []; RoadmapData.learning_path := [];
                      RoadmapData.certifications := []; RoadmapData.projects := [] |}) _).
  reflexivity.
Defined.

(** ** C1: a missing field shows its placeholder *)

Lemma printable_VArr (l : list value) : printable (VArr l) = forallb printable l.
Proof.
  cbn [printable]. induction l as [|x l IH]; [reflexivity|].
  cbn [forallb]. rewrite IH. reflexivity.
Qed.

Lemma is_ok_bind {A B} (m : result A) (k : A -> result B) :
  is_ok (JS.bind m k) = match m with Ok a => is_ok (k a) | Throw _ => false end.
Proof. destruct m; reflexivity. Qed.

(** React accepts exactly the printable values as children. *)
Lemma child_is_ok (v : value) : is_ok (child v) = printable v.
Proof.
  induction v as [| | b | f | s | l IH | fields] using value_array_ind; try reflexivity.
  rewrite printable_VArr. cbn [child].
  induction IH as [|x rest Hx _ IHrest]; [reflexivity|].
  cbn [forallb]. rewrite <- Hx, <- IHrest.
  destruct (child x) as [a|e]; [|reflexivity]. cbn [JS.bind is_ok andb].
  match goal with |- context [JS.bind ?m _] => destruct m end; reflexivity.
Qed.

Lemma falsy_printable (v : value) : truthy v = false -> printable v = true.
Proof. destruct v; simpl; intros H; try discriminate H; reflexivity. Qed.

Lemma printable_or (v w : value) : printable w = true -> printable (JS.or v w) = printable v.
Proof.
  intros Hw. unfold JS.or. destruct (truthy v) eqn:Hv; [reflexivity|].
  rewrite Hw, (falsy_printable v Hv). reflexivity.
Qed.

Lemma mapi_from_is_ok {A B} (ok : A -> bool) (f : A -> nat -> result (list B)) :
  (forall x i, is_ok (f x i) = ok x) ->
  forall l i, is_ok (mapi_from f i l) = forallb ok l.
Proof.
  intros Hf l. induction l as [|x l IH]; intros i; [reflexivity|].
  cbn [mapi_from forallb]. rewrite <- (Hf x i), <- (IH (S i)).
  destruct (f x i) as [a|e]; [|reflexivity]. cbn [JS.bind is_ok andb].
  destruct (mapi_from f (S i) l); reflexivity.
Qed.

Lemma bullet_is_ok key (item : value) (fallback : string) :
  is_ok (RoadmapDialog.bullet key item fallback) = printable item.
Proof.
  unfold RoadmapDialog.bullet. rewrite is_ok_bind.
  rewrite <- (printable_or item (VStr fallback) eq_refl), <- child_is_ok.
  destruct (child _); reflexivity.
Qed.

Lemma skill_item_is_ok (skill : value) (index : nat) :
  is_ok (RoadmapDialog.skill_item skill index) = printable skill.
Proof.
  unfold RoadmapDialog.skill_item.
  assert (Hshown : forall (required : value),
            is_ok (let! shown := child (JS.or skill (VStr "Unknown skill")) in
                   Ok [Typography [("key", VStr ("skill-" +:+ pretty index));
                                   ("variant", VStr "body2");
                                   ("sx.color", VStr (if truthy required then "error.main"
                                                      else "info.main"))] shown])
            = printable skill).
  { intros required. rewrite is_ok_bind.
    rewrite <- (printable_or skill (VStr "Unknown skill") eq_refl), <- child_is_ok.
    destruct (child _); reflexivity. }
  destruct skill as [| |b|f|s|l|fields]; cbn [opt_call_startsWith JS.bind];
    try apply Hshown.
  destruct (nullish _); [apply Hshown|reflexivity].
Qed.

Lemma tasks_of_is_ok (step : value) :
  is_ok (RoadmapDialog.tasks_of step)
  = forallb printable (RoadmapDialog.elements (opt_get step "tasks")).
Proof.
  unfold RoadmapDialog.tasks_of.
  destruct (opt_get step "tasks") as [| |b|f|s|l|fields]; cbn [truthy isArray andb];
    rewrite ?andb_false_r; try reflexivity.
  apply mapi_from_is_ok. intros x i. apply bullet_is_ok.
Qed.

Lemma step_item_is_ok (step : value) (index : nat) :
  is_ok (RoadmapDialog.step_item step index) = step_printable step.
Proof.
  unfold RoadmapDialog.step_item, step_printable.
  rewrite <- (printable_or (opt_get step "title") (VStr ("Phase " +:+ pretty (index + 1))) eq_refl).
  rewrite <- (printable_or (opt_get step "duration") (VStr "Duration not specified") eq_refl).
  rewrite <- !child_is_ok, <- tasks_of_is_ok.
  destruct (child (JS.or (opt_get step "title") _)); [|reflexivity].
  destruct (child (JS.or (opt_get step "duration") _)); [|reflexivity].
  destruct (RoadmapDialog.tasks_of step); reflexivity.
Qed.

Lemma project_item_is_ok (project : value) (index : nat) :
  is_ok (RoadmapDialog.project_item project index) = project_printable project.
Proof.
  unfold RoadmapDialog.project_item, project_printable.
  rewrite <- (printable_or (opt_get project "title")
                (VStr ("Project " +:+ pretty (index + 1))) eq_refl).
  rewrite <- (printable_or (opt_get project "description")
                (VStr "Project description not available") eq_refl).
  rewrite <- !child_is_ok.
  destruct (child (JS.or (opt_get project "title") _)); [|reflexivity].
  destruct (child (JS.or (opt_get project "description") _)); reflexivity.
Qed.

Lemma elements_not_nonempty (v : value) :
  RoadmapDialog.nonempty_array v = false -> RoadmapDialog.elements v = [].
Proof.
  unfold RoadmapDialog.nonempty_array.
  destruct v as [| |b|f|s|l|fields]; try reflexivity.
  destruct l; [reflexivity|discriminate].
Qed.

(** A guarded list renders exactly when the entries of its array do. *)
Lemma guarded_list_is_ok (ok : value -> bool) (f : value -> nat -> result (list node))
    (msg : string) (v : value) :
  (forall x i, is_ok (f x i) = ok x) ->
  is_ok (if RoadmapDialog.nonempty_array v
         then mapi f (RoadmapDialog.elements v)
         else Ok [RoadmapDialog.placeholder msg])
  = forallb ok (RoadmapDialog.elements v).
Proof.
  intros Hf. destruct (RoadmapDialog.nonempty_array v) eqn:Hv.
  - apply mapi_from_is_ok. exact Hf.
  - rewrite (elements_not_nonempty v Hv). reflexivity.
Qed.

Lemma debug_info_is_ok (roadmap : value) :
  truthy roadmap = true ->
  is_ok (RoadmapDialog.debug_info roadmap) = lengths_printable roadmap.
Proof.
  intros Hr. unfold RoadmapDialog.debug_info, lengths_printable, RoadmapDialog.count.
  rewrite !(opt_get_truthy roadmap _ Hr).
  rewrite <- (printable_or (opt_get (get_own roadmap "skills_gap") "length") (VNum 0) eq_refl).
  rewrite <- (printable_or (opt_get (get_own roadmap "learning_path") "length") (VNum 0) eq_refl).
  rewrite <- (printable_or (opt_get (get_own roadmap "certifications") "length") (VNum 0) eq_refl).
  rewrite <- (printable_or (opt_get (get_own roadmap "projects") "length") (VNum 0) eq_refl).
  rewrite <- !child_is_ok.
  destruct (child (JS.or (opt_get (get_own roadmap "skills_gap") "length") _)); [|reflexivity].
  destruct (child (JS.or (opt_get (get_own roadmap "learning_path") "length") _)); [|reflexivity].
  destruct (child (JS.or (opt_get (get_own roadmap "certifications") "length") _));
    [|reflexivity].
  destruct (child (JS.or (opt_get (get_own roadmap "projects") "length") _)); reflexivity.
Qed.

(** The panel renders a truthy response exactly when the response is
    renderable. *)
Lemma render_is_ok (DEV : bool) (p : RoadmapDialog.RoadmapDialogProps) (roadmap : value) :
  truthy roadmap = true ->
  is_ok (RoadmapDialog.render DEV p (loaded roadmap)) = renderable DEV roadmap.
Proof.
  intros Hr. unfold RoadmapDialog.render. rewrite !(when_loaded_loaded roadmap _ Hr).
  cbn [JS.bind]. rewrite is_ok_bind.
  assert (Hc : is_ok (RoadmapDialog.content DEV roadmap) = renderable DEV roadmap).
  { unfold RoadmapDialog.content, renderable, RoadmapDialog.sections.
    assert (Hd : is_ok (if DEV then RoadmapDialog.debug_info roadmap else Ok [])
                 = (if DEV then lengths_printable roadmap else true))
      by (destruct DEV; [apply debug_info_is_ok; exact Hr|reflexivity]).
    rewrite <- Hd.
    rewrite <- (guarded_list_is_ok printable RoadmapDialog.skill_item
                  "No skills gap data available" _ skill_item_is_ok).
    rewrite <- (guarded_list_is_ok step_printable RoadmapDialog.step_item
                  "No learning path data available" _ step_item_is_ok).
    rewrite <- (guarded_list_is_ok printable
                  (fun cert index => RoadmapDialog.bullet (VStr ("cert-" +:+ pretty index)) cert
                                       "Certification not specified")
                  "No certification recommendations available" _
                  (fun x i => bullet_is_ok _ x _)).
    rewrite <- (guarded_list_is_ok project_printable RoadmapDialog.project_item
                  "No project suggestions available" _ project_item_is_ok).
    unfold RoadmapDialog.skills_gap_section, RoadmapDialog.learning_path_section,
      RoadmapDialog.certifications_section, RoadmapDialog.projects_section.
    rewrite !(get_truthy roadmap _ Hr). cbn [JS.bind].
    destruct (if DEV then RoadmapDialog.debug_info roadmap else Ok []); [|reflexivity].
    cbn [JS.bind is_ok andb].
    repeat match goal with
           | |- context [JS.bind (if ?b then ?x else ?y) _] =>
               destruct (if b then x else y); cbn [JS.bind is_ok andb]; [|reflexivity]
           end.
    reflexivity. }
  rewrite <- Hc. destruct (RoadmapDialog.content DEV roadmap); reflexivity.
Qed.

(** *** Where the placeholders are *)

Lemma inside_Elem (n : node) (c : string) props hs (cs : list node) :
  Exists (inside n) cs -> inside n (Elem c props hs cs).
Proof.
  intros H. apply Exists_exists in H as (m & Hm & Hn).
  apply (inside_child n c props hs cs m); [apply list_elem_of_In; exact Hm|exact Hn].
Qed.

Lemma inside_texts (n tree : node) (t : text) :
  inside n tree -> In t (texts n) -> In t (texts tree).
Proof.
  intros H Ht. induction H as [|c props hs cs m Hm _ IH]; [exact Ht|].
  rewrite texts_Elem. apply in_flat_map. exists m. split; [exact Hm|exact IH].
Qed.

Lemma inside_shows (msg : string) (tree : node) :
  inside (RoadmapDialog.placeholder msg) tree -> shows msg tree.
Proof. intros H. apply (inside_texts _ _ _ H). left. reflexivity. Qed.

Lemma mapi_from_In {A B} (f : A -> nat -> result (list B)) (l : list A) (x : A) :
  In x l ->
  forall i ns, mapi_from f i l = Ok ns ->
  exists k nsx, f x k = Ok nsx /\ forall n, In n nsx -> In n ns.
Proof.
  induction l as [|y l IH]; intros Hx i ns H; [destruct Hx|].
  cbn [mapi_from] in H. inv_bind H. inv_bind H. inv_Ok H.
  destruct Hx as [->|Hx].
  - exists i. eexists. split; [eassumption|]. intros n Hn. apply in_or_app. left. exact Hn.
  - destruct (IH Hx (S i) _ Ha0) as (k & nsx & Hk & Hin).
    exists k, nsx. split; [exact Hk|]. intros n Hn. apply in_or_app. right. apply Hin, Hn.
Qed.

(** The parts of a rendered panel: the debug box, and the four lists. *)
Lemma render_loaded_inv (DEV : bool) (p : RoadmapDialog.RoadmapDialogProps) (roadmap : value)
    (tree : node) :
  truthy roadmap = true ->
  RoadmapDialog.render DEV p (loaded roadmap) = Ok tree ->
  exists s1 s2 s3 s4,
    (if RoadmapDialog.nonempty_array (get_own roadmap "skills_gap")
     then mapi RoadmapDialog.skill_item (RoadmapDialog.elements (get_own roadmap "skills_gap"))
     else Ok [RoadmapDialog.placeholder "No skills gap data available"]) = Ok s1
    /\ (if RoadmapDialog.nonempty_array (get_own roadmap "learning_path")
        then mapi RoadmapDialog.step_item
               (RoadmapDialog.elements (get_own roadmap "learning_path"))
        else Ok [RoadmapDialog.placeholder "No learning path data available"]) = Ok s2
    /\ (if RoadmapDialog.nonempty_array (get_own roadmap "certifications")
        then mapi (fun cert index =>
                     RoadmapDialog.bullet (VStr ("cert-" +:+ pretty index)) cert
                       "Certification not specified")
               (RoadmapDialog.elements (get_own roadmap "certifications"))
        else Ok [RoadmapDialog.placeholder "No certification recommendations available"]) = Ok s3
    /\ (if RoadmapDialog.nonempty_array (get_own roadmap "projects")
        then mapi RoadmapDialog.project_item (RoadmapDialog.elements (get_own roadmap "projects"))
        else Ok [RoadmapDialog.placeholder "No project suggestions available"]) = Ok s4
    /\ forall n,
         Exists (inside n) (s1 ++ s2 ++ s3 ++ s4) -> inside n tree.
Proof.
  intros Hr H. unfold RoadmapDialog.render in H.
  rewrite !(when_loaded_loaded roadmap _ Hr) in H. cbn [JS.bind] in H.
  inv_bind H. inv_Ok H.
  unfold RoadmapDialog.content in Ha. inv_bind Ha. inv_bind Ha. inv_Ok Ha.
  rename a0 into debug.
  unfold RoadmapDialog.sections, RoadmapDialog.skills_gap_section,
    RoadmapDialog.learning_path_section, RoadmapDialog.certifications_section,
    RoadmapDialog.projects_section in Ha1.
  rewrite !(get_truthy roadmap _ Hr) in Ha1. cbn [JS.bind] in Ha1.
  inv_bind Ha1. inv_bind Ha1. inv_bind Ha1. inv_bind Ha1. inv_Ok Ha1.
  do 4 eexists. repeat (split; [eassumption|]).
  intros n Hn.
  apply inside_Elem, Exists_cons_tl, Exists_cons_hd, inside_Elem.
  cbn [RoadmapDialog.loading_view RoadmapDialog.error_view loaded isLoading isError app].
  apply Exists_cons_hd, inside_Elem, Exists_last, inside_Elem.
  apply Exists_app in Hn as [Hn|Hn];
    [apply Exists_cons_hd; apply inside_Elem, Exists_cons_tl, Exists_cons_hd, inside_Elem, Hn|].
  apply Exists_cons_tl.
  apply Exists_app in Hn as [Hn|Hn];
    [apply Exists_cons_hd; apply inside_Elem, Exists_cons_tl, Exists_cons_hd, inside_Elem, Hn|].
  apply Exists_cons_tl.
  apply Exists_app in Hn as [Hn|Hn];
    [apply Exists_cons_hd; apply inside_Elem, Exists_cons_tl, Exists_cons_hd, inside_Elem, Hn|].
  apply Exists_cons_tl, Exists_cons_hd.
  apply inside_Elem, Exists_cons_tl, Exists_cons_hd, inside_Elem, Hn.
Qed.

(** The second copy of the dialog renders a truthy response only if the
    four list fields are arrays. *)
Lemma part000_needs_four_arrays (p : RoadmapDialog.RoadmapDialogProps) (roadmap : value) :
  truthy roadmap = true ->
  four_arrays roadmap = false ->
  is_ok (RoadmapDialogPart000.render p (loaded roadmap)) = false.
Proof.
  intros Hr Hf.
  destruct (RoadmapDialogPart000.render p (loaded roadmap)) as [tree|e] eqn:H; [|reflexivity].
  exfalso. unfold RoadmapDialogPart000.render in H. inv_bind H. clear H.
  rewrite (when_loaded_loaded roadmap _ Hr) in Ha.
  unfold RoadmapDialogPart000.content in Ha. inv_bind Ha. clear Ha.
  unfold RoadmapDialogPart000.sections in Ha0.
  inv_bind Ha0. inv_bind Ha0. inv_bind Ha0. inv_bind Ha0. clear Ha0.
  unfold RoadmapDialogPart000.skills_gap_section in Ha1.
  unfold RoadmapDialogPart000.learning_path_section in Ha2.
  unfold RoadmapDialogPart000.certifications_section in Ha3.
  unfold RoadmapDialogPart000.projects_section in Ha4.
  rewrite (get_truthy roadmap "skills_gap" Hr) in Ha1.
  rewrite (get_truthy roadmap "learning_path" Hr) in Ha2.
  rewrite (get_truthy roadmap "certifications" Hr) in Ha3.
  rewrite (get_truthy roadmap "projects" Hr) in Ha4.
  cbn [JS.bind] in Ha1, Ha2, Ha3, Ha4.
  apply call_map_needs_array in Ha1, Ha2, Ha3, Ha4.
  unfold four_arrays in Hf. rewrite Ha1, Ha2, Ha3, Ha4 in Hf. discriminate Hf.
Qed.

(** A falsy response renders as the dialog without any section. *)
Lemma falsy_roadmap_no_section (DEV : bool) (p : RoadmapDialog.RoadmapDialogProps)
    (roadmap : value) :
  truthy roadmap = false ->
  exists tree,
    RoadmapDialog.render DEV p (loaded roadmap) = Ok tree
    /\ find_all "Typography" tree = [].
Proof.
  intros Hr. destruct (child_falsy roadmap Hr) as (shown & Hc & _ & _ & Ht).
  unfold RoadmapDialog.render, RoadmapDialog.when_loaded.
  cbn [loaded isLoading isError data negb andb]. rewrite Hr, Hc. cbn [JS.bind].
  eexists. split; [reflexivity|].
  unfold free_of in Ht.
  cbn [RoadmapDialog.loading_view RoadmapDialog.error_view loaded isLoading isError app].
  rewrite !find_all_Elem. cbn [String.eqb Ascii.eqb Bool.eqb flat_map app].
  rewrite !find_all_Elem. cbn [String.eqb Ascii.eqb Bool.eqb flat_map app].
  rewrite ?Ht. cbn [app].
  unfold RoadmapDialog.close_button, Button, str.
  rewrite !find_all_Elem. cbn [String.eqb Ascii.eqb Bool.eqb flat_map app find_all].
  rewrite ?Ht. reflexivity.
Qed.

(** C1, as the code has it.  For a response that has arrived and is truthy,
    the panel of src/client/src/components/RoadmapDialog.tsx renders
    without an exception when every value of the response that reaches a
    child position is printable (no object, also not inside an array): the
    entries of [skills_gap] and [certifications], the title, the duration
    and the tasks of each phase, the title and the description of each
    project, each list looked at only where it is an array, and in a
    development build the [length] of the four fields; an open dialog
    renders without an exception only then.  Whenever it renders, each of the four sections whose field is absent or is not an
    array is there as its named placeholder, whatever the other three
    fields hold, and each phase whose tasks are absent or not an array
    shows "No tasks defined for this phase".  A response that is falsy
    (null, false, 0, the empty string) renders, with no section and no
    placeholder.  The second copy of the component (src/unnamed/part_000)
    has no such guards: on a truthy response it throws as soon as one of
    the four fields is absent or not an array. *)
Theorem C1_absent_field_renders_placeholder (DEV : bool)
    (p : RoadmapDialog.RoadmapDialogProps) (roadmap : value) :
  (truthy roadmap = true ->
   (renderable DEV roadmap = true ->
    is_ok (RoadmapDialog.render DEV p (loaded roadmap)) = true)
   /\ (RoadmapDialog.open p = true ->
       is_ok (RoadmapDialog.render DEV p (loaded roadmap)) = renderable DEV roadmap)
   /\ (forall tree,
        RoadmapDialog.render DEV p (loaded roadmap) = Ok tree ->
        (isArray (get_own roadmap "skills_gap") = false ->
           inside (RoadmapDialog.placeholder "No skills gap data available") tree
           /\ shows "No skills gap data available" tree)
        /\ (isArray (get_own roadmap "learning_path") = false ->
           inside (RoadmapDialog.placeholder "No learning path data available") tree
           /\ shows "No learning path data available" tree)
        /\ (isArray (get_own roadmap "certifications") = false ->
           inside (RoadmapDialog.placeholder "No certification recommendations available") tree
           /\ shows "No certification recommendations available" tree)
        /\ (isArray (get_own roadmap "projects") = false ->
           inside (RoadmapDialog.placeholder "No project suggestions available") tree
           /\ shows "No project suggestions available" tree)
        /\ (forall step,
             In step (RoadmapDialog.elements (get_own roadmap "learning_path")) ->
             isArray (opt_get step "tasks") = false ->
             inside (RoadmapDialog.placeholder "No tasks defined for this phase") tree
             /\ shows "No tasks defined for this phase" tree))
   /\ (four_arrays roadmap = false ->
       is_ok (RoadmapDialogPart000.render p (loaded roadmap)) = false))
  /\ (truthy roadmap = false ->
      exists tree,
        RoadmapDialog.render DEV p (loaded roadmap) = Ok tree
        /\ find_all "Typography" tree = []).
Proof.
  split; [|apply falsy_roadmap_no_section].
  intros Hr.
  split; [intros Hok; rewrite <- Hok; apply render_is_ok; exact Hr|].
  split; [intros _; apply render_is_ok; exact Hr|].
  split; [|apply part000_needs_four_arrays; exact Hr].
  intros tree Htree.
  destruct (render_loaded_inv DEV p roadmap tree Hr Htree)
    as (s1 & s2 & s3 & s4 & E1 & E2 & E3 & E4 & Hin).
  assert (Hboth : forall msg, inside (RoadmapDialog.placeholder msg) tree ->
                    inside (RoadmapDialog.placeholder msg) tree /\ shows msg tree)
    by (intros msg H; split; [exact H|apply inside_shows; exact H]).
  split; [|split; [|split; [|split]]].
  - intros H. apply Hboth, Hin.
    rewrite (nonempty_array_not_array _ H) in E1. inv_Ok E1.
    apply Exists_cons_hd, inside_here.
  - intros H. apply Hboth, Hin.
    rewrite (nonempty_array_not_array _ H) in E2. inv_Ok E2.
    apply Exists_app. right. apply Exists_cons_hd, inside_here.
  - intros H. apply Hboth, Hin.
    rewrite (nonempty_array_not_array _ H) in E3. inv_Ok E3.
    apply Exists_app. right. apply Exists_app. right. apply Exists_cons_hd, inside_here.
  - intros H. apply Hboth, Hin.
    rewrite (nonempty_array_not_array _ H) in E4. inv_Ok E4.
    apply Exists_app. right. apply Exists_app. right. apply Exists_app. right.
    apply Exists_cons_hd, inside_here.
  - intros step Hstep Htasks. apply Hboth, Hin.
    apply Exists_app. right. apply Exists_app. left.
    destruct (RoadmapDialog.nonempty_array (get_own roadmap "learning_path")) eqn:Hne;
      [|rewrite (elements_not_nonempty _ Hne) in Hstep; destruct Hstep].
    destruct (mapi_from_In RoadmapDialog.step_item _ step Hstep 0 s2 E2)
      as (k & nsx & Hk & Hsub).
    unfold RoadmapDialog.step_item in Hk. inv_bind Hk. inv_bind Hk. inv_bind Hk. inv_Ok Hk.
    unfold RoadmapDialog.tasks_of in Ha1. rewrite Htasks, andb_false_r in Ha1. inv_Ok Ha1.
    apply Exists_exists. eexists. split.
    + apply list_elem_of_In. apply Hsub. left. reflexivity.
    + apply inside_Elem, Exists_cons_tl, Exists_cons_hd, inside_Elem, Exists_cons_hd.
      apply inside_Elem, Exists_cons_hd, inside_here.
Qed.

(** The witness of C1: a response that lacks [certifications]. *)
Lemma C1_witness :
  let p := opened (Callback "onClose") "r1" "Data Analyst" in
  renderable false roadmap_without_certifications = true
  /\ exists tree,
       RoadmapDialog.render false p (loaded roadmap_without_certifications) = Ok tree
       /\ inside (RoadmapDialog.placeholder "No certification recommendations available") tree
       /\ shows "No certification recommendations available" tree.
Proof.
  intros p. split; [reflexivity|].
  destruct (proj1 (C1_absent_field_renders_placeholder false p roadmap_without_certifications)
              eq_refl) as (_ & _ & H & _).
  eexists. split; [reflexivity|].
  apply (proj1 (proj2 (proj2 (H _ eq_refl)))). reflexivity.
Defined.

(** C1 as stated fails: these two responses have no [certifications] field,
    and rendering the panel throws, because an entry of another list is an
    object (React refuses it as a child; a field named [startsWith] that is
    not a function is called). *)
Lemma C1_counterexample :
  let p := opened (Callback "onClose") "r1" "Data Analyst" in
  get_own roadmap_with_skill_objects "certifications" = VUndefined
  /\ RoadmapDialog.render false p (loaded roadmap_with_skill_objects)
     = Throw (ReactError "Objects are not valid as a React child")
  /\ get_own roadmap_with_startsWith_field "certifications" = VUndefined
  /\ RoadmapDialog.render false p (loaded roadmap_with_startsWith_field)
     = Throw (TypeError "startsWith is not a function").
Proof. repeat split; reflexivity. Qed.

(** The second copy of the component maps [certifications] unguarded and
    throws on a response that lacks the field. *)
Lemma part000_throws_without_certifications :
  RoadmapDialogPart000.render (opened (Callback "onClose") "r1" "Data Analyst")
    (loaded roadmap_without_certifications)
  = Throw (TypeError "Cannot read properties of null or undefined, reading map").
Proof. reflexivity. Qed.
